(** * Pharmyrus V6 layered crawler: circuit breaker, fallback manager, pipeline

    A shallow embedding of the acquisition orchestration layer of the
    repository:

    - [base_crawler]   : [app/crawlers/base_crawler.py]
    - [crawler_manager]: [app/crawlers/crawler_manager.py]
    - [v6_layered_orchestrator] : [app/services/v6_layered_orchestrator.py]
    - [api_deploy]     : [api_deploy.py]

    Python integers are [Z]; wall-clock readings ([time.time()]) are [Z]
    seconds on a discrete clock; the remaining floats (response times,
    averages, rates) are exact rationals [Q], of which the Python doubles
    are the rounded values.  Exceptions are instances of [Exception] and
    carry their message. *)

From Stdlib Require Import ZArith QArith Lia Ascii String.
From stdpp Require Import base option list functions sorting gmap strings.

Local Open Scope Z_scope.

(** ** Results of calls that may raise *)

Inductive outcome (A : Type) : Type :=
| Return (a : A)
| Raise (e : string).
Arguments Return {A} a.
Arguments Raise {A} e.

(** The value of a call that returned. *)
Definition returned {A : Type} (o : outcome A) : option A :=
  match o with Return a => Some a | Raise _ => None end.

(** * base_crawler.py *)

Module base_crawler.

Inductive CrawlerLayer : Set := PLAYWRIGHT | HTTPX | SELENIUM.

Inductive CrawlerStatus : Set := READY | RUNNING | CIRCUIT_OPEN | FAILED.

#[global] Instance CrawlerLayer_eq_dec : EqDecision CrawlerLayer.
Proof. solve_decision. Defined.

#[global] Instance CrawlerStatus_eq_dec : EqDecision CrawlerStatus.
Proof. solve_decision. Defined.

(** [list(CrawlerLayer)]: the members in definition order. *)
Definition CrawlerLayer_members : list CrawlerLayer :=
  [PLAYWRIGHT; HTTPX; SELENIUM].

(** The [self.metrics] dict; its key set is fixed by [__init__]. *)
Record Metrics : Type := mkMetrics {
  total_requests : Z;
  successful_requests : Z;
  failed_requests : Z;
  blocked_requests : Z;
  total_time : Q;
  avg_response_time : Q
}.

Record BaseCrawler : Type := mkBaseCrawler {
  name : string;
  layer : CrawlerLayer;
  status : CrawlerStatus;
  consecutive_failures : Z;
  max_failures : Z;
  circuit_open_until : Z;
  circuit_cooldown : Z;
  metrics : Metrics;
  request_times : list Q;
  max_request_time_samples : nat
}.

Definition __init__ (name : string) (layer : CrawlerLayer) : BaseCrawler :=
  {| name := name;
     layer := layer;
     status := READY;
     consecutive_failures := 0;
     max_failures := 3;
     circuit_open_until := 0;
     circuit_cooldown := 300;
     metrics := {| total_requests := 0;
                   successful_requests := 0;
                   failed_requests := 0;
                   blocked_requests := 0;
                   total_time := 0%Q;
                   avg_response_time := 0%Q |};
     request_times := [];
     max_request_time_samples := 100 |}.

(** Attribute assignments [self.x = v]. *)
Definition set_status (v : CrawlerStatus) (self : BaseCrawler) : BaseCrawler :=
  mkBaseCrawler (name self) (layer self) v (consecutive_failures self)
    (max_failures self) (circuit_open_until self) (circuit_cooldown self)
    (metrics self) (request_times self) (max_request_time_samples self).

Definition set_consecutive_failures (v : Z) (self : BaseCrawler) : BaseCrawler :=
  mkBaseCrawler (name self) (layer self) (status self) v
    (max_failures self) (circuit_open_until self) (circuit_cooldown self)
    (metrics self) (request_times self) (max_request_time_samples self).

Definition set_circuit_open_until (v : Z) (self : BaseCrawler) : BaseCrawler :=
  mkBaseCrawler (name self) (layer self) (status self) (consecutive_failures self)
    (max_failures self) v (circuit_cooldown self)
    (metrics self) (request_times self) (max_request_time_samples self).

Definition set_metrics (v : Metrics) (self : BaseCrawler) : BaseCrawler :=
  mkBaseCrawler (name self) (layer self) (status self) (consecutive_failures self)
    (max_failures self) (circuit_open_until self) (circuit_cooldown self)
    v (request_times self) (max_request_time_samples self).

Definition set_request_times (v : list Q) (self : BaseCrawler) : BaseCrawler :=
  mkBaseCrawler (name self) (layer self) (status self) (consecutive_failures self)
    (max_failures self) (circuit_open_until self) (circuit_cooldown self)
    (metrics self) v (max_request_time_samples self).

(** [is_available]: [now] is the value [time.time()] returns inside the
    call.  The method both answers and, when the cooldown has elapsed on
    an open circuit, mutates [self]. *)
Definition is_available (now : Z) (self : BaseCrawler) : bool * BaseCrawler :=
  if now <? circuit_open_until self then (false, self)
  else
    let self1 :=
      if decide (status self = CIRCUIT_OPEN)
      then set_consecutive_failures 0 (set_status READY self)
      else self in
    (bool_decide (status self1 ≠ FAILED), self1).

(** [sum(self.request_times)]: left to right from 0. *)
Definition sum (xs : list Q) : Q := fold_left Qplus xs 0%Q.

(** [list.pop(0)]. *)
Definition pop0 (xs : list Q) : list Q := tail xs.

Definition record_success (response_time : Q) (self : BaseCrawler) : BaseCrawler :=
  let m := metrics self in
  let m1 := mkMetrics (total_requests m + 1) (successful_requests m + 1)
              (failed_requests m) (blocked_requests m)
              (total_time m + response_time)%Q (avg_response_time m) in
  let rts := request_times self ++ [response_time] in
  let rts1 :=
    if (max_request_time_samples self <? length rts)%nat then pop0 rts else rts in
  let m2 := mkMetrics (total_requests m1) (successful_requests m1)
              (failed_requests m1) (blocked_requests m1) (total_time m1)
              (sum rts1 / inject_Z (Z.of_nat (length rts1)))%Q in
  set_status READY
    (set_consecutive_failures 0
       (set_request_times rts1 (set_metrics m2 self))).

Definition open_circuit (now : Z) (self : BaseCrawler) : BaseCrawler :=
  set_status CIRCUIT_OPEN
    (set_circuit_open_until (now + circuit_cooldown self) self).

(** [record_failure]: [now] is read only when the circuit opens. *)
Definition record_failure (now : Z) (is_block : bool) (self : BaseCrawler)
  : BaseCrawler :=
  let m := metrics self in
  let m1 := mkMetrics (total_requests m + 1) (successful_requests m)
              (failed_requests m + 1)
              (if is_block then blocked_requests m + 1 else blocked_requests m)
              (total_time m) (avg_response_time m) in
  let self1 := set_metrics m1 self in
  let self2 := set_consecutive_failures (consecutive_failures self1 + 1) self1 in
  if max_failures self2 <=? consecutive_failures self2
  then open_circuit now self2
  else self2.

Definition get_success_rate (self : BaseCrawler) : Q :=
  if total_requests (metrics self) =? 0 then 0%Q
  else (inject_Z (successful_requests (metrics self))
        / inject_Z (total_requests (metrics self)) * 100)%Q.

(** What code outside the base class does to the base state.  The three
    subclasses touch it only by calling the three methods above and, in
    their [initialize], by assigning [self.status] ([READY] when the
    session came up, [FAILED] when it did not). *)
Inductive call : Type :=
| call_is_available (now : Z)
| call_record_success (response_time : Q)
| call_record_failure (now : Z) (is_block : bool)
| call_initialize (ok : bool).

Definition run_call (c : call) (self : BaseCrawler) : BaseCrawler :=
  match c with
  | call_is_available now => snd (is_available now self)
  | call_record_success rt => record_success rt self
  | call_record_failure now b => record_failure now b self
  | call_initialize ok => set_status (if ok then READY else FAILED) self
  end.

(** The calls are applied in list order. *)
Definition run_calls (cs : list call) (self : BaseCrawler) : BaseCrawler :=
  fold_left (fun s c => run_call c s) cs self.

(** The abstract methods.  A subclass implementation is a function of the
    backend's own base state and of the outside world [Env] (remote
    sites, browser sessions, the wall clock); it yields what the call
    returned or raised, the calls it made on its own base state, and the
    world afterwards.  The methods are indexed by the layer whose
    subclass implements them. *)
Class Backends (Env : Type) : Type := {
  search_patents :
    CrawlerLayer → string → Z → BaseCrawler → Env →
    outcome (list string) * list call * Env;
  get_patent_details :
    CrawlerLayer → string → BaseCrawler → Env →
    outcome (option (gmap string string)) * list call * Env;
  get_br_patents_from_wo :
    CrawlerLayer → string → BaseCrawler → Env →
    outcome (list string) * list call * Env;
  cleanup :
    CrawlerLayer → BaseCrawler → Env → outcome unit * list call * Env
}.

End base_crawler.

(** [time.time()] and [asyncio.sleep(d)] on the outside world. *)
Class Runtime (Env : Type) : Type := {
  time : Env → Z;
  sleep : Q → Env → Env
}.

(** * crawler_manager.py *)

Module crawler_manager.
Import base_crawler.

Inductive TargetSite : Set := GOOGLE_PATENTS | WIPO | INPI.

#[global] Instance TargetSite_eq_dec : EqDecision TargetSite.
Proof. solve_decision. Defined.

#[global] Instance TargetSite_countable : Countable TargetSite.
Proof.
  refine (inj_countable'
    (λ t, match t with GOOGLE_PATENTS => 0%nat | WIPO => 1%nat | INPI => 2%nat end)
    (λ n, match n with O => GOOGLE_PATENTS | S O => WIPO | _ => INPI end) _).
  by intros [].
Defined.

(** [self.crawlers], [self.layer_usage] and [self.layer_successes] are
    dicts whose key set is all of [CrawlerLayer], inserted in the order
    of [CrawlerLayer_members]; they are total functions here.
    [self.strategies] is a dict looked up with a caller-supplied key. *)
Record CrawlerManager : Type := mkCrawlerManager {
  crawlers : CrawlerLayer → BaseCrawler;
  strategies : gmap TargetSite (list CrawlerLayer);
  total_requests : Z;
  total_successes : Z;
  total_failures : Z;
  layer_usage : CrawlerLayer → Z;
  layer_successes : CrawlerLayer → Z
}.

(** The names the three subclasses pass to [BaseCrawler.__init__]. *)
Definition PlaywrightCrawler : BaseCrawler := base_crawler.__init__ "Playwright" PLAYWRIGHT.
Definition HTTPXCrawler : BaseCrawler := base_crawler.__init__ "HTTPX" HTTPX.
Definition SeleniumCrawler : BaseCrawler := base_crawler.__init__ "Selenium" SELENIUM.

Definition __init__ : CrawlerManager :=
  {| crawlers := λ l, match l with
                      | PLAYWRIGHT => PlaywrightCrawler
                      | HTTPX => HTTPXCrawler
                      | SELENIUM => SeleniumCrawler
                      end;
     strategies :=
       <[GOOGLE_PATENTS := [PLAYWRIGHT; SELENIUM; HTTPX]]>
       (<[WIPO := [HTTPX; PLAYWRIGHT; SELENIUM]]>
       (<[INPI := [HTTPX; PLAYWRIGHT; SELENIUM]]> ∅));
     total_requests := 0;
     total_successes := 0;
     total_failures := 0;
     layer_usage := λ _, 0;
     layer_successes := λ _, 0 |}.

Definition set_crawler (l : CrawlerLayer) (c : BaseCrawler) (self : CrawlerManager)
  : CrawlerManager :=
  mkCrawlerManager (<[l := c]> (crawlers self)) (strategies self)
    (total_requests self) (total_successes self) (total_failures self)
    (layer_usage self) (layer_successes self).

Definition incr_total_requests (self : CrawlerManager) : CrawlerManager :=
  mkCrawlerManager (crawlers self) (strategies self)
    (total_requests self + 1) (total_successes self) (total_failures self)
    (layer_usage self) (layer_successes self).

Definition incr_total_successes (self : CrawlerManager) : CrawlerManager :=
  mkCrawlerManager (crawlers self) (strategies self)
    (total_requests self) (total_successes self + 1) (total_failures self)
    (layer_usage self) (layer_successes self).

Definition incr_total_failures (self : CrawlerManager) : CrawlerManager :=
  mkCrawlerManager (crawlers self) (strategies self)
    (total_requests self) (total_successes self) (total_failures self + 1)
    (layer_usage self) (layer_successes self).

Definition incr_layer_usage (l : CrawlerLayer) (self : CrawlerManager) : CrawlerManager :=
  mkCrawlerManager (crawlers self) (strategies self)
    (total_requests self) (total_successes self) (total_failures self)
    (<[l := layer_usage self l + 1]> (layer_usage self)) (layer_successes self).

Definition incr_layer_successes (l : CrawlerLayer) (self : CrawlerManager) : CrawlerManager :=
  mkCrawlerManager (crawlers self) (strategies self)
    (total_requests self) (total_successes self) (total_failures self)
    (layer_usage self) (<[l := layer_successes self l + 1]> (layer_successes self)).

(** Ghost record of one visit of the fallback loop: the backend was
    skipped, or its operation was awaited and ended with [out].  [now]
    is the clock reading of the availability check. *)
Inductive event (R : Type) : Type :=
| Skipped (l : CrawlerLayer) (now : Z)
| Awaited (l : CrawlerLayer) (now : Z) (out : outcome R).
Arguments Skipped {R} l now.
Arguments Awaited {R} l now out.

Definition event_layer {R} (ev : event R) : CrawlerLayer :=
  match ev with Skipped l _ => l | Awaited l _ _ => l end.

(** Python truthiness of a list and of an optional dict. *)
Definition list_truthy {A} (xs : list A) : bool :=
  match xs with [] => false | _ => true end.

Definition details_truthy (d : option (gmap string string)) : bool :=
  match d with None => false | Some m => bool_decide (m ≠ ∅) end.

Section operations.
Context {Env : Type} `{!Runtime Env} `{!Backends Env}.

(** The [for layer in strategy] loop of [search_wo_numbers] together
    with the statements after it. *)
Fixpoint search_wo_numbers_loop (strategy : list CrawlerLayer)
    (query : string) (max_results : Z) (self : CrawlerManager) (env : Env)
  : (list string * string) * CrawlerManager * Env * list (event (list string)) :=
  match strategy with
  | [] =>
      (* All layers failed *)
      (([], "none"), incr_total_failures self, env, [])
  | layer :: rest =>
      let now := time env in
      let '(available, crawler) := is_available now (crawlers self layer) in
      let self := set_crawler layer crawler self in
      if negb available then
        let '(r, self', env', evs) :=
          search_wo_numbers_loop rest query max_results self env in
        (r, self', env', Skipped layer now :: evs)
      else
        let self := incr_layer_usage layer (incr_total_requests self) in
        let '(out, calls, env) :=
          search_patents layer query max_results crawler env in
        let crawler := run_calls calls crawler in
        let self := set_crawler layer crawler self in
        match out with
        | Return wo_numbers =>
            if list_truthy wo_numbers then
              let self := incr_layer_successes layer (incr_total_successes self) in
              ((wo_numbers, name crawler), self, env, [Awaited layer now out])
            else
              let '(r, self', env', evs) :=
                search_wo_numbers_loop rest query max_results self env in
              (r, self', env', Awaited layer now out :: evs)
        | Raise e =>
            let '(r, self', env', evs) :=
              search_wo_numbers_loop rest query max_results self env in
            (r, self', env', Awaited layer now out :: evs)
        end
  end.

(** [self.strategies[target]] raises [KeyError] on a missing key. *)
Definition search_wo_numbers (query : string) (target : TargetSite)
    (max_results : Z) (self : CrawlerManager) (env : Env)
  : outcome (list string * string) * CrawlerManager * Env
    * list (event (list string)) :=
  match strategies self !! target with
  | None => (Raise "KeyError", self, env, [])
  | Some strategy =>
      let '(r, self', env', evs) :=
        search_wo_numbers_loop strategy query max_results self env in
      (Return r, self', env', evs)
  end.

Fixpoint get_patent_details_loop (strategy : list CrawlerLayer)
    (wo_number : string) (self : CrawlerManager) (env : Env)
  : (option (gmap string string) * string) * CrawlerManager * Env
    * list (event (option (gmap string string))) :=
  match strategy with
  | [] => ((None, "none"), self, env, [])
  | layer :: rest =>
      let now := time env in
      let '(available, crawler) := is_available now (crawlers self layer) in
      let self := set_crawler layer crawler self in
      if negb available then
        let '(r, self', env', evs) :=
          get_patent_details_loop rest wo_number self env in
        (r, self', env', Skipped layer now :: evs)
      else
        let self := incr_layer_usage layer self in
        let '(out, calls, env) :=
          base_crawler.get_patent_details layer wo_number crawler env in
        let crawler := run_calls calls crawler in
        let self := set_crawler layer crawler self in
        match out with
        | Return details =>
            if details_truthy details then
              let self := incr_layer_successes layer self in
              ((details, name crawler), self, env, [Awaited layer now out])
            else
              let '(r, self', env', evs) :=
                get_patent_details_loop rest wo_number self env in
              (r, self', env', Awaited layer now out :: evs)
        | Raise e =>
            let '(r, self', env', evs) :=
              get_patent_details_loop rest wo_number self env in
            (r, self', env', Awaited layer now out :: evs)
        end
  end.

Definition get_patent_details (wo_number : string) (target : TargetSite)
    (self : CrawlerManager) (env : Env)
  : outcome (option (gmap string string) * string) * CrawlerManager * Env
    * list (event (option (gmap string string))) :=
  match strategies self !! target with
  | None => (Raise "KeyError", self, env, [])
  | Some strategy =>
      let '(r, self', env', evs) :=
        get_patent_details_loop strategy wo_number self env in
      (Return r, self', env', evs)
  end.

Fixpoint get_br_patents_from_wo_loop (strategy : list CrawlerLayer)
    (wo_number : string) (self : CrawlerManager) (env : Env)
  : (list string * string) * CrawlerManager * Env * list (event (list string)) :=
  match strategy with
  | [] => (([], "none"), self, env, [])
  | layer :: rest =>
      let now := time env in
      let '(available, crawler) := is_available now (crawlers self layer) in
      let self := set_crawler layer crawler self in
      if negb available then
        let '(r, self', env', evs) :=
          get_br_patents_from_wo_loop rest wo_number self env in
        (r, self', env', Skipped layer now :: evs)
      else
        let self := incr_layer_usage layer self in
        let '(out, calls, env) :=
          base_crawler.get_br_patents_from_wo layer wo_number crawler env in
        let crawler := run_calls calls crawler in
        let self := set_crawler layer crawler self in
        match out with
        | Return br_patents =>
            if list_truthy br_patents then
              let self := incr_layer_successes layer self in
              ((br_patents, name crawler), self, env, [Awaited layer now out])
            else
              let '(r, self', env', evs) :=
                get_br_patents_from_wo_loop rest wo_number self env in
              (r, self', env', Awaited layer now out :: evs)
        | Raise e =>
            let '(r, self', env', evs) :=
              get_br_patents_from_wo_loop rest wo_number self env in
            (r, self', env', Awaited layer now out :: evs)
        end
  end.

Definition get_br_patents_from_wo (wo_number : string) (target : TargetSite)
    (self : CrawlerManager) (env : Env)
  : outcome (list string * string) * CrawlerManager * Env
    * list (event (list string)) :=
  match strategies self !! target with
  | None => (Raise "KeyError", self, env, [])
  | Some strategy =>
      let '(r, self', env', evs) :=
        get_br_patents_from_wo_loop strategy wo_number self env in
      (Return r, self', env', evs)
  end.

(** [sorted(xs)] on strings.  Python orders [str] by code point, which
    is the bytewise lexicographic order of the encoded text; on a list
    without repetitions the result is the one ascending arrangement. *)
Definition sorted (xs : list string) : list string := merge_sort String.le xs.

(** The [for i, query in enumerate(queries, 1)] loop.  [all_wo_numbers]
    is a Python [set] of [str]: membership is string equality. *)
Fixpoint search_wo_numbers_multi_query_loop (queries : list string)
    (target : TargetSite) (max_results_per_query : Z)
    (all_wo_numbers : gset string) (layer_usage_count : gmap string Z)
    (self : CrawlerManager) (env : Env)
  : outcome (gset string * gmap string Z) * CrawlerManager * Env :=
  match queries with
  | [] => (Return (all_wo_numbers, layer_usage_count), self, env)
  | query :: rest =>
      let '(r, self, env, _) :=
        search_wo_numbers query target max_results_per_query self env in
      match r with
      | Raise e => (Raise e, self, env)
      | Return (wo_numbers, layer_used) =>
          (* Track layer usage *)
          let layer_usage_count :=
            <[layer_used := default 0 (layer_usage_count !! layer_used) + 1]>
              layer_usage_count in
          (* Add to set (auto-deduplication) *)
          let all_wo_numbers := all_wo_numbers ∪ list_to_set wo_numbers in
          (* Small delay between queries *)
          let env := sleep (1 # 2) env in
          search_wo_numbers_multi_query_loop rest target max_results_per_query
            all_wo_numbers layer_usage_count self env
      end
  end.

Definition search_wo_numbers_multi_query (queries : list string)
    (target : TargetSite) (max_results_per_query : Z)
    (self : CrawlerManager) (env : Env)
  : outcome (list string * gmap string Z) * CrawlerManager * Env :=
  let '(r, self, env) :=
    search_wo_numbers_multi_query_loop queries target max_results_per_query
      ∅ ∅ self env in
  match r with
  | Raise e => (Raise e, self, env)
  | Return (all_wo_numbers, layer_usage_count) =>
      let unique_list := sorted (elements all_wo_numbers) in
      (Return (unique_list, layer_usage_count), self, env)
  end.

(** [cleanup_all]: [for crawler in self.crawlers.values()] with each
    [await crawler.cleanup()] inside [try ... except Exception], which
    logs and goes on.  The ghost list records, in order, the backends
    whose [cleanup] was awaited and how each call ended. *)
Fixpoint cleanup_all_loop (values : list CrawlerLayer)
    (self : CrawlerManager) (env : Env)
  : CrawlerManager * Env * list (CrawlerLayer * outcome unit) :=
  match values with
  | [] => (self, env, [])
  | layer :: rest =>
      let crawler := crawlers self layer in
      let '(out, calls, env) := cleanup layer crawler env in
      let self := set_crawler layer (run_calls calls crawler) self in
      let '(self', env', cleaned) := cleanup_all_loop rest self env in
      (self', env', (layer, out) :: cleaned)
  end.

Definition cleanup_all (self : CrawlerManager) (env : Env)
  : CrawlerManager * Env * list (CrawlerLayer * outcome unit) :=
  cleanup_all_loop CrawlerLayer_members self env.

End operations.

(** The figure behind ['success_rate'] in the ['manager'] part of
    [get_all_metrics]: [(self.total_successes / max(1,
    self.total_requests)) * 100], before it is formatted. *)
Definition manager_success_rate (self : CrawlerManager) : Q :=
  (inject_Z (total_successes self)
   / inject_Z (Z.max 1 (total_requests self)) * 100)%Q.

End crawler_manager.

(** * v6_layered_orchestrator.py *)

Module v6_layered_orchestrator.
Import base_crawler crawler_manager.

(** ** String methods used by the pipeline *)

(** [str.upper] on one character: the ASCII letters [a]..[z] move to
    [A]..[Z], every other byte stays. *)
Definition upper_char (c : ascii) : ascii :=
  let n := nat_of_ascii c in
  if ((97 <=? n) && (n <=? 122))%nat then ascii_of_nat (n - 32) else c.

Fixpoint upper (s : string) : string :=
  match s with
  | EmptyString => EmptyString
  | String c s' => String (upper_char c) (upper s')
  end.

(** [s.replace(old, new)] for a one-character [old]. *)
Fixpoint replace (old : ascii) (new : string) (s : string) : string :=
  match s with
  | EmptyString => EmptyString
  | String c s' =>
      if decide (c = old) then new +:+ replace old new s'
      else String c (replace old new s')
  end.

(** [s.startswith(p)]. *)
Definition startswith (p s : string) : bool := String.prefix p s.

(** Truthiness of an [Optional[str]]. *)
Definition str_truthy (s : option string) : bool :=
  match s with None => false | Some v => bool_decide (v ≠ "") end.

(** ** Data *)

(** The dict returned by the molecule lookup; [.get(key, default)]
    reads of absent keys are the defaults below. *)
Record PubchemData : Type := mkPubchemData {
  cid : option Z;
  cas : option string;
  dev_codes : list string;
  synonyms : list string
}.

(** What the pipeline reads of an HTTP response of the patent-office
    index: the status code and, when the decoded body has the key
    ['data'], the [patent.get('title', '')] of its entries. *)
Record Response : Type := mkResponse {
  status_code : Z;
  data : option (list string)
}.

(** The external collaborators. *)
Class Collaborators (Env : Type) : Type := {
  get_molecule_data : string → Env → outcome PubchemData * Env;
  client_get : string → Env → outcome Response * Env
}.

Record WoDiscovery : Type := mkWoDiscovery {
  wo_numbers : list string;
  queries_used : Z;
  layer_usage : gmap string Z;
  total_found : Z
}.

(** A BR patent record is a dict from [str] to [str]. *)
Record WoToBr : Type := mkWoToBr {
  wo_br_patents : list (gmap string string);
  successful_conversions : Z;
  failed_conversions : Z
}.

Record InpiSearch : Type := mkInpiSearch {
  inpi_br_patents : list (gmap string string);
  inpi_total_found : Z
}.

Record Summary : Type := mkSummary {
  total_wo_found : Z;
  total_br_found : Z;
  wo_with_br : Z;
  inpi_found : Z;
  by_source : gmap string Z
}.

(** The [results] dict of [search].  [statistics] holds the manager
    state and clock reading from which [get_all_metrics()] derives its
    report, a pure read. *)
Record Results : Type := mkResults {
  molecule_info : option PubchemData;
  wo_discovery : option WoDiscovery;
  wo_to_br_conversion : option WoToBr;
  inpi_search : option InpiSearch;
  br_patents : list (gmap string string);
  summary : option Summary;
  statistics : option (CrawlerManager * Z);
  execution_time : Z;
  error : option string
}.

Definition inpi_api_url : string :=
  "https://crawler3-production.up.railway.app/api/data/inpi/patents".

(** ** Pure helpers *)

Definition _build_wo_queries (molecule_name : string) (dev_codes : list string)
    (cas : option string) : list string :=
  let years := ["2016"; "2018"; "2019"; "2020"; "2021"; "2022"; "2023"] in
  let queries := (λ year, molecule_name +:+ " patent WO" +:+ year) <$> years in
  let companies := ["Orion"; "Bayer"; "Pfizer"; "Roche"; "Novartis"; "Merck"] in
  let queries :=
    queries ++ ((λ company, molecule_name +:+ " " +:+ company +:+ " patent")
                <$> take 3 companies) in
  let queries :=
    queries ++ ((λ dev_code, dev_code +:+ " patent WO") <$> take 5 dev_codes) in
  if str_truthy cas
  then queries ++ [default "" cas +:+ " patent WO"]
  else queries.

(** [patent['number'].upper().replace(' ', '').replace('-', '')]. *)
Definition normalize (number : string) : string :=
  replace "-" "" (replace " " "" (upper number)).

(** The loop of [_deduplicate_br_patents]; [patent['number']] raises
    [KeyError] on a record without that key. *)
Fixpoint _deduplicate_br_patents_loop (all_patents : list (gmap string string))
    (seen : gset string) (unique_patents : list (gmap string string))
  : outcome (list (gmap string string)) :=
  match all_patents with
  | [] => Return unique_patents
  | patent :: rest =>
      match patent !! "number" with
      | None => Raise "KeyError"
      | Some number =>
          let patent_num := normalize number in
          if decide (patent_num ∉ seen)
          then _deduplicate_br_patents_loop rest ({[patent_num]} ∪ seen)
                 (unique_patents ++ [patent])
          else _deduplicate_br_patents_loop rest seen unique_patents
      end
  end.

Definition _deduplicate_br_patents (wo_br_patents inpi_br_patents : list (gmap string string))
  : outcome (list (gmap string string)) :=
  let all_patents := wo_br_patents ++ inpi_br_patents in
  _deduplicate_br_patents_loop all_patents ∅ [].

Definition _count_by_source (br_patents : list (gmap string string))
  : gmap string Z :=
  fold_left
    (λ counts patent,
       let source := default "unknown" (patent !! "source") in
       <[source := default 0 (counts !! source) + 1]> counts)
    br_patents ∅.

(** ** The phases *)

Section pipeline.
Context {Env : Type} `{!Runtime Env} `{!Backends Env} `{!Collaborators Env}.

(** Phase 1.  The lookup runs inside [try ... except Exception]. *)
Definition _get_pubchem_data (molecule_name : string) (env : Env)
  : PubchemData * Env :=
  let '(r, env) := get_molecule_data molecule_name env in
  match r with
  | Return data => (data, env)
  | Raise e => (mkPubchemData None None [] [], env)
  end.

(** Phase 2. *)
Definition _discover_wo_numbers (molecule_name : string)
    (dev_codes : list string) (cas : option string)
    (manager : CrawlerManager) (env : Env)
  : outcome WoDiscovery * CrawlerManager * Env :=
  let queries := _build_wo_queries molecule_name dev_codes cas in
  let '(r, manager, env) :=
    search_wo_numbers_multi_query queries GOOGLE_PATENTS 10 manager env in
  match r with
  | Raise e => (Raise e, manager, env)
  | Return (wo_numbers, layer_usage) =>
      (Return (mkWoDiscovery wo_numbers (Z.of_nat (length queries))
                 layer_usage (Z.of_nat (length wo_numbers))),
       manager, env)
  end.

(** Phase 3: the [for i, wo_number in enumerate(wo_numbers, 1)] loop. *)
Fixpoint _convert_wo_to_br_loop (wo_numbers : list string)
    (all_br_patents : list (gmap string string)) (successful failed : Z)
    (manager : CrawlerManager) (env : Env)
  : outcome WoToBr * CrawlerManager * Env :=
  match wo_numbers with
  | [] => (Return (mkWoToBr all_br_patents successful failed), manager, env)
  | wo_number :: rest =>
      let '(r, manager, env, _) :=
        crawler_manager.get_br_patents_from_wo wo_number GOOGLE_PATENTS
          manager env in
      match r with
      | Raise e => (Raise e, manager, env)
      | Return (br_patents, layer_used) =>
          let '(all_br_patents, successful, failed) :=
            if list_truthy br_patents then
              (all_br_patents ++
                 ((λ br_patent,
                     <["number" := br_patent]>
                     (<["source_wo" := wo_number]>
                     (<["source" := "wo_family"]>
                     (<["layer" := layer_used]> (∅ : gmap string string)))))
                  <$> br_patents),
               successful + 1, failed)
            else (all_br_patents, successful, failed + 1) in
          (* Small delay between WO conversions *)
          let env := sleep (3 # 10) env in
          _convert_wo_to_br_loop rest all_br_patents successful failed
            manager env
      end
  end.

Definition _convert_wo_to_br (wo_numbers : list string)
    (manager : CrawlerManager) (env : Env)
  : outcome WoToBr * CrawlerManager * Env :=
  if negb (list_truthy wo_numbers)
  then (Return (mkWoToBr [] 0 0), manager, env)
  else _convert_wo_to_br_loop wo_numbers [] 0 0 manager env.

(** Phase 4.  The records a molecule response contributes. *)
Definition inpi_molecule_patents (titles : list string)
  : list (gmap string string) :=
  (λ title,
     <["number" := replace " " "-" title]>
     (<["source" := "inpi_molecule"]>
     (<["layer" := "inpi_api"]> (∅ : gmap string string))))
  <$> filter (λ title, startswith "BR" title = true) titles.

(** The brand loop appends a record unless one with the same ['number']
    is already in [br_patents]. *)
Fixpoint inpi_brand_patents (titles : list string)
    (br_patents : list (gmap string string)) : list (gmap string string) :=
  match titles with
  | [] => br_patents
  | title :: rest =>
      if startswith "BR" title then
        let patent_num := replace " " "-" title in
        if bool_decide (Exists (λ p, p !! "number" = Some patent_num) br_patents)
        then inpi_brand_patents rest br_patents
        else inpi_brand_patents rest
               (br_patents ++
                  [<["number" := patent_num]>
                   (<["source" := "inpi_brand"]>
                   (<["layer" := "inpi_api"]> (∅ : gmap string string)))])
      else inpi_brand_patents rest br_patents
  end.

(** The whole body is inside [try ... except Exception]; whatever was
    appended to [br_patents] before a failure is kept. *)
Definition _search_inpi_direct (molecule_name : string)
    (brand_name : option string) (env : Env) : InpiSearch * Env :=
  let finish (br_patents : list (gmap string string)) :=
    mkInpiSearch br_patents (Z.of_nat (length br_patents)) in
  let '(r, env) :=
    client_get (inpi_api_url +:+ "?medicine=" +:+ molecule_name) env in
  match r with
  | Raise e => (finish [], env)
  | Return response =>
      let br_patents :=
        if status_code response =? 200
        then inpi_molecule_patents (default [] (data response))
        else [] in
      if str_truthy brand_name then
        let env := sleep 1 env in
        let '(r, env) :=
          client_get (inpi_api_url +:+ "?medicine=" +:+ default "" brand_name)
            env in
        match r with
        | Raise e => (finish br_patents, env)
        | Return response =>
            if status_code response =? 200
            then (finish (inpi_brand_patents (default [] (data response))
                            br_patents), env)
            else (finish br_patents, env)
        end
      else (finish br_patents, env)
  end.

(** ** [search] *)

Definition results_init : Results :=
  mkResults None None None None [] None None 0 None.

(** The body of the [try] block.  It threads [results], which the
    handler reads as it stood when an exception was raised; the second
    component is [Some e] when the body raised [e] and [None] when it
    reached [return results]. *)
Definition search_try (molecule_name : string) (brand_name : option string)
    (start_time : Z) (results : Results) (manager : CrawlerManager) (env : Env)
  : Results * option string * CrawlerManager * Env :=
  (* Phase 1: PubChem *)
  let '(pubchem_data, env) := _get_pubchem_data molecule_name env in
  let results :=
    mkResults (Some pubchem_data) (wo_discovery results)
      (wo_to_br_conversion results) (inpi_search results) (br_patents results)
      (summary results) (statistics results) (execution_time results)
      (error results) in
  (* Phase 2: Multi-Layer WO Discovery *)
  let '(r, manager, env) :=
    _discover_wo_numbers molecule_name (dev_codes pubchem_data)
      (cas pubchem_data) manager env in
  match r with
  | Raise e => (results, Some e, manager, env)
  | Return wo_data =>
      let results :=
        mkResults (molecule_info results) (Some wo_data)
          (wo_to_br_conversion results) (inpi_search results)
          (br_patents results) (summary results) (statistics results)
          (execution_time results) (error results) in
      (* Phase 3: WO to BR Conversion *)
      let '(r, manager, env) :=
        _convert_wo_to_br (wo_numbers wo_data) manager env in
      match r with
      | Raise e => (results, Some e, manager, env)
      | Return wo_to_br_data =>
          let results :=
            mkResults (molecule_info results) (wo_discovery results)
              (Some wo_to_br_data) (inpi_search results) (br_patents results)
              (summary results) (statistics results) (execution_time results)
              (error results) in
          (* Phase 4: INPI Direct Search *)
          let '(inpi_data, env) :=
            _search_inpi_direct molecule_name brand_name env in
          let results :=
            mkResults (molecule_info results) (wo_discovery results)
              (wo_to_br_conversion results) (Some inpi_data)
              (br_patents results) (summary results) (statistics results)
              (execution_time results) (error results) in
          (* Phase 5: Deduplicate and Build Final List *)
          match _deduplicate_br_patents (wo_br_patents wo_to_br_data)
                  (inpi_br_patents inpi_data) with
          | Raise e => (results, Some e, manager, env)
          | Return all_br_patents =>
              let results :=
                mkResults (molecule_info results) (wo_discovery results)
                  (wo_to_br_conversion results) (inpi_search results)
                  all_br_patents
                  (Some (mkSummary
                     (Z.of_nat (length (wo_numbers wo_data)))
                     (Z.of_nat (length all_br_patents))
                     (successful_conversions wo_to_br_data)
                     (Z.of_nat (length (inpi_br_patents inpi_data)))
                     (_count_by_source all_br_patents)))
                  (Some (manager, time env))
                  (time env - start_time)
                  (error results) in
              (results, None, manager, env)
          end
      end
  end.

(** [try: ... return results / except Exception as e: ... return
    results / finally: await self.crawler_manager.cleanup_all()].  The
    last component is the ghost record of the [cleanup] calls. *)
Definition search (molecule_name : string) (brand_name : option string)
    (target_countries : list string) (manager : CrawlerManager) (env : Env)
  : Results * CrawlerManager * Env * list (CrawlerLayer * outcome unit) :=
  let start_time := time env in
  let '(results, raised, manager, env) :=
    search_try molecule_name brand_name start_time results_init manager env in
  let results :=
    match raised with
    | None => results
    | Some e =>
        mkResults (molecule_info results) (wo_discovery results)
          (wo_to_br_conversion results) (inpi_search results)
          (br_patents results) (summary results) (statistics results)
          (time env - start_time) (Some e)
    end in
  let '(manager, env, cleaned) := cleanup_all manager env in
  (results, manager, env, cleaned).

End pipeline.
End v6_layered_orchestrator.

(** * api_deploy.py *)

Module api_deploy.
Import base_crawler crawler_manager.

Inductive response : Type :=
| JSONResponse (success : bool) (message : string)
| HTTPException (status_code : Z) (detail : string).

(** The names [getattr] resolves on a [CrawlerManager] object: the
    instance attributes assigned in [__init__] and the methods of the
    class. *)
Definition CrawlerManager_attributes : list string :=
  ["crawlers"; "strategies"; "total_requests"; "total_successes";
   "total_failures"; "layer_usage"; "layer_successes";
   "search_wo_numbers"; "get_patent_details"; "get_br_patents_from_wo";
   "search_wo_numbers_multi_query"; "get_all_metrics"; "cleanup_all";
   "print_statistics"].

(** [reset_circuit_breakers] on the global [orchestrator] (absent before
    startup), reduced to its [crawler_manager].  The list display
    [[manager.playwright_crawler, manager.httpx_crawler,
    manager.selenium_crawler]] is evaluated inside the [try]; the first
    name that does not resolve raises [AttributeError], which the
    [except Exception] clause turns into a 500 response.  Were all three
    to resolve, the loop body is guarded by
    [hasattr(crawler, 'circuit_breaker')], an attribute no crawler class
    defines, so nothing would be reset either. *)
Definition reset_circuit_breakers (orchestrator : option CrawlerManager)
  : response * option CrawlerManager :=
  match orchestrator with
  | None => (HTTPException 503 "Service not initialized", None)
  | Some manager =>
      match
        List.find (λ attr, bool_decide (attr ∉ CrawlerManager_attributes))
          ["playwright_crawler"; "httpx_crawler"; "selenium_crawler"]
      with
      | Some attr =>
          (HTTPException 500
             ("Failed to reset circuits: 'CrawlerManager' object has no attribute '"
              +:+ attr +:+ "'"),
           Some manager)
      | None =>
          (JSONResponse true "All circuit breakers reset", Some manager)
      end
  end.

End api_deploy.

(** * utils/delays.py *)

Module delays.

(** [max(a, b)] and [min(a, b)] on two floats: the first argument,
    unless the second is strictly larger (smaller).  Only comparisons
    are made, so the rationals stand for the floats. *)
Definition max (a b : Q) : Q := if Qle_bool b a then a else b.
Definition min (a b : Q) : Q := if Qle_bool a b then a else b.

(** [HumanDelaySimulator.random_delay]; [delay] is the value that
    [random.gauss(mid, std_dev)] returned. *)
Definition random_delay (min_sec max_sec : Q) (delay : Q) : Q :=
  (* Clamp to range *)
  max min_sec (min max_sec delay).

(** [DelayManager.SITE_DELAYS]. *)
Definition SITE_DELAYS : gmap string (Q * Q) :=
  <["google_patents" := (15, 30)%Q]>
  (<["wipo" := (2, 4)%Q]>
  (<["inpi" := (1 # 2, 1)%Q]>
  (<["pubchem" := (1, 2)%Q]>
  (<["default" := (2, 5)%Q]> ∅)))).

(** [DelayManager.get_delay]: the default of [.get] is the subscript
    [cls.SITE_DELAYS['default']], evaluated before the lookup. *)
Definition get_delay (site : string) (delay : Q) : outcome Q :=
  match SITE_DELAYS !! "default" with
  | None => Raise "KeyError"
  | Some fallback =>
      let '(min_delay, max_delay) := default fallback (SITE_DELAYS !! site) in
      Return (random_delay min_delay max_delay delay)
  end.

End delays.

(** * Vocabulary of the properties *)

Section circuit_breaker_vocabulary.
Import base_crawler.

(** What every state reached from [__init__] satisfies. *)
Record breaker_inv (self : BaseCrawler) : Prop := mk_breaker_inv {
  inv_max_failures : max_failures self = 3;
  inv_cooldown : circuit_cooldown self = 300;
  inv_open : status self = CIRCUIT_OPEN → 3 ≤ consecutive_failures self;
  inv_failures_nonneg : 0 ≤ consecutive_failures self;
  inv_total :
    total_requests (metrics self)
    = successful_requests (metrics self) + failed_requests (metrics self);
  inv_successful_nonneg : 0 ≤ successful_requests (metrics self);
  inv_failed_nonneg : 0 ≤ failed_requests (metrics self);
  inv_blocked_nonneg : 0 ≤ blocked_requests (metrics self)
}.

(** A run of recorded failures only. *)
Definition failures (fs : list (Z * bool)) : list call :=
  (λ f, call_record_failure f.1 f.2) <$> fs.

(** Successive availability checks at the given clock readings. *)
Definition checks (ts : list Z) : list call := call_is_available <$> ts.

(** The four integer counters of a backend, in the order total,
    successful, failed, blocked. *)
Definition counters (self : BaseCrawler) : list Z :=
  [total_requests (metrics self); successful_requests (metrics self);
   failed_requests (metrics self); blocked_requests (metrics self)].

End circuit_breaker_vocabulary.

(** The three manager operations run the same loop; [walk] is that loop
    with the backend operation, the truthiness test, the empty result
    and whether the manager's totals are kept as parameters.  Each
    operation is shown equal to its instance of [walk], and the
    properties of the loop are proved once. *)
Section fallback_vocabulary.
Import base_crawler crawler_manager.
Context {Env : Type} `{!Runtime Env} {R : Type}.
Variable op : CrawlerLayer → BaseCrawler → Env → outcome R * list call * Env.
Variable truthy : R → bool.
Variable empty : R.
Variable counted : bool.

Fixpoint walk (strategy : list CrawlerLayer) (self : CrawlerManager) (env : Env)
  : (R * string) * CrawlerManager * Env * list (event R) :=
  match strategy with
  | [] =>
      ((empty, "none"),
       if counted then incr_total_failures self else self, env, [])
  | layer :: rest =>
      let now := time env in
      let '(available, crawler) := is_available now (crawlers self layer) in
      let self := set_crawler layer crawler self in
      if negb available then
        let '(r, self', env', evs) := walk rest self env in
        (r, self', env', Skipped layer now :: evs)
      else
        let self :=
          incr_layer_usage layer
            (if counted then incr_total_requests self else self) in
        let '(out, calls, env) := op layer crawler env in
        let crawler := run_calls calls crawler in
        let self := set_crawler layer crawler self in
        match out with
        | Return r =>
            if truthy r then
              ((r, name crawler),
               incr_layer_successes layer
                 (if counted then incr_total_successes self else self),
               env, [Awaited layer now out])
            else
              let '(r, self', env', evs) := walk rest self env in
              (r, self', env', Awaited layer now out :: evs)
        | Raise e =>
            let '(r, self', env', evs) := walk rest self env in
            (r, self', env', Awaited layer now out :: evs)
        end
  end.

(** A visit that contributed nothing: the backend was skipped, raised,
    or returned a falsy result. *)
Definition yields_nothing (ev : event R) : Prop :=
  match ev with
  | Skipped _ _ => True
  | Awaited _ _ (Raise _) => True
  | Awaited _ _ (Return r) => truthy r = false
  end.

(** A visit agrees with the availability check of the backend as the
    call found it: skipped exactly when the check refused. *)
Definition checked (self : CrawlerManager) (ev : event R) : Prop :=
  match ev with
  | Skipped l now => (is_available now (crawlers self l)).1 = false
  | Awaited l now _ => (is_available now (crawlers self l)).1 = true
  end.

(** What one fallback call does, in terms of its visits [evs]: either
    every entry of the strategy was visited, in order, none contributed,
    and the result is the empty one under the name ["none"]; or the
    visits follow an initial segment of the strategy, the last one
    returned the truthy result [res], all earlier ones contributed
    nothing, and the entries [post] after it were not visited.  When the
    strategy has no repetition, no backend is visited twice and each
    visit agrees with the backend's availability. *)
Definition first_success_wins (strategy : list CrawlerLayer)
    (self : CrawlerManager) (res : R) (nm : string) (evs : list (event R))
  : Prop :=
  ((event_layer <$> evs = strategy
    ∧ Forall yields_nothing evs ∧ res = empty ∧ nm = "none")
   ∨ (∃ evs0 l now post,
        evs = evs0 ++ [Awaited l now (Return res)]
        ∧ truthy res = true
        ∧ Forall yields_nothing evs0
        ∧ strategy = (event_layer <$> evs0) ++ l :: post
        ∧ nm = name (crawlers self l)))
  ∧ (NoDup strategy →
     NoDup (event_layer <$> evs) ∧ Forall (checked self) evs).

End fallback_vocabulary.

Section pipeline_vocabulary.
Import base_crawler crawler_manager v6_layered_orchestrator.
Context {Env : Type} `{!Runtime Env} `{!Collaborators Env}.

(** What [search] returns is settled before the [finally] block. *)
Definition primary_result `{!Backends Env} (molecule_name : string)
    (brand_name : option string) (manager : CrawlerManager) (env : Env)
  : Results :=
  let '(results, raised, manager1, env1) :=
    search_try molecule_name brand_name (time env) results_init manager env in
  match raised with
  | None => results
  | Some e =>
      mkResults (molecule_info results) (wo_discovery results)
        (wo_to_br_conversion results) (inpi_search results)
        (br_patents results) (summary results) (statistics results)
        (time env1 - time env) (Some e)
  end.

(** The same backends with another [cleanup]. *)
Definition with_cleanup (B : Backends Env)
    (cleanup' : CrawlerLayer → BaseCrawler → Env → outcome unit * list call * Env)
  : Backends Env :=
  {| search_patents := search_patents (Backends := B);
     base_crawler.get_patent_details :=
       base_crawler.get_patent_details (Backends := B);
     base_crawler.get_br_patents_from_wo :=
       base_crawler.get_br_patents_from_wo (Backends := B);
     cleanup := cleanup' |}.

End pipeline_vocabulary.

Section merge_vocabulary.
Import v6_layered_orchestrator.

(** The normalized number of a record that has one. *)
Definition normalized_number (patent : gmap string string) : string :=
  normalize (default "" (patent !! "number")).

Definition has_number (patent : gmap string string) : Prop :=
  is_Some (patent !! "number").

(** [patent.get('source', 'unknown')]. *)
Definition source_of (patent : gmap string string) : string :=
  default "unknown" (patent !! "source").

(** The records the loop appends, given what it has seen. *)
Fixpoint kept (seen : gset string) (patents : list (gmap string string))
  : list (gmap string string) :=
  match patents with
  | [] => []
  | patent :: rest =>
      if decide (normalized_number patent ∈ seen) then kept seen rest
      else patent :: kept ({[normalized_number patent]} ∪ seen) rest
  end.

(** A record as the phases of this pipeline build them: it has a
    ['number'], its provenance tag ['source'] is one of the three the
    pipeline writes, and it has no ['score']. *)
Definition pipeline_record (patent : gmap string string) : Prop :=
  has_number patent
  ∧ (patent !! "source" = Some "wo_family"
     ∨ patent !! "source" = Some "inpi_molecule"
     ∨ patent !! "source" = Some "inpi_brand")
  ∧ patent !! "score" = None.

End merge_vocabulary.

(** * A concrete world

    The outside world is a clock.  Playwright raises, Selenium finds
    nothing and HTTPX finds two identifiers on a search; no backend
    finds details or family members; the HTTPX cleanup raises. *)

Module scenario.
Import base_crawler crawler_manager.

Definition clock : Runtime Z :=
  {| time := λ env, env; sleep := λ _ env, env + 1 |}.

Definition fakes : Backends Z :=
  {| search_patents := λ l query max_results self env,
       match l with
       | PLAYWRIGHT =>
           (Raise "TimeoutError", [call_record_failure env false], env + 30)
       | SELENIUM => (Return [], [call_record_success 3%Q], env + 3)
       | HTTPX =>
           (Return ["WO2016140201"; "WO2011140324"],
            [call_record_success (1 # 2)], env + 1)
       end;
     base_crawler.get_patent_details := λ l wo_number self env,
       match l with
       | PLAYWRIGHT =>
           (Raise "TimeoutError", [call_record_failure env false], env + 30)
       | _ => (Return None, [call_record_failure env false], env + 1)
       end;
     base_crawler.get_br_patents_from_wo := λ l wo_number self env,
       match l with
       | PLAYWRIGHT =>
           (Raise "TimeoutError", [call_record_failure env false], env + 30)
       | _ => (Return [], [call_record_success 1%Q], env + 1)
       end;
     cleanup := λ l self env,
       match l with
       | HTTPX => (Raise "RuntimeError", [], env + 1)
       | _ => (Return (), [], env + 1)
       end |}.

(** A Playwright backend whose search returns one identifier in two
    spellings; the other operations are those of [fakes]. *)
Definition spellings : Backends Z :=
  {| search_patents := λ l query max_results self env,
       match l with
       | PLAYWRIGHT =>
           (Return ["WO2016140201"; "wo 2016-140201"],
            [call_record_success 2%Q], env + 2)
       | _ => (Return [], [call_record_success 1%Q], env + 1)
       end;
     base_crawler.get_patent_details :=
       base_crawler.get_patent_details (Backends := fakes);
     base_crawler.get_br_patents_from_wo :=
       base_crawler.get_br_patents_from_wo (Backends := fakes);
     cleanup := cleanup (Backends := fakes) |}.

(** The end-to-end scenario: Playwright finds two identifiers for any
    query; the family of WO2011140324 has one BR member, the other
    family none; the patent-office index answers every request with one
    BR title; the molecule lookup fails. *)
Definition primary : Backends Z :=
  {| search_patents := λ l query max_results self env,
       match l with
       | PLAYWRIGHT =>
           (Return ["WO2016140201"; "WO2011140324"],
            [call_record_success 2%Q], env + 2)
       | _ => (Return [], [call_record_success 1%Q], env + 1)
       end;
     base_crawler.get_patent_details :=
       base_crawler.get_patent_details (Backends := fakes);
     base_crawler.get_br_patents_from_wo := λ l wo_number self env,
       if decide (wo_number = "WO2011140324")
       then (Return ["BR112013001234"], [call_record_success 2%Q], env + 2)
       else (Return [], [call_record_success 2%Q], env + 2);
     cleanup := cleanup (Backends := fakes) |}.

Definition index : v6_layered_orchestrator.Collaborators Z :=
  {| v6_layered_orchestrator.get_molecule_data := λ molecule_name env,
       (Raise "ConnectionError", env + 5);
     v6_layered_orchestrator.client_get := λ url env,
       (Return (v6_layered_orchestrator.mkResponse 200
                  (Some ["BR112015005678"; "Darolutamide tablets"])),
        env + 1) |}.

(** A manager whose strategy table lost its entries: every lookup
    [self.strategies[target]] raises [KeyError]. *)
Definition unconfigured : CrawlerManager :=
  mkCrawlerManager (crawlers crawler_manager.__init__) ∅ 0 0 0
    (crawler_manager.layer_usage crawler_manager.__init__)
    (layer_successes crawler_manager.__init__).

End scenario.


Section scenario_records.
Import base_crawler crawler_manager.

(** The two records of the end-to-end scenario. *)
Definition family_record : gmap string string :=
  <["number" := "BR112013001234"]>
  (<["source_wo" := "WO2011140324"]>
  (<["source" := "wo_family"]>
  (<["layer" := "Playwright"]> ∅))).

Definition index_record : gmap string string :=
  <["number" := "BR112015005678"]>
  (<["source" := "inpi_molecule"]>
  (<["layer" := "inpi_api"]> ∅)).

(** A manager whose Playwright backend has an open circuit: three
    failures recorded at clock reading 1000. *)
Definition tripped : CrawlerManager :=
  set_crawler PLAYWRIGHT
    (run_calls [call_record_failure 1000 false; call_record_failure 1000 true;
                call_record_failure 1000 false] PlaywrightCrawler)
    crawler_manager.__init__.

End scenario_records.

Section counting_vocabulary.
Import base_crawler crawler_manager.

(** How many visits of a call satisfy [f]. *)
Fixpoint tally {R : Type} (f : event R → bool) (evs : list (event R)) : Z :=
  match evs with
  | [] => 0
  | ev :: evs => (if f ev then 1 else 0) + tally f evs
  end.

Definition is_awaited {R : Type} (ev : event R) : bool :=
  match ev with Awaited _ _ _ => true | Skipped _ _ => false end.

(** The visit returned a truthy result. *)
Definition delivers {R : Type} (truthy : R → bool) (ev : event R) : bool :=
  match ev with Awaited _ _ (Return r) => truthy r | _ => false end.

Definition at_layer {R : Type} (l : CrawlerLayer) (f : event R → bool)
    (ev : event R) : bool :=
  f ev && bool_decide (event_layer ev = l).

(** The manager's counters are consistent. *)
Record manager_inv (self : CrawlerManager) : Prop := mk_manager_inv {
  minv_successes_nonneg : 0 ≤ total_successes self;
  minv_successes_le : total_successes self ≤ crawler_manager.total_requests self;
  minv_failures_nonneg : 0 ≤ total_failures self;
  minv_layer_successes_nonneg : ∀ l, 0 ≤ layer_successes self l;
  minv_layer_successes_le : ∀ l, layer_successes self l ≤ layer_usage self l;
  minv_requests_le_usage :
    crawler_manager.total_requests self
    ≤ layer_usage self PLAYWRIGHT + layer_usage self HTTPX
      + layer_usage self SELENIUM;
  minv_successes_le_layers :
    total_successes self
    ≤ layer_successes self PLAYWRIGHT + layer_successes self HTTPX
      + layer_successes self SELENIUM
}.

(** The requests a caller can make of a manager. *)
Inductive request : Type :=
| req_search_wo_numbers (query : string) (target : TargetSite) (max_results : Z)
| req_get_patent_details (wo_number : string) (target : TargetSite)
| req_get_br_patents_from_wo (wo_number : string) (target : TargetSite)
| req_search_wo_numbers_multi_query (queries : list string)
    (target : TargetSite) (max_results_per_query : Z)
| req_cleanup_all.

Definition run_request {Env : Type} `{!Runtime Env} `{!Backends Env}
    (r : request) (self : CrawlerManager) (env : Env) : CrawlerManager * Env :=
  match r with
  | req_search_wo_numbers query target max_results =>
      let '(_, self', env', _) :=
        search_wo_numbers query target max_results self env in (self', env')
  | req_get_patent_details wo_number target =>
      let '(_, self', env', _) :=
        get_patent_details wo_number target self env in (self', env')
  | req_get_br_patents_from_wo wo_number target =>
      let '(_, self', env', _) :=
        get_br_patents_from_wo wo_number target self env in (self', env')
  | req_search_wo_numbers_multi_query queries target max_results =>
      let '(_, self', env') :=
        search_wo_numbers_multi_query queries target max_results self env in
      (self', env')
  | req_cleanup_all =>
      let '(self', env', _) := cleanup_all self env in (self', env')
  end.

Definition run_requests {Env : Type} `{!Runtime Env} `{!Backends Env}
    (rs : list request) (self : CrawlerManager) (env : Env)
  : CrawlerManager * Env :=
  fold_left (λ s r, run_request r s.1 s.2) rs (self, env).

(** The sum of the counts of a histogram. *)
Definition histogram_total (counts : gmap string Z) : Z :=
  map_fold (λ _ v acc, v + acc) 0 counts.

(** The response times a sequence of calls records, in order. *)
Fixpoint response_times (cs : list call) : list Q :=
  match cs with
  | [] => []
  | call_record_success rt :: cs => rt :: response_times cs
  | _ :: cs => response_times cs
  end.

(** The last [n] elements of a list (all of it when it is shorter). *)
Definition last_samples (n : nat) (xs : list Q) : list Q :=
  drop (length xs - n) xs.

(** The mean [record_success] stores, over a window of samples. *)
Definition window_mean (xs : list Q) : Q :=
  match xs with
  | [] => 0%Q
  | _ => (base_crawler.sum xs / inject_Z (Z.of_nat (length xs)))%Q
  end.

(** What the rolling window and the failure counters of a backend
    satisfy in every state reached from [__init__]. *)
Record backend_bounds (self : BaseCrawler) : Prop := mk_backend_bounds {
  bb_samples : max_request_time_samples self = 100%nat;
  bb_window : (length (request_times self) ≤ 100)%nat;
  bb_mean :
    avg_response_time (metrics self) = window_mean (request_times self);
  bb_failed_nonneg : 0 ≤ failed_requests (metrics self);
  bb_consecutive :
    consecutive_failures self ≤ failed_requests (metrics self);
  bb_blocked :
    blocked_requests (metrics self) ≤ failed_requests (metrics self)
}.

End counting_vocabulary.

(** * The circuit breaker and the metrics of one backend *)

Section circuit_breaker.
Import base_crawler.

Lemma breaker_inv_init n l : breaker_inv (__init__ n l).
Proof. split; simpl; try lia. discriminate. Qed.

Lemma breaker_inv_is_available now self :
  breaker_inv self → breaker_inv (snd (is_available now self)).
Proof.
  intros [H1 H2 H3 H4 H5 H6 H7 H8]. unfold is_available.
  destruct (now <? circuit_open_until self); [by split|].
  destruct (decide (status self = CIRCUIT_OPEN)); simpl; [|by split].
  split; simpl; try done.
Qed.

Lemma breaker_inv_record_success rt self :
  breaker_inv self → breaker_inv (record_success rt self).
Proof.
  intros [H1 H2 H3 H4 H5 H6 H7 H8].
  split; simpl; try done; try lia.
Qed.

Lemma record_failure_unfold now b self :
  record_failure now b self =
  let m := metrics self in
  let m1 := mkMetrics (total_requests m + 1) (successful_requests m)
              (failed_requests m + 1)
              (if b then blocked_requests m + 1 else blocked_requests m)
              (total_time m) (avg_response_time m) in
  let self2 :=
    set_consecutive_failures (consecutive_failures self + 1)
      (set_metrics m1 self) in
  if max_failures self <=? consecutive_failures self + 1
  then open_circuit now self2 else self2.
Proof. reflexivity. Qed.

Lemma breaker_inv_record_failure now b self :
  breaker_inv self → breaker_inv (record_failure now b self).
Proof.
  intros [H1 H2 H3 H4 H5 H6 H7 H8]. rewrite record_failure_unfold. simpl.
  destruct (max_failures self <=? consecutive_failures self + 1) eqn:E.
  - apply Z.leb_le in E.
    split; simpl; try done; try lia. destruct b; lia.
  - apply Z.leb_gt in E.
    split; simpl; try done; try lia.
    + intros Ho. specialize (H3 Ho). lia.
    + destruct b; lia.
Qed.

Lemma breaker_inv_run_call c self :
  breaker_inv self → breaker_inv (run_call c self).
Proof.
  destruct c as [now|rt|now b|ok]; simpl.
  - apply breaker_inv_is_available.
  - apply breaker_inv_record_success.
  - apply breaker_inv_record_failure.
  - intros [H1 H2 H3 H4 H5 H6 H7 H8]. split; simpl; try done.
    destruct ok; discriminate.
Qed.

Lemma breaker_inv_run_calls cs self :
  breaker_inv self → breaker_inv (run_calls cs self).
Proof.
  revert self. induction cs as [|c cs IH]; intros self H; [done|].
  apply IH, breaker_inv_run_call, H.
Qed.

Lemma run_calls_app cs1 cs2 self :
  run_calls (cs1 ++ cs2) self = run_calls cs2 (run_calls cs1 self).
Proof. apply fold_left_app. Qed.

End circuit_breaker.

Section circuit_breaker_claims.
Import base_crawler.

Lemma failures_only n l fs :
  let after := run_calls (failures fs) (__init__ n l) in
  consecutive_failures after = Z.of_nat (length fs)
  ∧ (status after = CIRCUIT_OPEN ↔ 3 ≤ Z.of_nat (length fs))
  ∧ (status after = CIRCUIT_OPEN ∨ status after = READY).
Proof.
  induction fs as [|f fs IH] using rev_ind; simpl.
  - split; [done|]. split; [|by right]. split; [discriminate|lia].
  - unfold failures in *. rewrite fmap_app, run_calls_app. simpl.
    set (s := run_calls _ _) in *. destruct IH as (Hc & Ho & Hs).
    assert (Hinv : breaker_inv s) by apply breaker_inv_run_calls, breaker_inv_init.
    rewrite length_app, Nat2Z.inj_add. simpl.
    rewrite record_failure_unfold. simpl. rewrite (inv_max_failures _ Hinv).
    destruct (3 <=? consecutive_failures s + 1) eqn:E.
    + apply Z.leb_le in E. simpl. split; [lia|]. split; [|by left].
      split; [lia|done].
    + apply Z.leb_gt in E. simpl. split; [lia|]. split.
      * split; [|lia]. intros Ho'. apply Ho in Ho'. lia.
      * destruct Hs as [Hs|Hs]; [|by right]. apply Ho in Hs. lia.
Qed.

(** C1. Circuit-breaker monotonicity.  In every state [self] a backend
    reaches from its construction: a recorded failure raises
    [consecutive_failures] by exactly 1 and a recorded success sets it
    to 0; after a recorded failure the status is [CIRCUIT_OPEN] exactly
    when the count has reached the threshold 3, and then
    [circuit_open_until] is the clock reading plus the cooldown of 300;
    below the threshold a failure changes neither the status nor the
    deadline; the status is never [CIRCUIT_OPEN] while the count is
    below 3.  For a run of failures on a fresh backend the count is the
    number of failures and the circuit is open exactly from the third
    on. *)
Theorem circuit_breaker_monotonicity (n : string) (l : CrawlerLayer)
    (cs : list call) :
  let self := run_calls cs (__init__ n l) in
  (∀ now is_block,
     consecutive_failures (record_failure now is_block self)
     = consecutive_failures self + 1)
  ∧ (∀ response_time,
       consecutive_failures (record_success response_time self) = 0)
  ∧ (∀ now is_block,
       status (record_failure now is_block self) = CIRCUIT_OPEN
       ↔ 3 ≤ consecutive_failures self + 1)
  ∧ (∀ now is_block,
       3 ≤ consecutive_failures self + 1 →
       circuit_open_until (record_failure now is_block self) = now + 300)
  ∧ (∀ now is_block,
       consecutive_failures self + 1 < 3 →
       status (record_failure now is_block self) = status self
       ∧ circuit_open_until (record_failure now is_block self)
         = circuit_open_until self)
  ∧ (status self = CIRCUIT_OPEN → 3 ≤ consecutive_failures self)
  ∧ (∀ fs : list (Z * bool),
       let after := run_calls (failures fs) (__init__ n l) in
       consecutive_failures after = Z.of_nat (length fs)
       ∧ (status after = CIRCUIT_OPEN ↔ 3 ≤ Z.of_nat (length fs))).
Proof.
  intros self.
  assert (Hinv : breaker_inv self) by apply breaker_inv_run_calls, breaker_inv_init.
  destruct Hinv as [Hmax Hcool Hopen Hnn _ _ _ _].
  assert (Hstep : ∀ now b,
    record_failure now b self =
    let self2 :=
      set_consecutive_failures (consecutive_failures self + 1)
        (set_metrics
           (mkMetrics (total_requests (metrics self) + 1)
              (successful_requests (metrics self))
              (failed_requests (metrics self) + 1)
              (if b then blocked_requests (metrics self) + 1
               else blocked_requests (metrics self))
              (total_time (metrics self)) (avg_response_time (metrics self)))
           self) in
    if 3 <=? consecutive_failures self + 1
    then open_circuit now self2 else self2).
  { intros now b. rewrite record_failure_unfold. simpl. by rewrite Hmax. }
  split_and!.
  - intros now b. rewrite Hstep. simpl.
    by destruct (3 <=? consecutive_failures self + 1).
  - done.
  - intros now b. rewrite Hstep. simpl.
    destruct (3 <=? consecutive_failures self + 1) eqn:E; simpl.
    + apply Z.leb_le in E. done.
    + apply Z.leb_gt in E. split; [|lia].
      intros Ho. apply Hopen in Ho. lia.
  - intros now b H3. rewrite Hstep. simpl.
    apply Z.leb_le in H3. rewrite H3. simpl. by rewrite Hcool.
  - intros now b H3. rewrite Hstep. simpl.
    apply Z.leb_gt in H3. by rewrite H3.
  - done.
  - intros fs. simpl. pose proof (failures_only n l fs) as H. simpl in H.
    tauto.
Qed.

Lemma is_available_before now self :
  now < circuit_open_until self → is_available now self = (false, self).
Proof.
  intros H. unfold is_available. apply Z.ltb_lt in H. by rewrite H.
Qed.

Lemma checks_before ts self :
  Forall (λ t, t < circuit_open_until self) ts →
  run_calls (checks ts) self = self.
Proof.
  induction 1 as [|t ts Ht _ IH]; [done|].
  unfold checks in *. simpl. by rewrite is_available_before.
Qed.

(** C4. Cooldown recovery.  For a backend whose circuit is open, every
    availability check at a clock reading strictly before
    [circuit_open_until] answers false and changes nothing; after any
    number of such checks, the first check at or after
    [circuit_open_until] answers true, sets the status to [READY] and
    [consecutive_failures] to 0. *)
Theorem cooldown_recovery (self : BaseCrawler) (early : list Z) (now : Z) :
  status self = CIRCUIT_OPEN →
  Forall (λ t, t < circuit_open_until self) early →
  circuit_open_until self ≤ now →
  Forall (λ t, is_available t self = (false, self)) early
  ∧ (let probed := is_available now (run_calls (checks early) self) in
     probed.1 = true
     ∧ status probed.2 = READY
     ∧ consecutive_failures probed.2 = 0
     ∧ probed.2 = set_consecutive_failures 0 (set_status READY self)).
Proof.
  intros Hopen Hearly Hnow. split.
  - eapply Forall_impl; [exact Hearly|]. intros t. apply is_available_before.
  - rewrite (checks_before _ _ Hearly). unfold is_available.
    apply Z.ltb_ge in Hnow. rewrite Hnow.
    destruct (decide (status self = CIRCUIT_OPEN)); [|done]. simpl.
    repeat split.
Qed.

(** The state right after the third failure of a fresh backend at clock
    reading 1000: checks at 1000 and 1299 are refused, the one at 1300
    recovers. *)
Lemma cooldown_recovery_witness :
  let self := run_calls (failures [(998, false); (999, true); (1000, false)])
                (__init__ "Playwright" PLAYWRIGHT) in
  status self = CIRCUIT_OPEN
  ∧ circuit_open_until self = 1300
  ∧ Forall (λ t, is_available t self = (false, self)) [1000; 1299]
  ∧ (is_available 1300 (run_calls (checks [1000; 1299]) self)).1 = true
  ∧ consecutive_failures
      (is_available 1300 (run_calls (checks [1000; 1299]) self)).2 = 0.
Proof.
  set (self := run_calls _ _).
  assert (Hs : status self = CIRCUIT_OPEN) by (vm_compute; reflexivity).
  assert (Hu : circuit_open_until self = 1300) by (vm_compute; reflexivity).
  assert (He : Forall (λ t, t < circuit_open_until self) [1000; 1299]).
  { rewrite Hu. repeat constructor. }
  assert (Hn : circuit_open_until self ≤ 1300) by (rewrite Hu; reflexivity).
  destruct (cooldown_recovery self [1000; 1299] 1300 Hs He Hn)
    as (H1 & H2 & H3 & H4 & _).
  cbv zeta. auto.
Defined.

Lemma counters_run_call c self :
  Forall2 Z.le (counters self) (counters (run_call c self)).
Proof.
  destruct c as [now|rt|now b|ok]; simpl.
  - unfold is_available. destruct (now <? circuit_open_until self); simpl.
    + unfold counters. repeat constructor; lia.
    + destruct (decide (status self = CIRCUIT_OPEN)); unfold counters; simpl;
        repeat constructor; lia.
  - unfold counters. simpl. repeat constructor; lia.
  - rewrite record_failure_unfold. simpl.
    destruct (max_failures self <=? consecutive_failures self + 1);
      unfold counters; simpl; repeat constructor; destruct b; lia.
  - unfold counters. simpl. repeat constructor; lia.
Qed.

Lemma counters_run_calls cs self :
  Forall2 Z.le (counters self) (counters (run_calls cs self)).
Proof.
  revert self. induction cs as [|c cs IH]; intros self.
  - unfold counters. simpl. repeat constructor; lia.
  - simpl. pose proof (counters_run_call c self) as H1.
    pose proof (IH (run_call c self)) as H2. unfold counters in *.
    repeat match goal with
           | H : Forall2 _ (_ :: _) (_ :: _) |- _ =>
               apply Forall2_cons_1 in H; destruct H
           end.
    repeat constructor; lia.
Qed.

(** C6, as the claim states it, fails: after one recorded success the
    computed rate is 100, not successful/total = 1. *)
Lemma success_rate_is_not_the_plain_quotient :
  let self := run_calls [call_record_success (1 # 2)] (__init__ "HTTPX" HTTPX) in
  ¬ (get_success_rate self
     == inject_Z (successful_requests (metrics self))
        / inject_Z (total_requests (metrics self)))%Q.
Proof. vm_compute. discriminate. Qed.

(** C6 (amended). Metrics consistency.  In every state a backend reaches
    from its construction, [total_requests] is [successful_requests]
    plus [failed_requests]; the four counters are non-negative and no
    later call decreases any of them; the computed success rate is the
    percentage 100 * successful / total, is 0 when [total_requests] is
    0, and lies between 0 and 100. *)
Theorem metrics_consistency (n : string) (l : CrawlerLayer)
    (cs later : list call) :
  let self := run_calls cs (__init__ n l) in
  let m := metrics self in
  total_requests m = successful_requests m + failed_requests m
  ∧ Forall (Z.le 0) (counters self)
  ∧ Forall2 Z.le (counters self) (counters (run_calls later self))
  ∧ (total_requests m = 0 → get_success_rate self = 0%Q)
  ∧ (total_requests m ≠ 0 →
     get_success_rate self
     = (inject_Z (successful_requests m) / inject_Z (total_requests m) * 100)%Q)
  ∧ (0 <= get_success_rate self)%Q
  ∧ (get_success_rate self <= 100)%Q.
Proof.
  intros self m.
  assert (Hinv : breaker_inv self) by apply breaker_inv_run_calls, breaker_inv_init.
  destruct Hinv as [_ _ _ _ Htot Hs Hf Hb]. fold m in Htot, Hs, Hf, Hb.
  assert (Hrate : ∀ s t : Z, 0 ≤ s → s ≤ t → 0 < t →
            (0 <= inject_Z s / inject_Z t * 100)%Q
            ∧ (inject_Z s / inject_Z t * 100 <= 100)%Q).
  { intros s t H0 H1 H2. destruct t as [|t|t]; try lia.
    unfold Qle, Qdiv, Qmult, Qinv, inject_Z. simpl. split; nia. }
  split_and!.
  - done.
  - unfold counters. fold m. repeat constructor; lia.
  - apply counters_run_calls.
  - intros H0. unfold get_success_rate. fold m. by rewrite H0.
  - intros H0. unfold get_success_rate. fold m.
    apply Z.eqb_neq in H0. by rewrite H0.
  - unfold get_success_rate. fold m.
    destruct (total_requests m =? 0) eqn:E; [done|].
    apply Z.eqb_neq in E. apply Hrate; lia.
  - unfold get_success_rate. fold m.
    destruct (total_requests m =? 0) eqn:E; [done|].
    apply Z.eqb_neq in E. apply Hrate; lia.
Qed.

End circuit_breaker_claims.

(** * The fallback loop *)

Section fallback.
Import base_crawler crawler_manager.
Context {Env : Type} `{!Runtime Env} {R : Type}.
Variable op : CrawlerLayer → BaseCrawler → Env → outcome R * list call * Env.
Variable truthy : R → bool.
Variable empty : R.
Variable counted : bool.

Local Abbreviation walk := (walk op truthy empty counted).
Local Abbreviation yields_nothing := (yields_nothing truthy).
Local Abbreviation first_success_wins := (first_success_wins truthy empty).

Lemma name_is_available now c : name (is_available now c).2 = name c.
Proof.
  unfold is_available. destruct (now <? circuit_open_until c); [done|].
  by destruct (decide (status c = CIRCUIT_OPEN)).
Qed.

Lemma name_run_calls cs c : name (run_calls cs c) = name c.
Proof.
  revert c. induction cs as [|x cs IH]; intros c; [done|].
  simpl. rewrite IH. destruct x as [now|rt|now b|ok]; simpl; try done.
  - apply name_is_available.
  - rewrite record_failure_unfold. simpl.
    by destruct (max_failures c <=? consecutive_failures c + 1).
Qed.

(** One visit of the loop, by cases. *)
Ltac walk_visit self env layer IH :=
  simpl;
  let a := fresh "a" in let c := fresh "c" in let Ea := fresh "Ea" in
  destruct (is_available (time env) (crawlers self layer)) as [a c] eqn:Ea;
  destruct a; simpl;
  [ let out := fresh "out" in let calls := fresh "calls" in
    let env1 := fresh "env1" in let Eo := fresh "Eo" in
    destruct (op layer c env) as [[out calls] env1] eqn:Eo;
    destruct out as [r|ex];
    [ let Et := fresh "Et" in destruct (truthy r) eqn:Et | ]
  | ];
  try match goal with
      | |- context [walk ?rest ?m ?e] =>
          let Ew := fresh "Ew" in
          let res1 := fresh "res1" in let nm1 := fresh "nm1" in
          let self1 := fresh "self1" in let env2 := fresh "env2" in
          let evs1 := fresh "evs1" in
          let Ew0 := fresh "Ew0" in
          destruct (walk rest m e) as [[[[res1 nm1] self1] env2] evs1] eqn:Ew0;
          pose proof (IH _ _ _ _ _ _ _ Ew0) as Ew
      end.

Lemma name_after_visit (b : bool) self layer c calls l :
  name c = name (crawlers self layer) →
  name (crawlers
          (set_crawler layer (run_calls calls c)
             (incr_layer_usage layer
                (if b then incr_total_requests (set_crawler layer c self)
                 else set_crawler layer c self))) l)
  = name (crawlers self l).
Proof.
  intros Hc. destruct b; simpl; unfold insert, fn_insert;
    destruct (decide (layer = l)) as [->|]; by rewrite ?name_run_calls.
Qed.

Lemma name_after_skip self layer c l :
  name c = name (crawlers self layer) →
  name (crawlers (set_crawler layer c self) l) = name (crawlers self l).
Proof.
  intros Hc. simpl. unfold insert, fn_insert.
  by destruct (decide (layer = l)) as [->|].
Qed.

Lemma walk_outcome strategy self env res nm self' env' evs :
  walk strategy self env = (res, nm, self', env', evs) →
  (event_layer <$> evs = strategy
   ∧ Forall yields_nothing evs ∧ res = empty ∧ nm = "none")
  ∨ (∃ evs0 l now post,
       evs = evs0 ++ [Awaited l now (Return res)]
       ∧ truthy res = true
       ∧ Forall yields_nothing evs0
       ∧ strategy = (event_layer <$> evs0) ++ l :: post
       ∧ nm = name (crawlers self l)).
Proof.
  revert self env res nm self' env' evs.
  induction strategy as [|layer rest IH]; intros self env res nm self' env' evs.
  { simpl. intros [= <- <- <- <- <-]. left. by repeat split. }
  assert (Hc : ∀ c, is_available (time env) (crawlers self layer) = (true, c)
                    ∨ is_available (time env) (crawlers self layer) = (false, c) →
                    name c = name (crawlers self layer)).
  { intros c [E|E]; pose proof (name_is_available (time env) (crawlers self layer)) as H;
      by rewrite E in H. }
  walk_visit self env layer IH; intros [= <- <- <- <- <-].
  - (* awaited, truthy result: return at once *)
    right. exists [], layer, (time env), rest. split_and!; try done.
    rewrite name_run_calls. apply Hc. by left.
  - (* awaited, falsy result: go on *)
    destruct Ew as [(Hl & Hn & -> & ->)|Hs].
    + left. split_and!; first [done | by rewrite fmap_cons, Hl | by constructor].
    + right. destruct Hs as (evs0 & l & now & post & -> & Ht & Hn & -> & ->).
      exists (Awaited layer (time env) (Return r) :: evs0), l, now, post.
      split_and!; first [done | by constructor | idtac].
      apply name_after_visit, Hc. by left.
  - (* awaited, raised: go on *)
    destruct Ew as [(Hl & Hn & -> & ->)|Hs].
    + left. split_and!; first [done | by rewrite fmap_cons, Hl | by constructor].
    + right. destruct Hs as (evs0 & l & now & post & -> & Ht & Hn & -> & ->).
      exists (Awaited layer (time env) (Raise ex) :: evs0), l, now, post.
      split_and!; first [done | by constructor | idtac].
      apply name_after_visit, Hc. by left.
  - (* skipped *)
    destruct Ew as [(Hl & Hn & -> & ->)|Hs].
    + left. split_and!; first [done | by rewrite fmap_cons, Hl | by constructor].
    + right. destruct Hs as (evs0 & l & now & post & -> & Ht & Hn & -> & ->).
      exists (Skipped layer (time env) :: evs0), l, now, post.
      split_and!; first [done | by constructor | idtac].
      apply name_after_skip, Hc. by right.
Qed.

Lemma walk_layers strategy self env res nm self' env' evs :
  walk strategy self env = (res, nm, self', env', evs) →
  ∃ post, strategy = (event_layer <$> evs) ++ post.
Proof.
  intros H. apply walk_outcome in H as [(Hl & _)|Hs].
  - exists []. by rewrite app_nil_r.
  - destruct Hs as (evs0 & l & now & post & -> & _ & _ & -> & _).
    exists post. by rewrite fmap_app, <- app_assoc.
Qed.

Lemma frame_after_visit (b : bool) self layer c calls :
  let self1 :=
    set_crawler layer (run_calls calls c)
      (incr_layer_usage layer
         (if b then incr_total_requests (set_crawler layer c self)
          else set_crawler layer c self)) in
  (∀ l, l ≠ layer → crawlers self1 l = crawlers self l)
  ∧ total_failures self1 = total_failures self
  ∧ strategies self1 = strategies self.
Proof.
  destruct b; simpl; split_and!; try done;
    intros l Hl; unfold insert, fn_insert;
    by destruct (decide (layer = l)) as [->|].
Qed.

Lemma frame_after_skip self layer c :
  let self1 := set_crawler layer c self in
  (∀ l, l ≠ layer → crawlers self1 l = crawlers self l)
  ∧ total_failures self1 = total_failures self
  ∧ strategies self1 = strategies self.
Proof.
  simpl; split_and!; try done.
  intros l Hl; unfold insert, fn_insert.
  by destruct (decide (layer = l)) as [->|].
Qed.

Lemma checked_frame self self1 (ev : event R) :
  crawlers self1 (event_layer ev) = crawlers self (event_layer ev) →
  checked self1 ev → checked self ev.
Proof. destruct ev; simpl; intros H; by rewrite H. Qed.

Lemma walk_checked strategy self env res nm self' env' evs :
  NoDup strategy →
  walk strategy self env = (res, nm, self', env', evs) →
  Forall (checked self) evs.
Proof.
  intros Hnd. revert self env res nm self' env' evs.
  induction Hnd as [|layer rest Hnotin Hnd IH];
    intros self env res nm self' env' evs.
  { simpl. by intros [= <- <- <- <- <-]. }
  assert (Htail : ∀ self1 env1 res1 nm1 self2 env2 evs1,
            (∀ l, l ≠ layer → crawlers self1 l = crawlers self l) →
            walk rest self1 env1 = (res1, nm1, self2, env2, evs1) →
            Forall (checked self) evs1).
  { intros self1 env1 res1 nm1 self2 env2 evs1 Hfr Hw.
    pose proof (IH _ _ _ _ _ _ _ Hw) as Hch.
    destruct (walk_layers _ _ _ _ _ _ _ _ Hw) as [post Hpost].
    apply Forall_forall. intros ev Hev.
    eapply checked_frame; [|by eapply Forall_forall in Hch].
    apply Hfr. intros Heq. apply Hnotin. rewrite <- Heq, Hpost.
    apply elem_of_app. left. apply list_elem_of_fmap. by exists ev. }
  walk_visit self env layer IH; intros [= <- <- <- <- <-].
  - constructor; [|done]. simpl. by rewrite Ea.
  - constructor; [simpl; by rewrite Ea|].
    eapply Htail; [|exact Ew0]. apply frame_after_visit.
  - constructor; [simpl; by rewrite Ea|].
    eapply Htail; [|exact Ew0]. apply frame_after_visit.
  - constructor; [simpl; by rewrite Ea|].
    eapply Htail; [|exact Ew0]. apply frame_after_skip.
Qed.

Lemma walk_nothing strategy self env res nm self' env' evs :
  walk strategy self env = (res, nm, self', env', evs) →
  Forall yields_nothing evs →
  res = empty ∧ nm = "none"
  ∧ total_failures self'
    = total_failures self + (if counted then 1 else 0).
Proof.
  revert self env res nm self' env' evs.
  induction strategy as [|layer rest IH]; intros self env res nm self' env' evs.
  { simpl. intros [= <- <- <- <- <-] _. split_and!; try done.
    destruct counted; simpl; lia. }
  walk_visit self env layer IH; intros [= <- <- <- <- <-] Hn.
  - apply Forall_cons_1 in Hn as [Hn _]. simpl in Hn. congruence.
  - apply Forall_cons_1 in Hn as [_ Hn]. destruct (Ew Hn) as (-> & -> & ->).
    split_and!; try done. f_equal. apply frame_after_visit.
  - apply Forall_cons_1 in Hn as [_ Hn]. destruct (Ew Hn) as (-> & -> & ->).
    split_and!; try done. f_equal. apply frame_after_visit.
  - apply Forall_cons_1 in Hn as [_ Hn]. destruct (Ew Hn) as (-> & -> & ->).
    split_and!; try done.
Qed.

Lemma walk_strategies strategy self env res nm self' env' evs :
  walk strategy self env = (res, nm, self', env', evs) →
  strategies self' = strategies self.
Proof.
  revert self env res nm self' env' evs.
  induction strategy as [|layer rest IH]; intros self env res nm self' env' evs.
  { simpl. intros [= <- <- <- <- <-]. by destruct counted. }
  walk_visit self env layer IH; intros [= <- <- <- <- <-].
  - by destruct counted.
  - rewrite Ew. apply frame_after_visit.
  - rewrite Ew. apply frame_after_visit.
  - by rewrite Ew.
Qed.

Lemma walk_first_success_wins strategy self env res nm self' env' evs :
  walk strategy self env = (res, nm, self', env', evs) →
  first_success_wins strategy self res nm evs.
Proof.
  intros H. split; [by eapply walk_outcome|].
  intros Hnd. split; [|by eapply walk_checked].
  destruct (walk_layers _ _ _ _ _ _ _ _ H) as [post Hpost].
  rewrite Hpost in Hnd. by apply NoDup_app in Hnd as [? _].
Qed.

End fallback.

(** * The manager's operations *)

Section manager.
Import base_crawler crawler_manager.
Context {Env : Type} `{!Runtime Env} `{!Backends Env}.

Ltac loop_is_walk IH :=
  simpl;
  match goal with
  | |- context [is_available ?now ?c] =>
      destruct (is_available now c) as [[] ?]; simpl
  end;
  repeat match goal with
         | |- context [search_patents ?l ?q ?m ?c ?e] =>
             destruct (search_patents l q m c e) as [[[] ?] ?]
         | |- context [base_crawler.get_patent_details ?l ?w ?c ?e] =>
             destruct (base_crawler.get_patent_details l w c e) as [[[] ?] ?]
         | |- context [base_crawler.get_br_patents_from_wo ?l ?w ?c ?e] =>
             destruct (base_crawler.get_br_patents_from_wo l w c e) as [[[] ?] ?]
         end;
  repeat match goal with
         | |- context [if ?b then _ else _] => destruct b
         end;
  rewrite ?IH; done.

Lemma search_wo_numbers_loop_walk strategy query max_results self env :
  search_wo_numbers_loop strategy query max_results self env
  = walk (λ l, search_patents l query max_results) list_truthy [] true
      strategy self env.
Proof.
  revert self env. induction strategy as [|layer rest IH]; intros self env;
    [done|loop_is_walk IH].
Qed.

Lemma get_patent_details_loop_walk strategy wo_number self env :
  get_patent_details_loop strategy wo_number self env
  = walk (λ l, base_crawler.get_patent_details l wo_number) details_truthy
      None false strategy self env.
Proof.
  revert self env. induction strategy as [|layer rest IH]; intros self env;
    [done|loop_is_walk IH].
Qed.

Lemma get_br_patents_from_wo_loop_walk strategy wo_number self env :
  get_br_patents_from_wo_loop strategy wo_number self env
  = walk (λ l, base_crawler.get_br_patents_from_wo l wo_number) list_truthy
      [] false strategy self env.
Proof.
  revert self env. induction strategy as [|layer rest IH]; intros self env;
    [done|loop_is_walk IH].
Qed.

(** Each operation, on a configured target, returns (never raises) and
    behaves as its instance of [walk]. *)
Lemma search_wo_numbers_run query target max_results self env strategy :
  strategies self !! target = Some strategy →
  ∃ res nm self' env' evs,
    search_wo_numbers query target max_results self env
    = (Return (res, nm), self', env', evs)
    ∧ walk (λ l, search_patents l query max_results) list_truthy [] true
        strategy self env = (res, nm, self', env', evs).
Proof.
  intros Hs. unfold search_wo_numbers. rewrite Hs.
  rewrite search_wo_numbers_loop_walk.
  destruct (walk _ _ _ _ _ _ _) as [[[[res nm] self'] env'] evs].
  by exists res, nm, self', env', evs.
Qed.

Lemma get_patent_details_run wo_number target self env strategy :
  strategies self !! target = Some strategy →
  ∃ res nm self' env' evs,
    get_patent_details wo_number target self env
    = (Return (res, nm), self', env', evs)
    ∧ walk (λ l, base_crawler.get_patent_details l wo_number) details_truthy
        None false strategy self env = (res, nm, self', env', evs).
Proof.
  intros Hs. unfold get_patent_details. rewrite Hs.
  rewrite get_patent_details_loop_walk.
  destruct (walk _ _ _ _ _ _ _) as [[[[res nm] self'] env'] evs].
  by exists res, nm, self', env', evs.
Qed.

Lemma get_br_patents_from_wo_run wo_number target self env strategy :
  strategies self !! target = Some strategy →
  ∃ res nm self' env' evs,
    get_br_patents_from_wo wo_number target self env
    = (Return (res, nm), self', env', evs)
    ∧ walk (λ l, base_crawler.get_br_patents_from_wo l wo_number) list_truthy
        [] false strategy self env = (res, nm, self', env', evs).
Proof.
  intros Hs. unfold get_br_patents_from_wo. rewrite Hs.
  rewrite get_br_patents_from_wo_loop_walk.
  destruct (walk _ _ _ _ _ _ _) as [[[[res nm] self'] env'] evs].
  by exists res, nm, self', env', evs.
Qed.

(** One visit of the search loop, when the backend is available. *)
Lemma search_wo_numbers_loop_nothing layer rest query max_results self env
    c out calls env1 :
  is_available (time env) (crawlers self layer) = (true, c) →
  search_patents layer query max_results c env = (out, calls, env1) →
  match out with Return wo => list_truthy wo = false | Raise _ => True end →
  search_wo_numbers_loop (layer :: rest) query max_results self env
  = let '(r, self', env', evs) :=
      search_wo_numbers_loop rest query max_results
        (set_crawler layer (run_calls calls c)
           (incr_layer_usage layer
              (incr_total_requests (set_crawler layer c self)))) env1 in
    (r, self', env', Awaited layer (time env) out :: evs).
Proof.
  intros Ha Ho Hn. simpl. rewrite Ha. simpl. rewrite Ho.
  destruct out as [wo|e]; [by rewrite Hn|done].
Qed.

Lemma search_wo_numbers_loop_found layer rest query max_results self env
    c wo calls env1 :
  is_available (time env) (crawlers self layer) = (true, c) →
  search_patents layer query max_results c env = (Return wo, calls, env1) →
  list_truthy wo = true →
  search_wo_numbers_loop (layer :: rest) query max_results self env
  = ((wo, name (run_calls calls c)),
     incr_layer_successes layer
       (incr_total_successes
          (set_crawler layer (run_calls calls c)
             (incr_layer_usage layer
                (incr_total_requests (set_crawler layer c self))))),
     env1, [Awaited layer (time env) (Return wo)]).
Proof.
  intros Ha Ho Hn. simpl. rewrite Ha. simpl. rewrite Ho. by rewrite Hn.
Qed.


(** C7 (amended).  On a configured target each of the three operations
    returns a pair and never raises.  When every visit of the call
    contributed nothing (the backend was skipped, raised, or returned a
    falsy result), every entry of the strategy was visited and the result
    is the empty one under the name ["none"]: [[]] for the identifier
    search and the family expansion, [None] for the detail fetch.  The
    identifier search then adds 1 to [total_failures]; the detail fetch
    and the family expansion leave [total_failures] as it was. *)
Theorem no_backend_produced (target : TargetSite)
    (strategy : list CrawlerLayer) (self : CrawlerManager) (env : Env)
    (query wo_number : string) (max_results : Z) :
  strategies self !! target = Some strategy →
  (∃ res nm self' env' evs,
     search_wo_numbers query target max_results self env
     = (Return (res, nm), self', env', evs)
     ∧ (Forall (yields_nothing list_truthy) evs →
        event_layer <$> evs = strategy
        ∧ res = [] ∧ nm = "none"
        ∧ total_failures self' = total_failures self + 1))
  ∧ (∃ res nm self' env' evs,
       get_patent_details wo_number target self env
       = (Return (res, nm), self', env', evs)
       ∧ (Forall (yields_nothing details_truthy) evs →
          event_layer <$> evs = strategy
          ∧ res = None ∧ nm = "none"
          ∧ total_failures self' = total_failures self))
  ∧ (∃ res nm self' env' evs,
       get_br_patents_from_wo wo_number target self env
       = (Return (res, nm), self', env', evs)
       ∧ (Forall (yields_nothing list_truthy) evs →
          event_layer <$> evs = strategy
          ∧ res = [] ∧ nm = "none"
          ∧ total_failures self' = total_failures self)).
Proof.
  intros Hs.
  assert (Hall : ∀ R (op : CrawlerLayer → BaseCrawler → Env → _)
                   (truthy : R → bool) empty counted res nm self' env' evs,
            walk op truthy empty counted strategy self env
            = (res, nm, self', env', evs) →
            Forall (yields_nothing truthy) evs →
            event_layer <$> evs = strategy).
  { intros R op truthy empty counted res nm self' env' evs Hw Hn.
    destruct (walk_outcome _ _ _ _ _ _ _ _ _ _ _ _ Hw)
      as [(Hl & _)|(evs0 & l & now & post & -> & Ht & _)]; [done|].
    apply Forall_app in Hn as [_ Hn]. apply Forall_cons_1 in Hn as [Hn _].
    simpl in Hn. congruence. }
  split_and!.
  - destruct (search_wo_numbers_run query target max_results self env _ Hs)
      as (res & nm & self' & env' & evs & Hr & Hw).
    exists res, nm, self', env', evs. split; [done|]. intros Hn.
    split; [by eapply Hall|].
    destruct (walk_nothing _ _ _ _ _ _ _ _ _ _ _ _ Hw Hn) as (-> & -> & ->).
    done.
  - destruct (get_patent_details_run wo_number target self env _ Hs)
      as (res & nm & self' & env' & evs & Hr & Hw).
    exists res, nm, self', env', evs. split; [done|]. intros Hn.
    split; [by eapply Hall|].
    destruct (walk_nothing _ _ _ _ _ _ _ _ _ _ _ _ Hw Hn) as (-> & -> & ->).
    split_and!; try done. simpl. lia.
  - destruct (get_br_patents_from_wo_run wo_number target self env _ Hs)
      as (res & nm & self' & env' & evs & Hr & Hw).
    exists res, nm, self', env', evs. split; [done|]. intros Hn.
    split; [by eapply Hall|].
    destruct (walk_nothing _ _ _ _ _ _ _ _ _ _ _ _ Hw Hn) as (-> & -> & ->).
    split_and!; try done. simpl. lia.
Qed.

(** C10.  The strategy table built by [CrawlerManager.__init__] has an
    entry for every [TargetSite], and every entry is a permutation of
    the three crawler layers.  Consequently, on a manager holding that
    table, the lookup [self.strategies[target]] of each of the three
    operations succeeds for every target: the operation returns and
    leaves the table as it was. *)
Theorem strategy_table_total (target : TargetSite) :
  ∃ strategy,
    strategies crawler_manager.__init__ !! target = Some strategy
    ∧ strategy ≡ₚ CrawlerLayer_members
    ∧ NoDup strategy
    ∧ ∀ (self : CrawlerManager) (env : Env) (query wo_number : string)
        (max_results : Z),
        strategies self = strategies crawler_manager.__init__ →
        (∃ r self' env' evs,
           search_wo_numbers query target max_results self env
           = (Return r, self', env', evs)
           ∧ strategies self' = strategies self)
        ∧ (∃ r self' env' evs,
             get_patent_details wo_number target self env
             = (Return r, self', env', evs)
             ∧ strategies self' = strategies self)
        ∧ (∃ r self' env' evs,
             get_br_patents_from_wo wo_number target self env
             = (Return r, self', env', evs)
             ∧ strategies self' = strategies self).
Proof.
  assert (Hex : ∃ strategy,
            strategies crawler_manager.__init__ !! target = Some strategy
            ∧ strategy ≡ₚ CrawlerLayer_members ∧ NoDup strategy).
  { destruct target; eexists; (split; [vm_compute; reflexivity|]);
      unfold CrawlerLayer_members.
    - split; [|by apply (bool_decide_unpack _)].
      rewrite (Permutation_swap HTTPX SELENIUM []). done.
    - split; [|by apply (bool_decide_unpack _)].
      rewrite (Permutation_swap PLAYWRIGHT HTTPX [SELENIUM]). done.
    - split; [|by apply (bool_decide_unpack _)].
      rewrite (Permutation_swap PLAYWRIGHT HTTPX [SELENIUM]). done. }
  destruct Hex as (strategy & Hs & Hp & Hnd). exists strategy.
  split_and!; try done.
  intros self env query wo_number max_results Heq.
  rewrite <- Heq in Hs. split_and!.
  - destruct (search_wo_numbers_run query target max_results self env _ Hs)
      as (res & nm & self' & env' & evs & Hr & Hw).
    exists (res, nm), self', env', evs. split; [done|].
    by eapply walk_strategies.
  - destruct (get_patent_details_run wo_number target self env _ Hs)
      as (res & nm & self' & env' & evs & Hr & Hw).
    exists (res, nm), self', env', evs. split; [done|].
    by eapply walk_strategies.
  - destruct (get_br_patents_from_wo_run wo_number target self env _ Hs)
      as (res & nm & self' & env' & evs & Hr & Hw).
    exists (res, nm), self', env', evs. split; [done|].
    by eapply walk_strategies.
Qed.

End manager.

Section manager_instances.
Import base_crawler crawler_manager scenario.


(** C7, as the claim states it, fails for the family expansion: every
    backend of the chain yields nothing, the result is the empty list
    under ["none"], and the manager's failure counter is not
    incremented. *)
Lemma expansion_does_not_count_failures :
  let run :=
    get_br_patents_from_wo (Runtime0 := clock) (Backends0 := fakes)
      "WO2016140201" GOOGLE_PATENTS crawler_manager.__init__ 1000 in
  run.1.1.1 = Return ([], "none")
  ∧ Forall (yields_nothing list_truthy) run.2
  ∧ event_layer <$> run.2 = [PLAYWRIGHT; SELENIUM; HTTPX]
  ∧ total_failures run.1.1.2 ≠ total_failures crawler_manager.__init__ + 1.
Proof.
  split_and!.
  - vm_compute. reflexivity.
  - vm_compute. repeat constructor.
  - vm_compute. reflexivity.
  - vm_compute. discriminate.
Qed.

Lemma no_backend_produced_witness :
  strategies crawler_manager.__init__ !! WIPO
  = Some [HTTPX; PLAYWRIGHT; SELENIUM]
  ∧ ∃ res nm self' env' evs,
      get_patent_details (Runtime0 := clock) (Backends0 := fakes)
        "WO2016140201" WIPO crawler_manager.__init__ 1000
      = (Return (res, nm), self', env', evs)
      ∧ (Forall (yields_nothing details_truthy) evs →
         event_layer <$> evs = [HTTPX; PLAYWRIGHT; SELENIUM]
         ∧ res = None ∧ nm = "none"
         ∧ total_failures self' = total_failures crawler_manager.__init__).
Proof.
  assert (Hs : strategies crawler_manager.__init__ !! WIPO
               = Some [HTTPX; PLAYWRIGHT; SELENIUM])
    by (vm_compute; reflexivity).
  split; [exact Hs|].
  exact (proj1 (proj2 (no_backend_produced (Runtime0 := clock)
                         (Backends0 := fakes) WIPO _
                         crawler_manager.__init__ 1000
                         "Darolutamide" "WO2016140201" 20 Hs))).
Defined.

End manager_instances.

(** * The multi-query search *)

Section multi_query.
Import base_crawler crawler_manager.
Context {Env : Type} `{!Runtime Env} `{!Backends Env}.

Lemma multi_query_loop_step query rest target max_results all usage self env
    wo nm self1 env1 evs :
  search_wo_numbers query target max_results self env
  = (Return (wo, nm), self1, env1, evs) →
  search_wo_numbers_multi_query_loop (query :: rest) target max_results
    all usage self env
  = search_wo_numbers_multi_query_loop rest target max_results
      (all ∪ list_to_set wo) (<[nm := default 0 (usage !! nm) + 1]> usage)
      self1 (sleep (1 # 2) env1).
Proof.
  intros H. cbn [search_wo_numbers_multi_query_loop]. by rewrite H.
Qed.

Lemma multi_query_loop_returns queries target strategy max_results all usage
    self env :
  strategies self !! target = Some strategy →
  ∃ all' usage' self' env',
    search_wo_numbers_multi_query_loop queries target max_results all usage
      self env
    = (Return (all', usage'), self', env')
    ∧ all ⊆ all'.
Proof.
  revert all usage self env.
  induction queries as [|query rest IH]; intros all usage self env Hs.
  { by exists all, usage, self, env. }
  destruct (search_wo_numbers_run query target max_results self env _ Hs)
    as (wo & nm & self1 & env1 & evs & Hr & Hw).
  rewrite (multi_query_loop_step _ _ _ _ _ _ _ _ _ _ _ _ _ Hr).
  assert (Hs1 : strategies self1 !! target = Some strategy).
  { erewrite walk_strategies; [exact Hs|exact Hw]. }
  destruct (IH (all ∪ list_to_set wo)
              (<[nm := default 0 (usage !! nm) + 1]> usage) self1
              (sleep (1 # 2) env1) Hs1)
    as (all' & usage' & self' & env' & Hl & Hsub).
  exists all', usage', self', env'. split; [done|]. set_solver.
Qed.

Lemma sorted_elements (X : gset string) :
  StronglySorted String.le (sorted (elements X))
  ∧ NoDup (sorted (elements X))
  ∧ ∀ x, x ∈ sorted (elements X) ↔ x ∈ X.
Proof.
  unfold sorted. split_and!.
  - apply StronglySorted_merge_sort; apply _.
  - rewrite merge_sort_Permutation. apply NoDup_elements.
  - intros x. rewrite merge_sort_Permutation. apply elem_of_elements.
Qed.

Lemma fmap_fixed {A} (f : A → A) (l : list A) :
  Forall (λ x, f x = x) l → f <$> l = l.
Proof. induction 1 as [|x l Hx _ IH]; [done|]. by rewrite fmap_cons, Hx, IH. Qed.


End multi_query.

Section multi_query_instances.
Import base_crawler crawler_manager scenario.



(** The identifiers of the scenario, one query against three. *)
Example multi_query_three_times :
  fst <$> returned
    (search_wo_numbers_multi_query (Runtime0 := clock) (Backends0 := fakes)
       ["q"; "q"; "q"] GOOGLE_PATENTS 10 crawler_manager.__init__ 1000).1.1
  = Some ["WO2011140324"; "WO2016140201"]
  ∧ fst <$> returned
      (search_wo_numbers_multi_query (Runtime0 := clock) (Backends0 := fakes)
         ["q"] GOOGLE_PATENTS 10 crawler_manager.__init__ 1000).1.1
    = Some ["WO2011140324"; "WO2016140201"].
Proof. split; vm_compute; reflexivity. Qed.

End multi_query_instances.

(** * The pipeline run and its cleanup *)

Section cleanup.
Import base_crawler crawler_manager v6_layered_orchestrator.
Context {Env : Type} `{!Runtime Env} `{!Collaborators Env}.

Lemma cleanup_all_loop_layers `{!Backends Env} values self env :
  (cleanup_all_loop values self env).2.*1 = values.
Proof.
  revert self env. induction values as [|layer rest IH]; intros self env;
    [done|].
  simpl. destruct (cleanup layer (crawlers self layer) env) as [[out calls] env1].
  specialize (IH (set_crawler layer (run_calls calls (crawlers self layer)) self)
                env1).
  destruct (cleanup_all_loop rest _ _) as [[self' env'] cleaned].
  change (cleaned.*1 = rest) in IH.
  change (layer :: cleaned.*1 = layer :: rest). by rewrite IH.
Qed.


End cleanup.

Section cleanup_instances.
Import base_crawler crawler_manager v6_layered_orchestrator scenario.

(** A run whose discovery phase raises: the result carries the error
    and the molecule data gathered before it, and all three backends
    are cleaned up, the HTTPX failure notwithstanding. *)
Example cleanup_after_a_raising_phase :
  let run :=
    search (Runtime0 := clock) (Backends0 := fakes) (Collaborators0 := index)
      "Darolutamide" (Some "Nubeqa") ["BR"] unconfigured 1000 in
  error run.1.1.1 = Some "KeyError"
  ∧ molecule_info run.1.1.1 = Some (mkPubchemData None None [] [])
  ∧ br_patents run.1.1.1 = []
  ∧ run.2 = [(PLAYWRIGHT, Return ()); (HTTPX, Raise "RuntimeError");
             (SELENIUM, Return ())].
Proof. cbv zeta. split_and!; vm_compute; reflexivity. Qed.

(** A run that completes: same cleanup. *)
Example cleanup_after_a_complete_run :
  let run :=
    search (Runtime0 := clock) (Backends0 := fakes) (Collaborators0 := index)
      "Darolutamide" (Some "Nubeqa") ["BR"] crawler_manager.__init__ 1000 in
  error run.1.1.1 = None
  ∧ run.2 = [(PLAYWRIGHT, Return ()); (HTTPX, Raise "RuntimeError");
             (SELENIUM, Return ())].
Proof. cbv zeta. split_and!; vm_compute; reflexivity. Qed.

End cleanup_instances.

(** * The merge phase *)

Section merge.
Import v6_layered_orchestrator.

Lemma _deduplicate_br_patents_loop_kept patents seen unique :
  Forall has_number patents →
  _deduplicate_br_patents_loop patents seen unique
  = Return (unique ++ kept seen patents).
Proof.
  intros H. revert seen unique.
  induction H as [|patent rest [number Hn] _ IH]; intros seen unique; simpl.
  { by rewrite app_nil_r. }
  unfold normalized_number. rewrite Hn. simpl.
  destruct (decide (normalize number ∉ seen)) as [Hnot|Hin].
  - rewrite decide_False by done. by rewrite IH, <- app_assoc.
  - rewrite decide_True by (by apply dec_stable). apply IH.
Qed.

Lemma kept_sublist seen patents : kept seen patents `sublist_of` patents.
Proof.
  revert seen. induction patents as [|p rest IH]; intros seen; simpl; [done|].
  destruct (decide _); [by apply sublist_cons|by apply sublist_skip].
Qed.

Lemma kept_fresh seen patents :
  Forall (λ p, normalized_number p ∉ seen) (kept seen patents)
  ∧ NoDup (normalized_number <$> kept seen patents).
Proof.
  revert seen. induction patents as [|p rest IH]; intros seen; simpl.
  { split; constructor. }
  destruct (decide _) as [Hin|Hnot]; [apply IH|].
  destruct (IH ({[normalized_number p]} ∪ seen)) as [Hf Hnd]. split.
  - constructor; [done|]. eapply Forall_impl; [exact Hf|].
    intros q Hq Hin. apply Hq, elem_of_union. by right.
  - rewrite fmap_cons. constructor; [|done].
    intros Hin. apply list_elem_of_fmap in Hin as (q & Heq & Hq).
    eapply Forall_forall in Hf; [|exact Hq].
    apply Hf, elem_of_union. left. by apply elem_of_singleton.
Qed.

Lemma kept_covers seen patents p :
  p ∈ patents →
  normalized_number p ∈ seen
  ∨ ∃ q, q ∈ kept seen patents ∧ normalized_number q = normalized_number p.
Proof.
  revert seen. induction patents as [|p0 rest IH]; intros seen Hp.
  { by apply elem_of_nil in Hp. }
  simpl. apply elem_of_cons in Hp as [->|Hp].
  - destruct (decide _) as [Hin|Hnot]; [by left|].
    right. exists p0. split; [by left|done].
  - destruct (decide _) as [Hin|Hnot]; [by apply IH|].
    destruct (IH ({[normalized_number p0]} ∪ seen) Hp) as [Hs|(q & Hq & Heq)].
    + apply elem_of_union in Hs as [Hs|Hs]; [|by left].
      apply elem_of_singleton in Hs. right. exists p0. split; [by left|done].
    + right. exists q. split; [by right|done].
Qed.

Lemma kept_first seen pre p post :
  normalized_number p ∉ seen →
  Forall (λ q, normalized_number q ≠ normalized_number p) pre →
  p ∈ kept seen (pre ++ p :: post).
Proof.
  revert seen. induction pre as [|q pre IH]; intros seen Hs Hpre; simpl.
  - rewrite decide_False by done. by left.
  - apply Forall_cons_1 in Hpre as [Hq Hpre].
    destruct (decide _) as [Hin|Hnot]; [by apply IH|].
    right. apply IH; [|done]. intros Hin.
    apply elem_of_union in Hin as [Hin|Hin]; [|done].
    apply elem_of_singleton in Hin. congruence.
Qed.

Lemma _count_by_source_spec (patents : list (gmap string string))
    (counts : gmap string Z) (s : string) :
  default 0 (fold_left
               (λ counts patent,
                  <[source_of patent
                    := default 0 (counts !! source_of patent) + 1]> counts)
               patents counts !! s)
  = default 0 (counts !! s)
    + Z.of_nat (length (filter (λ p, source_of p = s) patents)).
Proof.
  revert counts. induction patents as [|p rest IH]; intros counts; simpl.
  { lia. }
  rewrite IH, filter_cons.
  destruct (decide (source_of p = s)) as [<-|Hne].
  - rewrite lookup_insert_eq. simpl. lia.
  - rewrite lookup_insert_ne by done. lia.
Qed.


End merge.

Section merge_instances.
Import base_crawler crawler_manager v6_layered_orchestrator scenario.



End merge_instances.

(** * The admin reset *)

Section admin.
Import base_crawler crawler_manager api_deploy.

(** C9 (the code as it stands).  On an initialized service the reset
    endpoint answers with the 500 error for the missing attribute
    [playwright_crawler] and leaves the manager untouched, whatever its
    state; on [tripped] the Playwright circuit is still open afterwards,
    with three consecutive failures and its deadline at 1300. *)
Theorem reset_circuit_breakers_resets_nothing (manager : CrawlerManager) :
  reset_circuit_breakers (Some manager)
  = (HTTPException 500
       "Failed to reset circuits: 'CrawlerManager' object has no attribute 'playwright_crawler'",
     Some manager)
  ∧ (let after := (reset_circuit_breakers (Some tripped)).2 in
     (λ m, consecutive_failures (crawlers m PLAYWRIGHT)) <$> after = Some 3
     ∧ (λ m, status (crawlers m PLAYWRIGHT)) <$> after = Some CIRCUIT_OPEN
     ∧ (λ m, circuit_open_until (crawlers m PLAYWRIGHT)) <$> after = Some 1300).
Proof.
  split; [reflexivity|]. cbv zeta. split_and!; vm_compute; reflexivity.
Qed.

End admin.

(** * Further properties of the pipeline run *)

Section runs.
Import base_crawler crawler_manager v6_layered_orchestrator.
Context {Env : Type} `{!Runtime Env} `{!Backends Env} `{!Collaborators Env}.

Lemma family_record_ok (br_patent wo_number layer_used : string) :
  pipeline_record
    (<["number" := br_patent]>
     (<["source_wo" := wo_number]>
     (<["source" := "wo_family"]>
     (<["layer" := layer_used]> (∅ : gmap string string))))).
Proof.
  split_and!.
  - eexists. apply lookup_insert_eq.
  - left. by simplify_map_eq.
  - by simplify_map_eq.
Qed.

Lemma multi_query_loop_strategies queries target strategy max_results all usage
    self env :
  strategies self !! target = Some strategy →
  ∃ all' usage' self' env',
    search_wo_numbers_multi_query_loop queries target max_results all usage
      self env
    = (Return (all', usage'), self', env')
    ∧ strategies self' = strategies self.
Proof.
  revert all usage self env.
  induction queries as [|query rest IH]; intros all usage self env Hs.
  { by exists all, usage, self, env. }
  destruct (search_wo_numbers_run query target max_results self env _ Hs)
    as (wo & nm & self1 & env1 & evs & Hr & Hw).
  rewrite (multi_query_loop_step _ _ _ _ _ _ _ _ _ _ _ _ _ Hr).
  pose proof (walk_strategies _ _ _ _ _ _ _ _ _ _ _ _ Hw) as Hst.
  assert (Hs1 : strategies self1 !! target = Some strategy) by by rewrite Hst.
  destruct (IH (all ∪ list_to_set wo)
              (<[nm := default 0 (usage !! nm) + 1]> usage) self1
              (sleep (1 # 2) env1) Hs1)
    as (all' & usage' & self' & env' & Hl & Hst').
  exists all', usage', self', env'. split; [done|]. by rewrite Hst'.
Qed.

Lemma _convert_wo_to_br_loop_returns wo_numbers strategy acc successful failed
    manager env :
  strategies manager !! GOOGLE_PATENTS = Some strategy →
  Forall pipeline_record acc →
  ∃ data manager' env',
    _convert_wo_to_br_loop wo_numbers acc successful failed manager env
    = (Return data, manager', env')
    ∧ Forall pipeline_record (wo_br_patents data)
    ∧ successful_conversions data + failed_conversions data
      = successful + failed + Z.of_nat (length wo_numbers)
    ∧ successful ≤ successful_conversions data
    ∧ failed ≤ failed_conversions data
    ∧ strategies manager' = strategies manager.
Proof.
  revert acc successful failed manager env.
  induction wo_numbers as [|wo rest IH];
    intros acc successful failed manager env Hs Hacc.
  { exists (mkWoToBr acc successful failed), manager, env. simpl.
    split_and!; try done; lia. }
  cbn [_convert_wo_to_br_loop].
  destruct (get_br_patents_from_wo_run wo GOOGLE_PATENTS manager env _ Hs)
    as (brs & used & manager1 & env1 & evs & Hr & Hw).
  rewrite Hr.
  pose proof (walk_strategies _ _ _ _ _ _ _ _ _ _ _ _ Hw) as Hst.
  assert (Hs1 : strategies manager1 !! GOOGLE_PATENTS = Some strategy)
    by by rewrite Hst.
  destruct (list_truthy brs).
  - match goal with
    | |- context [_convert_wo_to_br_loop rest ?a ?s ?f ?m ?e] =>
        assert (Ha : Forall pipeline_record a)
    end.
    { apply Forall_app. split; [done|].
      apply Forall_fmap, Forall_forall. intros br _. apply family_record_ok. }
    destruct (IH _ (successful + 1) failed manager1 (sleep (3 # 10) env1) Hs1 Ha)
      as (data & manager' & env' & Hl & Hrec & Hsum & Hle1 & Hle2 & Hst').
    exists data, manager', env'. rewrite Hl.
    split_and!; first [done | cbn [length]; lia | congruence].
  - destruct (IH acc successful (failed + 1) manager1 (sleep (3 # 10) env1)
                Hs1 Hacc)
      as (data & manager' & env' & Hl & Hrec & Hsum & Hle1 & Hle2 & Hst').
    exists data, manager', env'. rewrite Hl.
    split_and!; first [done | cbn [length]; lia | congruence].
Qed.

Lemma inpi_molecule_patents_records titles :
  Forall pipeline_record (inpi_molecule_patents titles).
Proof.
  unfold inpi_molecule_patents. apply Forall_fmap, Forall_forall.
  intros title _. split_and!.
  - eexists. apply lookup_insert_eq.
  - right. left. by simplify_map_eq.
  - by simplify_map_eq.
Qed.

Lemma inpi_brand_patents_records titles br_patents :
  Forall pipeline_record br_patents →
  Forall pipeline_record (inpi_brand_patents titles br_patents).
Proof.
  revert br_patents. induction titles as [|title rest IH];
    intros br_patents Hbr; simpl; [done|].
  destruct (startswith "BR" title); [|by apply IH].
  destruct (bool_decide _); apply IH; [done|].
  apply Forall_app. split; [done|]. constructor; [|done]. split_and!.
  - eexists. apply lookup_insert_eq.
  - right. right. by simplify_map_eq.
  - by simplify_map_eq.
Qed.

Lemma _search_inpi_direct_records molecule_name brand_name env :
  Forall pipeline_record
    (inpi_br_patents (_search_inpi_direct molecule_name brand_name env).1)
  ∧ inpi_total_found (_search_inpi_direct molecule_name brand_name env).1
    = Z.of_nat (length (inpi_br_patents
                          (_search_inpi_direct molecule_name brand_name env).1)).
Proof.
  unfold _search_inpi_direct.
  destruct (client_get _ env) as [[response|e] env1]; [|by split; [constructor|]].
  set (found := if status_code response =? 200 then _ else _).
  assert (Hf : Forall pipeline_record found).
  { unfold found. destruct (_ =? _); [|by constructor].
    apply inpi_molecule_patents_records. }
  destruct (str_truthy brand_name); [|done].
  destruct (client_get _ _) as [[response2|e] env2]; [|done].
  destruct (status_code response2 =? 200); [|done].
  split; [|done]. by apply inpi_brand_patents_records.
Qed.

Lemma kept_Forall (P : gmap string string → Prop) seen patents :
  Forall P patents → Forall P (kept seen patents).
Proof.
  intros H. revert seen. induction H as [|p rest Hp _ IH]; intros seen; simpl.
  { constructor. }
  destruct (decide _); [apply IH|]. constructor; [done|apply IH].
Qed.

Lemma kept_length seen patents :
  (length (kept seen patents) ≤ length patents)%nat.
Proof.
  revert seen. induction patents as [|p rest IH]; intros seen; simpl; [done|].
  destruct (decide _); simpl.
  - specialize (IH seen). lia.
  - specialize (IH ({[normalized_number p]} ∪ seen)). lia.
Qed.

Lemma pipeline_records_merge wo inpi :
  Forall pipeline_record (wo ++ inpi) →
  _deduplicate_br_patents wo inpi = Return (kept ∅ (wo ++ inpi)).
Proof.
  intros H. unfold _deduplicate_br_patents.
  rewrite _deduplicate_br_patents_loop_kept; [done|].
  eapply Forall_impl; [exact H|]. by intros p [Hn _].
Qed.

(** The body of [search] on a manager whose table has the discovery
    target. *)
Lemma search_try_configured molecule_name brand_name start_time manager env
    strategy :
  strategies manager !! GOOGLE_PATENTS = Some strategy →
  ∃ results manager' env' wo_data conv inpi sm,
    search_try molecule_name brand_name start_time results_init manager env
    = (results, None, manager', env')
    ∧ error results = None
    ∧ wo_discovery results = Some wo_data
    ∧ wo_to_br_conversion results = Some conv
    ∧ inpi_search results = Some inpi
    ∧ summary results = Some sm
    ∧ br_patents results
      = kept ∅ (wo_br_patents conv ++ inpi_br_patents inpi)
    ∧ Forall pipeline_record (wo_br_patents conv ++ inpi_br_patents inpi)
    ∧ total_wo_found sm = Z.of_nat (length (wo_numbers wo_data))
    ∧ total_br_found sm = Z.of_nat (length (br_patents results))
    ∧ wo_with_br sm = successful_conversions conv
    ∧ inpi_found sm = Z.of_nat (length (inpi_br_patents inpi))
    ∧ by_source sm = _count_by_source (br_patents results)
    ∧ successful_conversions conv + failed_conversions conv
      = Z.of_nat (length (wo_numbers wo_data)).
Proof.
  intros Hs. unfold search_try.
  destruct (_get_pubchem_data molecule_name env) as [pubchem env0].
  unfold _discover_wo_numbers, search_wo_numbers_multi_query.
  destruct (multi_query_loop_strategies
              (_build_wo_queries molecule_name (dev_codes pubchem) (cas pubchem))
              GOOGLE_PATENTS strategy 10 ∅ ∅ manager env0 Hs)
    as (all' & usage' & manager1 & env1 & Hl & Hst).
  rewrite Hl. cbn beta iota zeta.
  set (wo_data := mkWoDiscovery _ _ _ _).
  assert (Hs1 : strategies manager1 !! GOOGLE_PATENTS = Some strategy)
    by by rewrite Hst.
  assert (Hconv : ∃ conv manager2 env2,
            _convert_wo_to_br (wo_numbers wo_data) manager1 env1
            = (Return conv, manager2, env2)
            ∧ Forall pipeline_record (wo_br_patents conv)
            ∧ successful_conversions conv + failed_conversions conv
              = Z.of_nat (length (wo_numbers wo_data))).
  { unfold _convert_wo_to_br.
    destruct (wo_numbers wo_data) as [|wo rest] eqn:Ewo.
    - exists (mkWoToBr [] 0 0), manager1, env1. simpl. by split_and!.
    - cbn [list_truthy negb].
      assert (H0 : Forall pipeline_record []) by constructor.
      destruct (_convert_wo_to_br_loop_returns (wo :: rest) strategy [] 0 0
                  manager1 env1 Hs1 H0)
        as (conv & manager2 & env2 & Hc & Hrec & Hsum & _).
      exists conv, manager2, env2. split_and!; [done|done|lia]. }
  destruct Hconv as (conv & manager2 & env2 & Hc & Hrec & Hsum).
  rewrite Hc. cbn beta iota zeta.
  pose proof (_search_inpi_direct_records molecule_name brand_name env2)
    as [Hin _].
  destruct (_search_inpi_direct molecule_name brand_name env2)
    as [inpi env3]. cbn [fst] in Hin.
  assert (Hall : Forall pipeline_record
                   (wo_br_patents conv ++ inpi_br_patents inpi))
    by (apply Forall_app; by split).
  rewrite (pipeline_records_merge _ _ Hall).
  eexists _, _, _, wo_data, conv, inpi, _.
  split; [reflexivity|]. cbn. by split_and!.
Qed.

Lemma search_try_raised molecule_name brand_name start_time manager env
    results e manager' env' :
  search_try molecule_name brand_name start_time results_init manager env
  = (results, Some e, manager', env') →
  br_patents results = [] ∧ summary results = None
  ∧ statistics results = None.
Proof.
  unfold search_try.
  destruct (_get_pubchem_data molecule_name env) as [pubchem env0].
  destruct (_discover_wo_numbers _ _ _ _ _) as [[[wo_data|e1] manager1] env1];
    [|by intros [= <- _ _ _]].
  destruct (_convert_wo_to_br _ _ _) as [[[conv|e2] manager2] env2];
    [|by intros [= <- _ _ _]].
  destruct (_search_inpi_direct _ _ _) as [inpi env3].
  destruct (_deduplicate_br_patents _ _) as [unique|e3]; [done|].
  by intros [= <- _ _ _].
Qed.

(** X1.  On a manager whose strategy table has an entry for
    GOOGLE_PATENTS, [search] completes whatever the backends, the
    molecule lookup and the patent-office index do: the result has no
    error and all its phase sub-results; every merged record has a
    ['number'], one of the provenance tags [wo_family],
    [inpi_molecule], [inpi_brand] and no ['score']; the summary counts
    are the lengths of the lists they summarise;
    successful plus failed conversions is the number of discovered WO
    numbers; and the merged list is no longer than the two source lists
    together. *)
Theorem configured_run_completes (molecule_name : string)
    (brand_name : option string) (target_countries : list string)
    (manager : CrawlerManager) (env : Env) (strategy : list CrawlerLayer) :
  strategies manager !! GOOGLE_PATENTS = Some strategy →
  let results :=
    (search molecule_name brand_name target_countries manager env).1.1.1 in
  error results = None
  ∧ ∃ wo_data conv inpi sm,
      wo_discovery results = Some wo_data
      ∧ wo_to_br_conversion results = Some conv
      ∧ inpi_search results = Some inpi
      ∧ summary results = Some sm
      ∧ _deduplicate_br_patents (wo_br_patents conv) (inpi_br_patents inpi)
        = Return (br_patents results)
      ∧ Forall pipeline_record (br_patents results)
      ∧ total_wo_found sm = Z.of_nat (length (wo_numbers wo_data))
      ∧ total_br_found sm = Z.of_nat (length (br_patents results))
      ∧ wo_with_br sm = successful_conversions conv
      ∧ inpi_found sm = Z.of_nat (length (inpi_br_patents inpi))
      ∧ successful_conversions conv + failed_conversions conv
        = Z.of_nat (length (wo_numbers wo_data))
      ∧ total_br_found sm
        ≤ Z.of_nat (length (wo_br_patents conv)) + inpi_found sm.
Proof.
  intros Hs results. subst results. unfold search.
  destruct (search_try_configured molecule_name brand_name (time env) manager
              env strategy Hs)
    as (results & manager' & env' & wo_data & conv & inpi & sm & Ht & He
        & H1 & H2 & H3 & H4 & Hbr & Hrec & Hwo & Htot & Hwith & Hinpi
        & Hby & Hsum).
  rewrite Ht.
  destruct (cleanup_all manager' env') as [[manager2 env2] cleaned].
  cbn [fst]. split; [done|].
  exists wo_data, conv, inpi, sm. split_and!; try done.
  - rewrite Hbr. by apply pipeline_records_merge.
  - rewrite Hbr. by apply kept_Forall.
  - rewrite Htot, Hinpi, Hbr.
    pose proof (kept_length ∅ (wo_br_patents conv ++ inpi_br_patents inpi)) as Hk.
    rewrite length_app in Hk. lia.
Qed.


End runs.

Section runs_instances.
Import base_crawler crawler_manager v6_layered_orchestrator scenario.

Lemma configured_run_completes_witness :
  strategies crawler_manager.__init__ !! GOOGLE_PATENTS
  = Some [PLAYWRIGHT; SELENIUM; HTTPX]
  ∧ error (search (Runtime0 := clock) (Backends0 := primary)
             (Collaborators0 := index) "Darolutamide" (Some "Nubeqa") ["BR"]
             crawler_manager.__init__ 1000).1.1.1 = None.
Proof.
  assert (Hs : strategies crawler_manager.__init__ !! GOOGLE_PATENTS
               = Some [PLAYWRIGHT; SELENIUM; HTTPX])
    by (vm_compute; reflexivity).
  split; [exact Hs|].
  exact (proj1 (configured_run_completes (Runtime0 := clock)
                  (Backends0 := primary) (Collaborators0 := index)
                  "Darolutamide" (Some "Nubeqa") ["BR"]
                  crawler_manager.__init__ 1000 _ Hs)).
Defined.


End runs_instances.

(** * The manager's counters *)

Section counters.
Import base_crawler crawler_manager.
Context {Env : Type} `{!Runtime Env}.

Ltac fields :=
  unfold at_layer in *; simpl; unfold insert, fn_insert;
  repeat match goal with
         | H : ?t ?x = _ |- context [?t ?x] => rewrite H
         end;
  repeat case_decide; repeat case_bool_decide; subst; simpl;
  try congruence; try lia.

Lemma walk_counters {R : Type}
    (op : CrawlerLayer → BaseCrawler → Env → outcome R * list call * Env)
    (truthy : R → bool) (empty : R) (counted : bool) strategy self env
    res nm self' env' evs :
  walk op truthy empty counted strategy self env = (res, nm, self', env', evs) →
  (∀ l, layer_usage self' l
        = layer_usage self l + tally (at_layer l is_awaited) evs)
  ∧ (∀ l, layer_successes self' l
          = layer_successes self l + tally (at_layer l (delivers truthy)) evs)
  ∧ crawler_manager.total_requests self'
    = crawler_manager.total_requests self
      + (if counted then tally is_awaited evs else 0)
  ∧ total_successes self'
    = total_successes self
      + (if counted then tally (delivers truthy) evs else 0)
  ∧ total_failures self'
    = total_failures self
      + (if counted then 1 - tally (delivers truthy) evs else 0)
  ∧ 0 ≤ tally (delivers truthy) evs ≤ 1
  ∧ (∀ l, tally (at_layer l (delivers truthy)) evs
          ≤ tally (at_layer l is_awaited) evs)
  ∧ tally (delivers truthy) evs ≤ tally is_awaited evs.
Proof.
  revert self env res nm self' env' evs.
  induction strategy as [|layer rest IH]; intros self env res nm self' env' evs.
  { simpl. intros [= <- <- <- <- <-]. destruct counted; simpl;
      split_and!; intros; lia. }
  simpl.
  destruct (is_available (time env) (crawlers self layer)) as [[] c]; simpl.
  - destruct (op layer c env) as [[[r|ex] calls] env1];
      [destruct (truthy r) eqn:Et|].
    + intros [= <- <- <- <- <-]. destruct counted; simpl; rewrite ?Et;
        split_and!; intros; fields.
    + destruct (walk _ _ _ _ rest _ _) as [[[[res1 nm1] self1] env2] evs1] eqn:Ew.
      intros [= <- <- <- <- <-].
      destruct (IH _ _ _ _ _ _ _ Ew) as (H1 & H2 & H3 & H4 & H5 & H6 & H7 & H8).
      destruct counted; simpl; rewrite ?Et;
        split_and!; intros; rewrite ?H1, ?H2, ?H3, ?H4, ?H5;
        try specialize (H7 l); fields.
    + destruct (walk _ _ _ _ rest _ _) as [[[[res1 nm1] self1] env2] evs1] eqn:Ew.
      intros [= <- <- <- <- <-].
      destruct (IH _ _ _ _ _ _ _ Ew) as (H1 & H2 & H3 & H4 & H5 & H6 & H7 & H8).
      destruct counted; simpl;
        split_and!; intros; rewrite ?H1, ?H2, ?H3, ?H4, ?H5;
        try specialize (H7 l); fields.
  - destruct (walk _ _ _ _ rest _ _) as [[[[res1 nm1] self1] env2] evs1] eqn:Ew.
    intros [= <- <- <- <- <-].
    destruct (IH _ _ _ _ _ _ _ Ew) as (H1 & H2 & H3 & H4 & H5 & H6 & H7 & H8).
    destruct counted; simpl;
      split_and!; intros; rewrite ?H1, ?H2, ?H3, ?H4, ?H5;
      try specialize (H7 l); fields.
Qed.

Lemma tally_nonneg {R : Type} (f : event R → bool) evs : 0 ≤ tally f evs.
Proof. induction evs as [|ev evs IH]; simpl; [done|]. destruct (f ev); lia. Qed.

Lemma tally_app {R : Type} (f : event R → bool) evs1 evs2 :
  tally f (evs1 ++ evs2) = tally f evs1 + tally f evs2.
Proof. induction evs1 as [|ev evs1 IH]; simpl; [done|]. rewrite IH. lia. Qed.

Lemma tally_nothing {R : Type} (truthy : R → bool) evs :
  Forall (yields_nothing truthy) evs → tally (delivers truthy) evs = 0.
Proof.
  induction 1 as [|ev evs Hev _ IH]; simpl; [done|]. rewrite IH.
  destruct ev as [|l now [r|e]]; simpl in *; [done| |done]. by rewrite Hev.
Qed.

(** Whether a call delivered shows in its result, when the empty result
    is falsy. *)
Lemma walk_delivers {R : Type}
    (op : CrawlerLayer → BaseCrawler → Env → outcome R * list call * Env)
    (truthy : R → bool) (empty : R) (counted : bool) strategy self env
    res nm self' env' evs :
  truthy empty = false →
  walk op truthy empty counted strategy self env = (res, nm, self', env', evs) →
  tally (delivers truthy) evs = (if truthy res then 1 else 0).
Proof.
  intros He Hw.
  destruct (walk_outcome _ _ _ _ _ _ _ _ _ _ _ _ Hw)
    as [(_ & Hn & -> & _)|(evs0 & l & now & post & -> & Ht & Hn & _)].
  - rewrite He. by apply tally_nothing.
  - rewrite tally_app, (tally_nothing _ _ Hn), Ht. simpl. by rewrite Ht.
Qed.

(** Every visit is at one of the three layers. *)
Lemma tally_by_layer {R : Type} (f : event R → bool) evs :
  tally f evs
  = tally (at_layer PLAYWRIGHT f) evs + tally (at_layer HTTPX f) evs
    + tally (at_layer SELENIUM f) evs.
Proof.
  induction evs as [|ev evs IH]; simpl; [done|]. rewrite IH.
  unfold at_layer. destruct (f ev), (event_layer ev); simpl; lia.
Qed.

Lemma walk_manager_inv {R : Type}
    (op : CrawlerLayer → BaseCrawler → Env → outcome R * list call * Env)
    (truthy : R → bool) (empty : R) (counted : bool) strategy self env
    res nm self' env' evs :
  walk op truthy empty counted strategy self env = (res, nm, self', env', evs) →
  manager_inv self → manager_inv self'.
Proof.
  intros Hw [I1 I2 I3 I4 I5 I6 I7].
  destruct (walk_counters _ _ _ _ _ _ _ _ _ _ _ _ Hw)
    as (H1 & H2 & H3 & H4 & H5 & H6 & H7 & H8).
  split.
  - rewrite H4. destruct counted; lia.
  - rewrite H3, H4. destruct counted; lia.
  - rewrite H5. destruct counted; lia.
  - intros l. rewrite H2.
    pose proof (tally_nonneg (at_layer l (delivers truthy)) evs).
    specialize (I4 l). lia.
  - intros l. rewrite H1, H2. specialize (H7 l). specialize (I5 l). lia.
  - rewrite H3, !H1. pose proof (tally_by_layer (R := R) is_awaited evs).
    pose proof (tally_nonneg (R := R) is_awaited evs).
    destruct counted; lia.
  - rewrite H4, !H2. pose proof (tally_by_layer (delivers truthy) evs).
    pose proof (tally_nonneg (delivers truthy) evs).
    destruct counted; lia.
Qed.

(** Backends the call did not visit keep their state. *)
Lemma walk_unvisited {R : Type}
    (op : CrawlerLayer → BaseCrawler → Env → outcome R * list call * Env)
    (truthy : R → bool) (empty : R) (counted : bool) strategy self env
    res nm self' env' evs l :
  walk op truthy empty counted strategy self env = (res, nm, self', env', evs) →
  l ∉ event_layer <$> evs →
  crawlers self' l = crawlers self l.
Proof.
  revert self env res nm self' env' evs.
  induction strategy as [|layer rest IH]; intros self env res nm self' env' evs.
  { simpl. intros [= <- <- <- <- <-] _. by destruct counted. }
  simpl.
  destruct (is_available (time env) (crawlers self layer)) as [[] c]; simpl.
  - destruct (op layer c env) as [[[r|ex] calls] env1];
      [destruct (truthy r) eqn:Et|].
    + intros [= <- <- <- <- <-] Hl. rewrite fmap_cons, not_elem_of_cons in Hl.
      destruct Hl as [Hl _]. simpl in Hl. destruct counted; simpl; unfold insert, fn_insert;
        repeat case_decide; congruence.
    + destruct (walk _ _ _ _ rest _ _) as [[[[res1 nm1] self1] env2] evs1] eqn:Ew.
      intros [= <- <- <- <- <-] Hl. rewrite fmap_cons, not_elem_of_cons in Hl.
      destruct Hl as [Hl Hl']. simpl in Hl. rewrite (IH _ _ _ _ _ _ _ Ew Hl').
      destruct counted; simpl; unfold insert, fn_insert;
        repeat case_decide; congruence.
    + destruct (walk _ _ _ _ rest _ _) as [[[[res1 nm1] self1] env2] evs1] eqn:Ew.
      intros [= <- <- <- <- <-] Hl. rewrite fmap_cons, not_elem_of_cons in Hl.
      destruct Hl as [Hl Hl']. simpl in Hl. rewrite (IH _ _ _ _ _ _ _ Ew Hl').
      destruct counted; simpl; unfold insert, fn_insert;
        repeat case_decide; congruence.
  - destruct (walk _ _ _ _ rest _ _) as [[[[res1 nm1] self1] env2] evs1] eqn:Ew.
    intros [= <- <- <- <- <-] Hl. rewrite fmap_cons, not_elem_of_cons in Hl.
    destruct Hl as [Hl Hl']. simpl in Hl. rewrite (IH _ _ _ _ _ _ _ Ew Hl').
    simpl; unfold insert, fn_insert; repeat case_decide; congruence.
Qed.

End counters.

Section manager_counters.
Import base_crawler crawler_manager.
Context {Env : Type} `{!Runtime Env} `{!Backends Env}.

Lemma tally_le_length {R : Type} (f : event R → bool) evs :
  tally f evs ≤ Z.of_nat (length evs).
Proof.
  induction evs as [|ev evs IH]; simpl; [done|]. destruct (f ev); lia.
Qed.

Lemma walk_visits_le {R : Type}
    (op : CrawlerLayer → BaseCrawler → Env → outcome R * list call * Env)
    (truthy : R → bool) (empty : R) (counted : bool) strategy self env
    res nm self' env' evs :
  walk op truthy empty counted strategy self env = (res, nm, self', env', evs) →
  tally is_awaited evs ≤ Z.of_nat (length strategy).
Proof.
  intros Hw. destruct (walk_layers _ _ _ _ _ _ _ _ _ _ _ _ Hw) as [post ->].
  pose proof (tally_le_length is_awaited evs).
  rewrite length_app, length_fmap. lia.
Qed.

(** X3.  One identifier search on a configured target adds exactly one
    to [total_successes] (when the result is non-empty) or to
    [total_failures] (when it is empty), never to both; [total_requests]
    grows by the number of backends the call awaited, which is at most
    the length of the strategy; and for every layer [layer_usage] grows
    by the layer's awaited visits and [layer_successes] by its
    deliveries. *)
Theorem search_wo_numbers_counts (target : TargetSite)
    (strategy : list CrawlerLayer) (self : CrawlerManager) (env : Env)
    (query : string) (max_results : Z) :
  strategies self !! target = Some strategy →
  ∃ res nm self' env' evs,
    search_wo_numbers query target max_results self env
    = (Return (res, nm), self', env', evs)
    ∧ crawler_manager.total_requests self'
      = crawler_manager.total_requests self + tally is_awaited evs
    ∧ tally is_awaited evs ≤ Z.of_nat (length strategy)
    ∧ (res ≠ [] →
       total_successes self' = total_successes self + 1
       ∧ total_failures self' = total_failures self)
    ∧ (res = [] →
       total_successes self' = total_successes self
       ∧ total_failures self' = total_failures self + 1)
    ∧ (∀ l, layer_usage self' l
            = layer_usage self l + tally (at_layer l is_awaited) evs)
    ∧ (∀ l, layer_successes self' l
            = layer_successes self l
              + tally (at_layer l (delivers list_truthy)) evs).
Proof.
  intros Hs.
  destruct (search_wo_numbers_run query target max_results self env _ Hs)
    as (res & nm & self' & env' & evs & Hr & Hw).
  exists res, nm, self', env', evs. split; [done|].
  destruct (walk_counters _ _ _ _ _ _ _ _ _ _ _ _ Hw)
    as (H1 & H2 & H3 & H4 & H5 & H6 & H7 & H8).
  pose proof (walk_delivers _ list_truthy [] _ _ _ _ _ _ _ _ _ eq_refl Hw) as Hd.
  split_and!; try done.
  - by eapply walk_visits_le.
  - intros Hne. destruct res; [done|]. simpl in Hd. lia.
  - intros ->. simpl in Hd. lia.
Qed.

(** X4.  The detail fetch and the family expansion never change the
    manager's totals ([total_requests], [total_successes],
    [total_failures]), whether they find something or not; they count
    only per layer: [layer_usage] by the layer's awaited visits and
    [layer_successes] by its deliveries. *)
Theorem details_and_family_keep_totals (target : TargetSite)
    (strategy : list CrawlerLayer) (self : CrawlerManager) (env : Env)
    (wo_number : string) :
  strategies self !! target = Some strategy →
  (∃ res nm self' env' evs,
     get_patent_details wo_number target self env
     = (Return (res, nm), self', env', evs)
     ∧ crawler_manager.total_requests self' = crawler_manager.total_requests self
     ∧ total_successes self' = total_successes self
     ∧ total_failures self' = total_failures self
     ∧ (∀ l, layer_usage self' l
             = layer_usage self l + tally (at_layer l is_awaited) evs)
     ∧ (∀ l, layer_successes self' l
             = layer_successes self l
               + tally (at_layer l (delivers details_truthy)) evs))
  ∧ (∃ res nm self' env' evs,
       get_br_patents_from_wo wo_number target self env
       = (Return (res, nm), self', env', evs)
       ∧ crawler_manager.total_requests self'
         = crawler_manager.total_requests self
       ∧ total_successes self' = total_successes self
       ∧ total_failures self' = total_failures self
       ∧ (∀ l, layer_usage self' l
               = layer_usage self l + tally (at_layer l is_awaited) evs)
       ∧ (∀ l, layer_successes self' l
               = layer_successes self l
                 + tally (at_layer l (delivers list_truthy)) evs)).
Proof.
  intros Hs. split.
  - destruct (get_patent_details_run wo_number target self env _ Hs)
      as (res & nm & self' & env' & evs & Hr & Hw).
    exists res, nm, self', env', evs. split; [done|].
    destruct (walk_counters _ _ _ _ _ _ _ _ _ _ _ _ Hw)
      as (H1 & H2 & H3 & H4 & H5 & _).
    simpl in H3, H4, H5. split_and!; try done; lia.
  - destruct (get_br_patents_from_wo_run wo_number target self env _ Hs)
      as (res & nm & self' & env' & evs & Hr & Hw).
    exists res, nm, self', env', evs. split; [done|].
    destruct (walk_counters _ _ _ _ _ _ _ _ _ _ _ _ Hw)
      as (H1 & H2 & H3 & H4 & H5 & _).
    simpl in H3, H4, H5. split_and!; try done; lia.
Qed.

(** X5.  A fallback call leaves every backend it did not visit exactly
    as it was: in particular, when the strategy has no repetition, the
    backends that come after the winning one are not even probed for
    availability, so an elapsed cooldown of theirs is not recovered by
    this call. *)
Theorem unvisited_backends_untouched (target : TargetSite)
    (strategy : list CrawlerLayer) (self : CrawlerManager) (env : Env)
    (query : string) (max_results : Z) :
  strategies self !! target = Some strategy →
  ∃ res nm self' env' evs,
    search_wo_numbers query target max_results self env
    = (Return (res, nm), self', env', evs)
    ∧ (∀ l, l ∉ event_layer <$> evs → crawlers self' l = crawlers self l)
    ∧ (NoDup strategy →
       ∃ post, strategy = (event_layer <$> evs) ++ post
               ∧ Forall (λ l, crawlers self' l = crawlers self l) post).
Proof.
  intros Hs.
  destruct (search_wo_numbers_run query target max_results self env _ Hs)
    as (res & nm & self' & env' & evs & Hr & Hw).
  exists res, nm, self', env', evs. split; [done|].
  assert (Hun : ∀ l, l ∉ event_layer <$> evs → crawlers self' l = crawlers self l)
    by (intros l Hl; by eapply walk_unvisited).
  split; [done|]. intros Hnd.
  destruct (walk_layers _ _ _ _ _ _ _ _ _ _ _ _ Hw) as [post Hpost].
  exists post. split; [done|]. apply Forall_forall. intros l Hl. apply Hun.
  rewrite Hpost in Hnd. apply NoDup_app in Hnd as (_ & Hdisj & _).
  intros Hin. by apply (Hdisj l).
Qed.

End manager_counters.

Section manager_counters_instances.
Import base_crawler crawler_manager scenario.

Lemma search_wo_numbers_counts_witness :
  strategies crawler_manager.__init__ !! GOOGLE_PATENTS
  = Some [PLAYWRIGHT; SELENIUM; HTTPX]
  ∧ ∃ self' env' evs,
      search_wo_numbers (Runtime0 := clock) (Backends0 := fakes)
        "Darolutamide patent WO2016" GOOGLE_PATENTS 20
        crawler_manager.__init__ 1000
      = (Return (["WO2016140201"; "WO2011140324"], "HTTPX"), self', env', evs)
      ∧ crawler_manager.total_requests self' = 3
      ∧ total_successes self' = 1
      ∧ total_failures self' = 0
      ∧ layer_usage self' SELENIUM = 1
      ∧ layer_successes self' SELENIUM = 0
      ∧ layer_successes self' HTTPX = 1.
Proof.
  assert (Hs : strategies crawler_manager.__init__ !! GOOGLE_PATENTS
               = Some [PLAYWRIGHT; SELENIUM; HTTPX])
    by (vm_compute; reflexivity).
  split; [exact Hs|].
  destruct (search_wo_numbers_counts (Runtime0 := clock) (Backends0 := fakes)
              GOOGLE_PATENTS [PLAYWRIGHT; SELENIUM; HTTPX]
              crawler_manager.__init__ 1000
              "Darolutamide patent WO2016" 20 Hs)
    as (res & nm & self' & env' & evs & Hr & H1 & _ & H2 & _ & H3 & H4).
  pose proof (f_equal snd Hr) as Hev. vm_compute in Hev. subst evs.
  pose proof (f_equal (λ x, x.1.1.1) Hr) as Hres. vm_compute in Hres.
  injection Hres as <- <-.
  exists self', env'. eexists. split; [exact Hr|].
  destruct H2 as [H2 H2']; [done|].
  rewrite H1, H2, H2', !H3, !H4. vm_compute. done.
Defined.

Lemma details_and_family_keep_totals_witness :
  strategies crawler_manager.__init__ !! GOOGLE_PATENTS
  = Some [PLAYWRIGHT; SELENIUM; HTTPX]
  ∧ (∃ self' env' evs,
       get_patent_details (Runtime0 := clock) (Backends0 := fakes)
         "WO2016140201" GOOGLE_PATENTS crawler_manager.__init__ 1000
       = (Return (None, "none"), self', env', evs)
       ∧ crawler_manager.total_requests self' = 0
       ∧ total_failures self' = 0
       ∧ layer_usage self' PLAYWRIGHT = 1
       ∧ layer_successes self' PLAYWRIGHT = 0)
  ∧ (∃ self' env' evs,
       get_br_patents_from_wo (Runtime0 := clock) (Backends0 := primary)
         "WO2011140324" GOOGLE_PATENTS crawler_manager.__init__ 1000
       = (Return (["BR112013001234"], "Playwright"), self', env', evs)
       ∧ crawler_manager.total_requests self' = 0
       ∧ total_successes self' = 0
       ∧ layer_usage self' PLAYWRIGHT = 1
       ∧ layer_successes self' PLAYWRIGHT = 1).
Proof.
  assert (Hs : strategies crawler_manager.__init__ !! GOOGLE_PATENTS
               = Some [PLAYWRIGHT; SELENIUM; HTTPX])
    by (vm_compute; reflexivity).
  split; [exact Hs|]. split.
  - destruct (details_and_family_keep_totals (Runtime0 := clock)
                (Backends0 := fakes) GOOGLE_PATENTS [PLAYWRIGHT; SELENIUM; HTTPX]
                crawler_manager.__init__ 1000 "WO2016140201" Hs)
      as [(res & nm & self' & env' & evs & Hr & H1 & _ & H2 & H3 & H4) _].
    pose proof (f_equal snd Hr) as Hev. vm_compute in Hev. subst evs.
    pose proof (f_equal (λ x, x.1.1.1) Hr) as Hres. vm_compute in Hres.
    injection Hres as <- <-.
    exists self', env'. eexists. split; [exact Hr|].
    rewrite H1, H2, !H3, !H4. vm_compute. done.
  - destruct (details_and_family_keep_totals (Runtime0 := clock)
                (Backends0 := primary) GOOGLE_PATENTS
                [PLAYWRIGHT; SELENIUM; HTTPX]
                crawler_manager.__init__ 1000 "WO2011140324" Hs)
      as [_ (res & nm & self' & env' & evs & Hr & H1 & H2 & _ & H3 & H4)].
    pose proof (f_equal snd Hr) as Hev. vm_compute in Hev. subst evs.
    pose proof (f_equal (λ x, x.1.1.1) Hr) as Hres. vm_compute in Hres.
    injection Hres as <- <-.
    exists self', env'. eexists. split; [exact Hr|].
    rewrite H1, H2, !H3, !H4. vm_compute. done.
Defined.

Lemma unvisited_backends_untouched_witness :
  strategies crawler_manager.__init__ !! GOOGLE_PATENTS
  = Some [PLAYWRIGHT; SELENIUM; HTTPX]
  ∧ ∃ self' env' evs,
      search_wo_numbers (Runtime0 := clock) (Backends0 := primary)
        "Darolutamide" GOOGLE_PATENTS 20 crawler_manager.__init__ 1000
      = (Return (["WO2016140201"; "WO2011140324"], "Playwright"),
         self', env', evs)
      ∧ crawlers self' SELENIUM = SeleniumCrawler
      ∧ crawlers self' HTTPX = HTTPXCrawler.
Proof.
  assert (Hs : strategies crawler_manager.__init__ !! GOOGLE_PATENTS
               = Some [PLAYWRIGHT; SELENIUM; HTTPX])
    by (vm_compute; reflexivity).
  split; [exact Hs|].
  destruct (unvisited_backends_untouched (Runtime0 := clock)
              (Backends0 := primary) GOOGLE_PATENTS
              [PLAYWRIGHT; SELENIUM; HTTPX]
              crawler_manager.__init__ 1000 "Darolutamide" 20 Hs)
    as (res & nm & self' & env' & evs & Hr & Hun & _).
  pose proof (f_equal snd Hr) as Hev. vm_compute in Hev. subst evs.
  pose proof (f_equal (λ x, x.1.1.1) Hr) as Hres. vm_compute in Hres.
  injection Hres as <- <-.
  exists self', env'. eexists. split; [exact Hr|].
  split; (rewrite Hun; [reflexivity|]); simpl;
    rewrite list_elem_of_singleton; discriminate.
Defined.

End manager_counters_instances.

Section manager_reachable.
Import base_crawler crawler_manager.
Context {Env : Type} `{!Runtime Env} `{!Backends Env}.

Lemma manager_inv_init : manager_inv crawler_manager.__init__.
Proof. split; simpl; try done; try lia. Qed.

Lemma search_wo_numbers_inv query target max_results self env :
  manager_inv self →
  manager_inv (search_wo_numbers query target max_results self env).1.1.2
  ∧ strategies (search_wo_numbers query target max_results self env).1.1.2
    = strategies self.
Proof.
  intros Hinv. unfold search_wo_numbers.
  destruct (strategies self !! target) as [strategy|]; [|done].
  rewrite search_wo_numbers_loop_walk.
  destruct (walk _ _ _ _ _ _ _) as [[[[res nm] self'] env'] evs] eqn:Hw.
  simpl. split; [by eapply walk_manager_inv|by eapply walk_strategies].
Qed.

Lemma get_patent_details_inv wo_number target self env :
  manager_inv self →
  manager_inv (get_patent_details wo_number target self env).1.1.2
  ∧ strategies (get_patent_details wo_number target self env).1.1.2
    = strategies self.
Proof.
  intros Hinv. unfold get_patent_details.
  destruct (strategies self !! target) as [strategy|]; [|done].
  rewrite get_patent_details_loop_walk.
  destruct (walk _ _ _ _ _ _ _) as [[[[res nm] self'] env'] evs] eqn:Hw.
  simpl. split; [by eapply walk_manager_inv|by eapply walk_strategies].
Qed.

Lemma get_br_patents_from_wo_inv wo_number target self env :
  manager_inv self →
  manager_inv (get_br_patents_from_wo wo_number target self env).1.1.2
  ∧ strategies (get_br_patents_from_wo wo_number target self env).1.1.2
    = strategies self.
Proof.
  intros Hinv. unfold get_br_patents_from_wo.
  destruct (strategies self !! target) as [strategy|]; [|done].
  rewrite get_br_patents_from_wo_loop_walk.
  destruct (walk _ _ _ _ _ _ _) as [[[[res nm] self'] env'] evs] eqn:Hw.
  simpl. split; [by eapply walk_manager_inv|by eapply walk_strategies].
Qed.

Lemma multi_query_loop_inv queries target max_results all usage self env :
  manager_inv self →
  manager_inv
    (search_wo_numbers_multi_query_loop queries target max_results all usage
       self env).1.2
  ∧ strategies
      (search_wo_numbers_multi_query_loop queries target max_results all usage
         self env).1.2
    = strategies self.
Proof.
  revert all usage self env.
  induction queries as [|query rest IH]; intros all usage self env Hinv;
    [done|].
  cbn [search_wo_numbers_multi_query_loop].
  destruct (search_wo_numbers_inv query target max_results self env Hinv)
    as [Hinv1 Hst1].
  destruct (search_wo_numbers query target max_results self env)
    as [[[r self1] env1] evs].
  simpl in Hinv1, Hst1. destruct r as [[wo nm]|e]; [|done].
  destruct (IH (all ∪ list_to_set wo)
              (<[nm := default 0 (usage !! nm) + 1]> usage) self1
              (sleep (1 # 2) env1) Hinv1) as [Hinv2 Hst2].
  split; [done|]. by rewrite Hst2.
Qed.

Lemma cleanup_all_loop_frame values self env :
  let self' := (cleanup_all_loop values self env).1.1 in
  strategies self' = strategies self
  ∧ crawler_manager.total_requests self' = crawler_manager.total_requests self
  ∧ total_successes self' = total_successes self
  ∧ total_failures self' = total_failures self
  ∧ layer_usage self' = layer_usage self
  ∧ layer_successes self' = layer_successes self.
Proof.
  revert self env. induction values as [|layer rest IH]; intros self env;
    [done|].
  cbn [cleanup_all_loop].
  destruct (cleanup layer (crawlers self layer) env) as [[out calls] env1].
  specialize (IH (set_crawler layer (run_calls calls (crawlers self layer)) self)
                env1).
  destruct (cleanup_all_loop rest _ _) as [[self' env'] cleaned].
  exact IH.
Qed.

Lemma run_request_inv r self env :
  manager_inv self →
  manager_inv (run_request r self env).1
  ∧ strategies (run_request r self env).1 = strategies self.
Proof.
  intros Hinv. destruct r as [query target n|wo target|wo target|qs target n|];
    unfold run_request.
  - pose proof (search_wo_numbers_inv query target n self env Hinv) as H.
    by destruct (search_wo_numbers _ _ _ _ _) as [[[? ?] ?] ?].
  - pose proof (get_patent_details_inv wo target self env Hinv) as H.
    by destruct (get_patent_details _ _ _ _) as [[[? ?] ?] ?].
  - pose proof (get_br_patents_from_wo_inv wo target self env Hinv) as H.
    by destruct (get_br_patents_from_wo _ _ _ _) as [[[? ?] ?] ?].
  - pose proof (multi_query_loop_inv qs target n ∅ ∅ self env Hinv) as H.
    unfold search_wo_numbers_multi_query.
    destruct (search_wo_numbers_multi_query_loop _ _ _ _ _ _ _)
      as [[r self1] env1].
    by destruct r as [[? ?]|?].
  - unfold cleanup_all.
    pose proof (cleanup_all_loop_frame CrawlerLayer_members self env) as H.
    destruct (cleanup_all_loop _ _ _) as [[self' env'] cleaned].
    simpl in *. destruct H as (H0 & H1 & H2 & H3 & H4 & H5).
    split; [|done]. destruct Hinv as [I1 I2 I3 I4 I5 I6 I7].
    split; rewrite ?H1, ?H2, ?H3, ?H4, ?H5; done.
Qed.

Lemma run_requests_inv rs self env :
  manager_inv self →
  manager_inv (run_requests rs self env).1
  ∧ strategies (run_requests rs self env).1 = strategies self.
Proof.
  revert self env. induction rs as [|r rs IH]; intros self env Hinv; [done|].
  unfold run_requests. simpl.
  destruct (run_request_inv r self env Hinv) as [H1 H2].
  destruct (run_request r self env) as [self1 env1]. simpl in *.
  destruct (IH self1 env1 H1) as [H3 H4]. unfold run_requests in H3, H4.
  split; [done|]. by rewrite H4.
Qed.

(** X6.  After any sequence of manager operations (identifier searches,
    detail fetches, family expansions, multi-query searches and
    clean-ups, on any targets and with any backend behaviour) on a fresh
    manager: the strategy table is the one [__init__] built; the totals
    are non-negative with [total_successes ≤ total_requests]; no layer
    has more successes than uses; the per-layer uses add up to at least
    [total_requests] and the per-layer successes to at least
    [total_successes]; and the success rate reported by
    [get_all_metrics] lies between 0 and 100. *)
Theorem manager_counters_consistent (rs : list request) (env : Env) :
  let self := (run_requests rs crawler_manager.__init__ env).1 in
  strategies self = strategies crawler_manager.__init__
  ∧ 0 ≤ total_successes self ≤ crawler_manager.total_requests self
  ∧ 0 ≤ total_failures self
  ∧ (∀ l, 0 ≤ layer_successes self l ≤ layer_usage self l)
  ∧ crawler_manager.total_requests self
    ≤ layer_usage self PLAYWRIGHT + layer_usage self HTTPX
      + layer_usage self SELENIUM
  ∧ total_successes self
    ≤ layer_successes self PLAYWRIGHT + layer_successes self HTTPX
      + layer_successes self SELENIUM
  ∧ (0 <= manager_success_rate self)%Q
  ∧ (manager_success_rate self <= 100)%Q.
Proof.
  intros self.
  destruct (run_requests_inv rs crawler_manager.__init__ env manager_inv_init)
    as [[I1 I2 I3 I4 I5 I6 I7] Hst].
  fold self in I1, I2, I3, I4, I5, I6, I7, Hst.
  split_and!; try done.
  - unfold manager_success_rate.
    apply Qmult_le_0_compat; [|done].
    apply Qle_shift_div_l; [unfold Qlt; simpl; lia|].
    unfold Qle; simpl; lia.
  - unfold manager_success_rate.
    set (r := crawler_manager.total_requests self) in *.
    set (s := total_successes self) in *.
    assert (Hle : (inject_Z s / inject_Z (Z.max 1 r) <= 1)%Q).
    { apply Qle_shift_div_r; [unfold Qlt; simpl; lia|].
      rewrite Qmult_1_l. rewrite <- Zle_Qle. lia. }
    apply (Qle_trans _ (1 * 100)%Q); [|done].
    apply Qmult_le_compat_r; [exact Hle|done].
Qed.

End manager_reachable.

(** * More on the state of one backend *)

Section backend_state.
Import base_crawler.

Lemma backend_bounds_init n l : backend_bounds (__init__ n l).
Proof. split; simpl; try done; lia. Qed.

Lemma window_after_success (w : list Q) (rt : Q) :
  (length w ≤ 100)%nat →
  let rts := w ++ [rt] in
  let rts1 := if (100 <? length rts)%nat then pop0 rts else rts in
  (length rts1 ≤ 100)%nat
  ∧ (sum rts1 / inject_Z (Z.of_nat (length rts1)))%Q = window_mean rts1
  ∧ ∀ rest, last_samples 100 (rts1 ++ rest) = last_samples 100 (w ++ rt :: rest).
Proof.
  intros Hw rts rts1. subst rts rts1. rewrite length_app. simpl length.
  destruct (100 <? length w + 1)%nat eqn:E.
  - apply Nat.ltb_lt in E. destruct w as [|x w]; [simpl in E; lia|].
    simpl in *. split; [rewrite length_app; simpl; lia|]. split.
    + by destruct w.
    + intros rest. unfold last_samples. simpl.
      rewrite <- (app_assoc w [rt] rest). simpl.
      rewrite !length_app. simpl.
      replace (length w + S (length rest) - 99)%nat
        with (S (length w + S (length rest) - 100))%nat by lia.
      done.
  - apply Nat.ltb_ge in E. split; [rewrite length_app; simpl; lia|]. split.
    + by destruct w.
    + intros rest. by rewrite <- app_assoc.
Qed.

Lemma backend_bounds_run_call c self :
  backend_bounds self → backend_bounds (run_call c self).
Proof.
  intros [B1 B2 B3 B4 B5 B6]. destruct c as [now|rt|now b|ok]; simpl.
  - unfold is_available. destruct (now <? circuit_open_until self); [by split|].
    destruct (decide (status self = CIRCUIT_OPEN)); simpl; by split.
  - destruct (window_after_success (request_times self) rt B2) as (W1 & W2 & _).
    split; simpl; rewrite ?B1; try done; lia.
  - rewrite record_failure_unfold. simpl.
    destruct (max_failures self <=? consecutive_failures self + 1);
      split; simpl; try done; destruct b; lia.
  - by split.
Qed.

Lemma backend_bounds_run_calls cs self :
  backend_bounds self → backend_bounds (run_calls cs self).
Proof.
  revert self. induction cs as [|c cs IH]; intros self H; [done|].
  apply IH, backend_bounds_run_call, H.
Qed.

Lemma window_run_calls cs self :
  max_request_time_samples self = 100%nat →
  (length (request_times self) ≤ 100)%nat →
  request_times (run_calls cs self)
  = last_samples 100 (request_times self ++ response_times cs)
  ∧ total_time (metrics (run_calls cs self))
    = fold_left Qplus (response_times cs) (total_time (metrics self))
  ∧ successful_requests (metrics (run_calls cs self))
    = successful_requests (metrics self)
      + Z.of_nat (length (response_times cs)).
Proof.
  revert self. induction cs as [|c cs IH]; intros self Hm Hw.
  { simpl. rewrite app_nil_r. unfold last_samples.
    replace (length (request_times self) - 100)%nat with 0%nat by lia.
    split_and!; [done|done|lia]. }
  change (run_calls (c :: cs) self) with (run_calls cs (run_call c self)).
  destruct c as [now|rt|now b|ok].
  - assert (E :
       request_times (run_call (call_is_available now) self) = request_times self
       ∧ metrics (run_call (call_is_available now) self) = metrics self
       ∧ max_request_time_samples (run_call (call_is_available now) self)
         = max_request_time_samples self).
    { simpl. unfold is_available.
      destruct (now <? circuit_open_until self); [done|].
      by destruct (decide (status self = CIRCUIT_OPEN)). }
    destruct E as (E1 & E2 & E3).
    destruct (IH (run_call (call_is_available now) self)) as (H1 & H2 & H3);
      [by rewrite E3|by rewrite E1|].
    rewrite H1, H2, H3, E1, E2. done.
  - destruct (window_after_success (request_times self) rt Hw) as (W1 & _ & W3).
    destruct (IH (run_call (call_record_success rt) self)) as (H1 & H2 & H3);
      [done|simpl; by rewrite Hm|].
    rewrite H1, H2, H3. simpl. rewrite Hm. split_and!; [apply W3|done|lia].
  - assert (E : request_times (record_failure now b self) = request_times self
       ∧ total_time (metrics (record_failure now b self)) = total_time (metrics self)
       ∧ successful_requests (metrics (record_failure now b self))
         = successful_requests (metrics self)
       ∧ max_request_time_samples (record_failure now b self)
         = max_request_time_samples self).
    { rewrite record_failure_unfold. simpl.
      by destruct (max_failures self <=? consecutive_failures self + 1). }
    destruct E as (E1 & E2 & E3 & E4).
    destruct (IH (run_call (call_record_failure now b) self)) as (H1 & H2 & H3);
      [simpl; by rewrite E4|simpl; by rewrite E1|].
    rewrite H1, H2, H3. simpl. by rewrite E1, E2, E3.
  - destruct (IH (run_call (call_initialize ok) self)) as (H1 & H2 & H3);
      [done|done|].
    by rewrite H1, H2, H3.
Qed.

(** X7.  The rolling window of response times.  After any sequence of
    calls on a fresh backend, [request_times] holds the response times
    of the last 100 recorded successes in the order they were recorded
    (all of them while there are fewer); [avg_response_time] is the mean
    of that window (0 before the first success), not of all successes;
    [total_time] is the sum of all recorded response times, and
    [successful_requests] their number. *)
Theorem rolling_window (n : string) (l : CrawlerLayer) (cs : list call) :
  let self := run_calls cs (__init__ n l) in
  request_times self = last_samples 100 (response_times cs)
  ∧ (length (request_times self) ≤ 100)%nat
  ∧ avg_response_time (metrics self) = window_mean (request_times self)
  ∧ total_time (metrics self) = sum (response_times cs)
  ∧ successful_requests (metrics self) = Z.of_nat (length (response_times cs)).
Proof.
  intros self.
  destruct (window_run_calls cs (__init__ n l)) as (H1 & H2 & H3);
    [done|simpl; lia|].
  destruct (backend_bounds_run_calls cs (__init__ n l) (backend_bounds_init n l))
    as [B1 B2 B3 B4 B5 B6].
  fold self in H1, H2, H3, B2, B3. split_and!; try done.
Qed.

(** X8.  Failures of a backend.  After any sequence of calls on a fresh
    backend, the consecutive failures never exceed the recorded
    failures, and the blocked requests never exceed the failed ones. *)
Theorem failures_bounded (n : string) (l : CrawlerLayer) (cs : list call) :
  let self := run_calls cs (__init__ n l) in
  0 ≤ consecutive_failures self ≤ failed_requests (metrics self)
  ∧ 0 ≤ blocked_requests (metrics self) ≤ failed_requests (metrics self)
  ∧ failed_requests (metrics self) ≤ total_requests (metrics self).
Proof.
  intros self.
  destruct (backend_bounds_run_calls cs (__init__ n l) (backend_bounds_init n l))
    as [B1 B2 B3 B4 B5 B6].
  destruct (breaker_inv_run_calls cs (__init__ n l) (breaker_inv_init n l))
    as [I1 I2 I3 I4 I5 I6 I7 I8].
  fold self in B4, B5, B6, I4, I5, I6, I8. split_and!; try done. lia.
Qed.

(** X9.  Availability checks.  A check repeated at the same clock
    reading answers the same and changes nothing more; a check never
    changes the metrics, the window or the cooldown deadline; and once
    a check has answered yes, every later check (with no call in
    between) answers yes and changes nothing. *)
Theorem is_available_stable (self : BaseCrawler) (now now' : Z) :
  (is_available now self).1 = true →
  now ≤ now' →
  is_available now' (is_available now self).2
  = (true, (is_available now self).2)
  ∧ is_available now (is_available now self).2 = is_available now self
  ∧ metrics (is_available now self).2 = metrics self
  ∧ request_times (is_available now self).2 = request_times self
  ∧ circuit_open_until (is_available now self).2 = circuit_open_until self
  ∧ circuit_open_until self ≤ now
  ∧ status (is_available now self).2 ≠ CIRCUIT_OPEN
  ∧ status (is_available now self).2 ≠ FAILED.
Proof.
  unfold is_available. intros Ha Hle.
  destruct (now <? circuit_open_until self) eqn:E; [done|].
  pose proof (proj1 (Z.ltb_ge _ _) E) as Hd.
  assert (E' : (now' <? circuit_open_until self) = false)
    by (apply Z.ltb_ge; lia).
  destruct (decide (status self = CIRCUIT_OPEN)) as [Ho|Ho]; simpl in *.
  - rewrite E, E'. simpl. split_and!; done.
  - rewrite E, E'. apply bool_decide_eq_true in Ha.
    destruct (decide (status self = CIRCUIT_OPEN)); [done|].
    split_and!; try done. by rewrite bool_decide_eq_true_2.
Qed.

(** X10.  Calls recorded while the circuit is open.  A success recorded
    on an open circuit sets the status to [READY] and zeroes the
    consecutive failures but leaves the deadline, so the backend stays
    unavailable until the deadline although its status is [READY]; a
    failure recorded on an open circuit keeps it open and restarts the
    cooldown from the time of that failure. *)
Theorem records_on_an_open_circuit (self : BaseCrawler) (now : Z)
    (response_time : Q) (is_block : bool) :
  breaker_inv self →
  status self = CIRCUIT_OPEN →
  now < circuit_open_until self →
  status (record_success response_time self) = READY
  ∧ consecutive_failures (record_success response_time self) = 0
  ∧ is_available now (record_success response_time self)
    = (false, record_success response_time self)
  ∧ status (record_failure now is_block self) = CIRCUIT_OPEN
  ∧ circuit_open_until (record_failure now is_block self) = now + 300
  ∧ consecutive_failures (record_failure now is_block self)
    = consecutive_failures self + 1.
Proof.
  intros [I1 I2 I3 I4 I5 I6 I7 I8] Ho Hnow.
  specialize (I3 Ho).
  split_and!; try done.
  - unfold is_available. simpl.
    by destruct (now <? circuit_open_until self) eqn:E; [|apply Z.ltb_ge in E; lia].
  - rewrite record_failure_unfold. simpl.
    by destruct (max_failures self <=? consecutive_failures self + 1) eqn:E;
      [|apply Z.leb_gt in E; lia].
  - rewrite record_failure_unfold. simpl.
    destruct (max_failures self <=? consecutive_failures self + 1) eqn:E;
      [simpl; lia|apply Z.leb_gt in E; lia].
  - rewrite record_failure_unfold. simpl.
    by destruct (max_failures self <=? consecutive_failures self + 1).
Qed.

End backend_state.

Section backend_state_instances.
Import base_crawler.

(** The Playwright backend after three failures at time 1000 (open until
    1300): the check at 1300 recovers it, the check at 1400 finds it
    recovered. *)
Lemma is_available_stable_witness :
  (is_available 1300 (crawler_manager.crawlers tripped PLAYWRIGHT)).1 = true
  ∧ 1300 ≤ 1400
  ∧ is_available 1400
      (is_available 1300 (crawler_manager.crawlers tripped PLAYWRIGHT)).2
    = (true, (is_available 1300 (crawler_manager.crawlers tripped PLAYWRIGHT)).2)
  ∧ status (is_available 1300 (crawler_manager.crawlers tripped PLAYWRIGHT)).2
    = READY.
Proof.
  assert (Ha : (is_available 1300
                  (crawler_manager.crawlers tripped PLAYWRIGHT)).1 = true)
    by (vm_compute; reflexivity).
  assert (Hle : 1300 ≤ 1400) by lia.
  split; [exact Ha|]. split; [exact Hle|].
  destruct (is_available_stable (crawler_manager.crawlers tripped PLAYWRIGHT)
              1300 1400 Ha Hle) as (H1 & _).
  split; [exact H1|]. vm_compute; reflexivity.
Defined.

(** The same backend at time 1100, inside its cooldown. *)
Lemma records_on_an_open_circuit_witness :
  breaker_inv (crawler_manager.crawlers tripped PLAYWRIGHT)
  ∧ status (crawler_manager.crawlers tripped PLAYWRIGHT) = CIRCUIT_OPEN
  ∧ 1100 < circuit_open_until (crawler_manager.crawlers tripped PLAYWRIGHT)
  ∧ status (record_success 2%Q (crawler_manager.crawlers tripped PLAYWRIGHT))
    = READY
  ∧ (is_available 1100
       (record_success 2%Q (crawler_manager.crawlers tripped PLAYWRIGHT))).1
    = false
  ∧ circuit_open_until
      (record_failure 1100 false (crawler_manager.crawlers tripped PLAYWRIGHT))
    = 1400.
Proof.
  assert (Hinv : breaker_inv (crawler_manager.crawlers tripped PLAYWRIGHT)).
  { split; vm_compute; congruence. }
  assert (Ho : status (crawler_manager.crawlers tripped PLAYWRIGHT) = CIRCUIT_OPEN)
    by (vm_compute; reflexivity).
  assert (Hnow : 1100 < circuit_open_until
                          (crawler_manager.crawlers tripped PLAYWRIGHT))
    by (vm_compute; reflexivity).
  split; [exact Hinv|]. split; [exact Ho|]. split; [exact Hnow|].
  destruct (records_on_an_open_circuit
              (crawler_manager.crawlers tripped PLAYWRIGHT) 1100 2%Q false
              Hinv Ho Hnow) as (H1 & _ & H3 & _ & H5 & _).
  split; [exact H1|]. split; [by rewrite H3|]. rewrite H5. reflexivity.
Defined.

End backend_state_instances.

Section backend_calls.
Import base_crawler crawler_manager.
Context {Env : Type} `{!Runtime Env}.

(** The state of backend [l] after one visit of [layer]. *)
Lemma visit_calls (b : bool) self layer now calls l :
  ∃ cs,
    crawlers
      (set_crawler layer (run_calls calls (is_available now (crawlers self layer)).2)
         (incr_layer_usage layer
            (if b
             then incr_total_requests
                    (set_crawler layer (is_available now (crawlers self layer)).2 self)
             else set_crawler layer (is_available now (crawlers self layer)).2 self)))
      l
    = run_calls cs (crawlers self l).
Proof.
  destruct (decide (layer = l)) as [->|Hne].
  - exists (call_is_available now :: calls).
    destruct b; simpl; unfold insert, fn_insert; by case_decide.
  - exists []. destruct b; simpl; unfold insert, fn_insert; by case_decide.
Qed.

Lemma skip_calls self layer now l :
  ∃ cs,
    crawlers (set_crawler layer (is_available now (crawlers self layer)).2 self) l
    = run_calls cs (crawlers self l).
Proof.
  destruct (decide (layer = l)) as [->|Hne].
  - exists [call_is_available now]. simpl; unfold insert, fn_insert; by case_decide.
  - exists []. simpl; unfold insert, fn_insert; by case_decide.
Qed.

(** A fallback call changes a backend only through the calls of the
    base class: availability checks by the manager and whatever the
    backend's own operation recorded. *)
Lemma walk_calls {R : Type}
    (op : CrawlerLayer → BaseCrawler → Env → outcome R * list call * Env)
    (truthy : R → bool) (empty : R) (counted : bool) strategy self env
    res nm self' env' evs l :
  walk op truthy empty counted strategy self env = (res, nm, self', env', evs) →
  ∃ cs, crawlers self' l = run_calls cs (crawlers self l).
Proof.
  revert self env res nm self' env' evs.
  induction strategy as [|layer rest IH]; intros self env res nm self' env' evs.
  { simpl. intros [= <- <- <- <- <-]. exists []. by destruct counted. }
  simpl.
  pose proof (visit_calls counted self layer (time env)) as Hv.
  pose proof (skip_calls self layer (time env) l) as [cs0 Hs].
  destruct (is_available (time env) (crawlers self layer)) as [[] c]; simpl in *.
  - destruct (op layer c env) as [[[r|ex] calls] env1];
      [destruct (truthy r) eqn:Et|].
    + intros [= <- <- <- <- <-]. destruct (Hv calls l) as [cs Hcs].
      exists cs. rewrite <- Hcs. by destruct counted.
    + destruct (walk _ _ _ _ rest _ _) as [[[[res1 nm1] self1] env2] evs1] eqn:Ew.
      intros [= <- <- <- <- <-]. destruct (Hv calls l) as [cs Hcs].
      destruct (IH _ _ _ _ _ _ _ Ew) as [cs1 Hcs1].
      exists (cs ++ cs1). by rewrite run_calls_app, <- Hcs, Hcs1.
    + destruct (walk _ _ _ _ rest _ _) as [[[[res1 nm1] self1] env2] evs1] eqn:Ew.
      intros [= <- <- <- <- <-]. destruct (Hv calls l) as [cs Hcs].
      destruct (IH _ _ _ _ _ _ _ Ew) as [cs1 Hcs1].
      exists (cs ++ cs1). by rewrite run_calls_app, <- Hcs, Hcs1.
  - destruct (walk _ _ _ _ rest _ _) as [[[[res1 nm1] self1] env2] evs1] eqn:Ew.
    intros [= <- <- <- <- <-].
    destruct (IH _ _ _ _ _ _ _ Ew) as [cs1 Hcs1].
    exists (cs0 ++ cs1). by rewrite run_calls_app, <- Hs, Hcs1.
Qed.

Context `{!Backends Env}.

Lemma search_wo_numbers_calls query target max_results self env l :
  ∃ cs, crawlers (search_wo_numbers query target max_results self env).1.1.2 l
        = run_calls cs (crawlers self l).
Proof.
  unfold search_wo_numbers.
  destruct (strategies self !! target) as [strategy|]; [|by exists []].
  rewrite search_wo_numbers_loop_walk.
  destruct (walk _ _ _ _ _ _ _) as [[[[res nm] self'] env'] evs] eqn:Hw.
  by eapply walk_calls.
Qed.

Lemma get_patent_details_calls wo_number target self env l :
  ∃ cs, crawlers (get_patent_details wo_number target self env).1.1.2 l
        = run_calls cs (crawlers self l).
Proof.
  unfold get_patent_details.
  destruct (strategies self !! target) as [strategy|]; [|by exists []].
  rewrite get_patent_details_loop_walk.
  destruct (walk _ _ _ _ _ _ _) as [[[[res nm] self'] env'] evs] eqn:Hw.
  by eapply walk_calls.
Qed.

Lemma get_br_patents_from_wo_calls wo_number target self env l :
  ∃ cs, crawlers (get_br_patents_from_wo wo_number target self env).1.1.2 l
        = run_calls cs (crawlers self l).
Proof.
  unfold get_br_patents_from_wo.
  destruct (strategies self !! target) as [strategy|]; [|by exists []].
  rewrite get_br_patents_from_wo_loop_walk.
  destruct (walk _ _ _ _ _ _ _) as [[[[res nm] self'] env'] evs] eqn:Hw.
  by eapply walk_calls.
Qed.

Lemma multi_query_loop_calls queries target max_results all usage self env l :
  ∃ cs,
    crawlers
      (search_wo_numbers_multi_query_loop queries target max_results all usage
         self env).1.2 l
    = run_calls cs (crawlers self l).
Proof.
  revert all usage self env.
  induction queries as [|query rest IH]; intros all usage self env;
    [by exists []|].
  cbn [search_wo_numbers_multi_query_loop].
  destruct (search_wo_numbers_calls query target max_results self env l)
    as [cs Hcs].
  destruct (search_wo_numbers query target max_results self env)
    as [[[r self1] env1] evs].
  simpl in Hcs. destruct r as [[wo nm]|e]; [|by exists cs].
  destruct (IH (all ∪ list_to_set wo)
              (<[nm := default 0 (usage !! nm) + 1]> usage) self1
              (sleep (1 # 2) env1)) as [cs1 Hcs1].
  exists (cs ++ cs1). by rewrite run_calls_app, <- Hcs, Hcs1.
Qed.

Lemma cleanup_all_loop_calls values self env l :
  ∃ cs, crawlers (cleanup_all_loop values self env).1.1 l
        = run_calls cs (crawlers self l).
Proof.
  revert self env. induction values as [|layer rest IH]; intros self env;
    [by exists []|].
  cbn [cleanup_all_loop].
  destruct (cleanup layer (crawlers self layer) env) as [[out calls] env1].
  destruct (IH (set_crawler layer (run_calls calls (crawlers self layer)) self)
              env1) as [cs Hcs].
  destruct (cleanup_all_loop rest _ _) as [[self' env'] cleaned].
  simpl in *. rewrite Hcs. unfold insert, fn_insert.
  case_decide; [subst; exists (calls ++ cs); by rewrite run_calls_app
               |by exists cs].
Qed.

Lemma run_request_calls r self env l :
  ∃ cs, crawlers (run_request r self env).1 l = run_calls cs (crawlers self l).
Proof.
  destruct r as [query target n|wo target|wo target|qs target n|];
    unfold run_request.
  - pose proof (search_wo_numbers_calls query target n self env l) as H.
    by destruct (search_wo_numbers _ _ _ _ _) as [[[? ?] ?] ?].
  - pose proof (get_patent_details_calls wo target self env l) as H.
    by destruct (get_patent_details _ _ _ _) as [[[? ?] ?] ?].
  - pose proof (get_br_patents_from_wo_calls wo target self env l) as H.
    by destruct (get_br_patents_from_wo _ _ _ _) as [[[? ?] ?] ?].
  - pose proof (multi_query_loop_calls qs target n ∅ ∅ self env l) as H.
    unfold search_wo_numbers_multi_query.
    destruct (search_wo_numbers_multi_query_loop _ _ _ _ _ _ _)
      as [[r self1] env1].
    by destruct r as [[? ?]|?].
  - unfold cleanup_all.
    pose proof (cleanup_all_loop_calls CrawlerLayer_members self env l) as H.
    by destruct (cleanup_all_loop _ _ _) as [[self' env'] cleaned].
Qed.

Lemma run_requests_calls rs self env l :
  ∃ cs, crawlers (run_requests rs self env).1 l = run_calls cs (crawlers self l).
Proof.
  revert self env. induction rs as [|r rs IH]; intros self env; [by exists []|].
  unfold run_requests. simpl.
  destruct (run_request_calls r self env l) as [cs Hcs].
  destruct (run_request r self env) as [self1 env1]. simpl in *.
  destruct (IH self1 env1) as [cs1 Hcs1]. unfold run_requests in Hcs1.
  exists (cs ++ cs1). by rewrite run_calls_app, <- Hcs, Hcs1.
Qed.

(** X11.  The manager changes its backends only through the base class.
    So after any sequence of manager operations on a fresh manager, with
    any backend behaviour, every backend still has the name, the failure
    threshold 3 and the cooldown 300 that [__init__] gave it; its
    circuit is open only with at least three consecutive failures; its
    consecutive failures and its blocked requests never exceed its
    failed requests; its totals add up; and its window of response
    times holds at most 100 samples, of which [avg_response_time] is the
    mean. *)
Theorem reachable_backends_consistent (rs : list request) (env : Env)
    (l : CrawlerLayer) :
  let crawler := crawlers (run_requests rs crawler_manager.__init__ env).1 l in
  name crawler = name (crawlers crawler_manager.__init__ l)
  ∧ max_failures crawler = 3
  ∧ circuit_cooldown crawler = 300
  ∧ (status crawler = CIRCUIT_OPEN → 3 ≤ consecutive_failures crawler)
  ∧ 0 ≤ consecutive_failures crawler ≤ failed_requests (metrics crawler)
  ∧ 0 ≤ blocked_requests (metrics crawler) ≤ failed_requests (metrics crawler)
  ∧ base_crawler.total_requests (metrics crawler)
    = successful_requests (metrics crawler) + failed_requests (metrics crawler)
  ∧ 0 ≤ successful_requests (metrics crawler)
  ∧ (length (request_times crawler) ≤ 100)%nat
  ∧ avg_response_time (metrics crawler) = window_mean (request_times crawler).
Proof.
  intros crawler.
  destruct (run_requests_calls rs crawler_manager.__init__ env l) as [cs Hcs].
  fold crawler in Hcs.
  assert (Hinv : breaker_inv crawler).
  { rewrite Hcs. apply breaker_inv_run_calls. destruct l; apply breaker_inv_init. }
  assert (Hbb : backend_bounds crawler).
  { rewrite Hcs. apply backend_bounds_run_calls.
    destruct l; apply backend_bounds_init. }
  destruct Hinv as [I1 I2 I3 I4 I5 I6 I7 I8].
  destruct Hbb as [B1 B2 B3 B4 B5 B6].
  split_and!; try done. rewrite Hcs. apply name_run_calls.
Qed.

End backend_calls.

(** * The multi-query search: the histogram and the edge cases *)

Section multi_query_counts.
Import base_crawler crawler_manager.
Context {Env : Type} `{!Runtime Env} `{!Backends Env}.

Lemma histogram_total_insert (usage : gmap string Z) nm v :
  usage !! nm = None →
  histogram_total (<[nm := v]> usage) = v + histogram_total usage.
Proof.
  intros Hn. unfold histogram_total.
  rewrite map_fold_insert_L; [done| |done]. intros; lia.
Qed.

Lemma histogram_total_bump (usage : gmap string Z) nm :
  histogram_total (<[nm := default 0 (usage !! nm) + 1]> usage)
  = histogram_total usage + 1.
Proof.
  destruct (usage !! nm) as [v|] eqn:E; simpl.
  - rewrite <- (insert_delete_eq usage).
    rewrite histogram_total_insert by apply lookup_delete_eq.
    rewrite <- (insert_delete_id usage nm v E) at 2.
    rewrite histogram_total_insert by apply lookup_delete_eq. lia.
  - rewrite histogram_total_insert by done. lia.
Qed.

Lemma histogram_total_nonneg (usage : gmap string Z) :
  (∀ nm n, usage !! nm = Some n → 0 ≤ n) → 0 ≤ histogram_total usage.
Proof.
  unfold histogram_total.
  apply (map_fold_weak_ind
           (λ r (m : gmap string Z), (∀ nm n, m !! nm = Some n → 0 ≤ n) → 0 ≤ r)).
  - done.
  - intros nm n m r Hn IH Hall.
    assert (0 ≤ n) by (apply (Hall nm); by rewrite lookup_insert_eq).
    assert (0 ≤ r); [|lia].
    apply IH. intros nm' n' Hl. apply (Hall nm').
    rewrite lookup_insert_ne; [done|]. intros ->. congruence.
Qed.

Lemma histogram_entry_le (usage : gmap string Z) nm n :
  (∀ nm n, usage !! nm = Some n → 0 ≤ n) →
  usage !! nm = Some n → n ≤ histogram_total usage.
Proof.
  intros Hall Hl. rewrite <- (insert_delete_id usage nm n Hl).
  rewrite histogram_total_insert by apply lookup_delete_eq.
  assert (0 ≤ histogram_total (delete nm usage)); [|lia].
  apply histogram_total_nonneg. intros nm' n' Hl'.
  apply lookup_delete_Some in Hl' as [_ Hl']. by apply (Hall nm').
Qed.

Lemma walk_names {R : Type}
    (op : CrawlerLayer → BaseCrawler → Env → outcome R * list call * Env)
    (truthy : R → bool) (empty : R) (counted : bool) strategy self env
    res nm self' env' evs l :
  walk op truthy empty counted strategy self env = (res, nm, self', env', evs) →
  name (crawlers self' l) = name (crawlers self l).
Proof.
  intros Hw. destruct (walk_calls _ _ _ _ _ _ _ _ _ _ _ _ l Hw) as [cs ->].
  apply name_run_calls.
Qed.

(** The keys a call can add to the histogram. *)
Lemma walk_result_name {R : Type}
    (op : CrawlerLayer → BaseCrawler → Env → outcome R * list call * Env)
    (truthy : R → bool) (empty : R) (counted : bool) strategy self env
    res nm self' env' evs :
  walk op truthy empty counted strategy self env = (res, nm, self', env', evs) →
  nm = "none" ∨ ∃ l, l ∈ strategy ∧ nm = name (crawlers self l).
Proof.
  intros Hw.
  destruct (walk_outcome _ _ _ _ _ _ _ _ _ _ _ _ Hw)
    as [(_ & _ & _ & ->)|(evs0 & l & now & post & _ & _ & _ & -> & ->)];
    [by left|right].
  exists l. split; [|done]. apply elem_of_app. right. apply list_elem_of_here.
Qed.

Lemma multi_query_loop_counts queries target strategy max_results all usage
    self env :
  strategies self !! target = Some strategy →
  (∀ nm n, usage !! nm = Some n → 1 ≤ n) →
  ∃ all' usage' self' env',
    search_wo_numbers_multi_query_loop queries target max_results all usage
      self env
    = (Return (all', usage'), self', env')
    ∧ histogram_total usage'
      = histogram_total usage + Z.of_nat (length queries)
    ∧ (∀ nm n, usage' !! nm = Some n → 1 ≤ n)
    ∧ (∀ nm, is_Some (usage' !! nm) →
             is_Some (usage !! nm) ∨ nm = "none"
             ∨ ∃ l, l ∈ strategy ∧ nm = name (crawlers self l))
    ∧ total_successes self' + total_failures self'
      = total_successes self + total_failures self
        + Z.of_nat (length queries).
Proof.
  revert all usage self env.
  induction queries as [|query rest IH]; intros all usage self env Hs Hpos.
  { exists all, usage, self, env. simpl. split_and!; try done; try lia.
    intros nm Hnm. by left. }
  destruct (search_wo_numbers_run query target max_results self env _ Hs)
    as (wo & nm & self1 & env1 & evs & Hr & Hw).
  rewrite (multi_query_loop_step _ _ _ _ _ _ _ _ _ _ _ _ _ Hr).
  pose proof (walk_strategies _ _ _ _ _ _ _ _ _ _ _ _ Hw) as Hst.
  assert (Hs1 : strategies self1 !! target = Some strategy) by by rewrite Hst.
  assert (Hpos1 : ∀ nm0 n,
             <[nm := default 0 (usage !! nm) + 1]> usage !! nm0 = Some n → 1 ≤ n).
  { intros nm0 n Hl. apply lookup_insert_Some in Hl as [[<- <-]|[_ Hl]].
    - destruct (usage !! nm) as [v|] eqn:E; simpl; [|lia].
      specialize (Hpos nm v E). lia.
    - by apply (Hpos nm0). }
  destruct (IH (all ∪ list_to_set wo)
              (<[nm := default 0 (usage !! nm) + 1]> usage) self1
              (sleep (1 # 2) env1) Hs1 Hpos1)
    as (all' & usage' & self' & env' & Hl & Hh & Hp & Hk & Hc).
  exists all', usage', self', env'.
  destruct (walk_counters _ _ _ _ _ _ _ _ _ _ _ _ Hw)
    as (_ & _ & _ & H4 & H5 & _).
  split_and!; try done.
  - rewrite Hh, histogram_total_bump. cbn [length]. lia.
  - intros nm0 Hnm0. destruct (Hk nm0 Hnm0) as [Hin|[->|(l & Hl1 & ->)]].
    + apply lookup_insert_is_Some' in Hin as [<-|Hin]; [|by left].
      right. by eapply walk_result_name.
    + right. by left.
    + right. right. exists l. split; [done|]. by eapply walk_names.
  - rewrite Hc, H4, H5. cbn [length]. lia.
Qed.

(** X12.  The histogram of a multi-query search.  On a configured
    target the call returns; its second result counts, per backend name
    (["none"] when no backend delivered), the queries that backend
    answered: the counts are positive and add up to the number of
    queries, and every key is ["none"] or the name of a backend of the
    strategy.  [total_successes + total_failures] grows by the number of
    queries. *)
Theorem multi_query_histogram (target : TargetSite)
    (strategy : list CrawlerLayer) (self : CrawlerManager) (env : Env)
    (queries : list string) (max_results_per_query : Z) :
  strategies self !! target = Some strategy →
  ∃ unique_list layer_usage_count self' env',
    search_wo_numbers_multi_query queries target max_results_per_query self env
    = (Return (unique_list, layer_usage_count), self', env')
    ∧ histogram_total layer_usage_count = Z.of_nat (length queries)
    ∧ (∀ nm n, layer_usage_count !! nm = Some n →
               1 ≤ n ≤ Z.of_nat (length queries))
    ∧ (∀ nm, is_Some (layer_usage_count !! nm) →
             nm = "none" ∨ ∃ l, l ∈ strategy ∧ nm = name (crawlers self l))
    ∧ total_successes self' + total_failures self'
      = total_successes self + total_failures self
        + Z.of_nat (length queries).
Proof.
  intros Hs.
  destruct (multi_query_loop_counts queries target strategy
              max_results_per_query ∅ ∅ self env Hs)
    as (all' & usage' & self' & env' & Hl & Hh & Hp & Hk & Hc); [done|].
  exists (sorted (elements all')), usage', self', env'.
  unfold search_wo_numbers_multi_query. rewrite Hl.
  assert (Hh' : histogram_total usage' = Z.of_nat (length queries)).
  { rewrite Hh. unfold histogram_total. rewrite map_fold_empty. lia. }
  split_and!; try done.
  - intros nm n Hn. split; [by apply (Hp nm)|]. rewrite <- Hh'.
    apply (histogram_entry_le usage' nm n); [|done].
    intros nm' n' Hn'. specialize (Hp nm' n' Hn'). lia.
  - intros nm Hnm. destruct (Hk nm Hnm) as [Hin|H]; [|done].
    rewrite lookup_empty in Hin. by destruct Hin.
Qed.


End multi_query_counts.

Section multi_query_counts_instances.
Import base_crawler crawler_manager scenario.

Lemma multi_query_histogram_witness :
  strategies crawler_manager.__init__ !! GOOGLE_PATENTS
  = Some [PLAYWRIGHT; SELENIUM; HTTPX]
  ∧ ∃ self' env',
      search_wo_numbers_multi_query (Runtime0 := clock) (Backends0 := fakes)
        ["Darolutamide patent"; "Darolutamide WO2016"] GOOGLE_PATENTS 10
        crawler_manager.__init__ 1000
      = (Return (["WO2011140324"; "WO2016140201"], {[ "HTTPX" := 2 ]}),
         self', env')
      ∧ total_successes self' + total_failures self' = 2.
Proof.
  assert (Hs : strategies crawler_manager.__init__ !! GOOGLE_PATENTS
               = Some [PLAYWRIGHT; SELENIUM; HTTPX])
    by (vm_compute; reflexivity).
  split; [exact Hs|].
  destruct (multi_query_histogram (Runtime0 := clock) (Backends0 := fakes)
              GOOGLE_PATENTS [PLAYWRIGHT; SELENIUM; HTTPX]
              crawler_manager.__init__ 1000
              ["Darolutamide patent"; "Darolutamide WO2016"] 10 Hs)
    as (ids & usage & self' & env' & Hr & _ & _ & _ & Hc).
  pose proof (f_equal (λ x, x.1.1) Hr) as Hres. vm_compute in Hres.
  injection Hres as <- <-.
  exists self', env'. split; [|exact Hc].
  rewrite Hr. vm_compute. reflexivity.
Defined.


End multi_query_counts_instances.

(** * The pure helpers of the pipeline *)

Section helpers.
Import base_crawler crawler_manager v6_layered_orchestrator.

Lemma upper_char_idem c : upper_char (upper_char c) = upper_char c.
Proof. by destruct c as [[] [] [] [] [] [] [] []]. Qed.

Lemma normalize_cons c s :
  normalize (String c s)
  = if decide (upper_char c = " "%char) then normalize s
    else if decide (upper_char c = "-"%char) then normalize s
    else String (upper_char c) (normalize s).
Proof.
  unfold normalize. cbn [upper replace].
  destruct (decide (upper_char c = " "%char)) as [E|E]; [done|].
  cbn [replace]. by destruct (decide (upper_char c = "-"%char)).
Qed.

Lemma normalize_idem s : normalize (normalize s) = normalize s.
Proof.
  induction s as [|c s IH]; [done|].
  rewrite normalize_cons.
  destruct (decide (upper_char c = " "%char)) as [E1|E1]; [done|].
  destruct (decide (upper_char c = "-"%char)) as [E2|E2]; [done|].
  rewrite normalize_cons, upper_char_idem.
  rewrite decide_False by done. rewrite decide_False by done. by rewrite IH.
Qed.

Lemma normalize_upper s : normalize (upper s) = normalize s.
Proof.
  induction s as [|c s IH]; [done|].
  cbn [upper]. rewrite !normalize_cons, upper_char_idem, IH. done.
Qed.

Lemma normalize_hyphenated s : normalize (replace " " "-" s) = normalize s.
Proof.
  induction s as [|c s IH]; [done|].
  cbn [replace]. destruct (decide (c = " "%char)) as [->|E].
  - change ("-" +:+ replace " " "-" s) with (String "-" (replace " " "-" s)).
    rewrite !normalize_cons. simpl. exact IH.
  - by rewrite !normalize_cons, IH.
Qed.

Lemma normalize_unspaced s : normalize (replace " " "" s) = normalize s.
Proof.
  induction s as [|c s IH]; [done|].
  cbn [replace]. destruct (decide (c = " "%char)) as [->|E].
  - change ("" +:+ replace " " "" s) with (replace " " "" s).
    rewrite normalize_cons. simpl. exact IH.
  - by rewrite !normalize_cons, IH.
Qed.


Lemma build_wo_queries_count (molecule_name : string)
    (dev_codes : list string) (cas : option string) :
  length (_build_wo_queries molecule_name dev_codes cas)
  = (10 + Nat.min 5 (length dev_codes) + (if str_truthy cas then 1 else 0))%nat.
Proof.
  unfold _build_wo_queries.
  destruct (str_truthy cas); rewrite ?length_app, !length_fmap, !length_take;
    cbn [length]; lia.
Qed.

(** X15.  The query list of the discovery phase.  It has seven
    year queries and three company queries for the molecule, then one
    query per development code up to five, then one for the CAS number
    when it is a non-empty string: between 10 and 16 queries, the first
    ten of which depend on the molecule name only. *)
Theorem _build_wo_queries_length (molecule_name : string)
    (dev_codes : list string) (cas : option string) :
  length (_build_wo_queries molecule_name dev_codes cas)
  = (10 + Nat.min 5 (length dev_codes) + (if str_truthy cas then 1 else 0))%nat
  ∧ (10 ≤ length (_build_wo_queries molecule_name dev_codes cas) ≤ 16)%nat
  ∧ take 10 (_build_wo_queries molecule_name dev_codes cas)
    = _build_wo_queries molecule_name [] None
  ∧ Forall (λ q, q ≠ "") (_build_wo_queries molecule_name dev_codes cas).
Proof.
  pose proof (build_wo_queries_count molecule_name dev_codes cas) as Hlen.
  split; [exact Hlen|]. split; [rewrite Hlen; destruct (str_truthy cas); lia|].
  split.
  - unfold _build_wo_queries. simpl take at 1. simpl fmap.
    destruct (str_truthy cas); simpl; reflexivity.
  - assert (Happ : ∀ a b : string, b ≠ "" → a +:+ b ≠ "").
    { intros [|c a] b Hb; simpl; [done|discriminate]. }
    unfold _build_wo_queries.
    assert (Hq : ∀ d : string, d +:+ " patent WO" ≠ "")
      by (intros d; by apply Happ).
    assert (Hd : Forall (λ q : string, q ≠ "")
                   ((λ dev_code, dev_code +:+ " patent WO") <$> take 5 dev_codes))
      by (apply Forall_fmap, Forall_forall; intros d _; apply Hq).
    assert (Hm : ∀ rest : string, rest ≠ "" → molecule_name +:+ rest ≠ "")
      by (intros rest; apply Happ).
    destruct (str_truthy cas); rewrite ?Forall_app; simpl fmap;
      repeat split; try done;
      repeat (constructor; [by apply Hm|]); try constructor; try apply Hq;
      try constructor.
Qed.

End helpers.

(** * More on the merge *)

Section merge_more.
Import base_crawler crawler_manager v6_layered_orchestrator.

Lemma _deduplicate_br_patents_loop_raises patents seen unique :
  ¬ Forall has_number patents →
  _deduplicate_br_patents_loop patents seen unique = Raise "KeyError".
Proof.
  revert seen unique. induction patents as [|p rest IH]; intros seen unique Hn.
  { destruct Hn. constructor. }
  simpl. destruct (p !! "number") as [number|] eqn:E; [|done].
  assert (Hrest : ¬ Forall has_number rest).
  { intros Hrest. apply Hn. constructor; [by exists number|done]. }
  destruct (decide _); by apply IH.
Qed.

Lemma has_number_dec patents :
  Forall has_number patents ∨ ¬ Forall has_number patents.
Proof.
  induction patents as [|p rest [IH|IH]].
  - left. constructor.
  - destruct (p !! "number") as [number|] eqn:E.
    + left. constructor; [by exists number|done].
    + right. intros H. apply Forall_cons_1 in H as [[n Hn] _]. congruence.
  - right. intros H. apply Forall_cons_1 in H as [_ H]. done.
Qed.

Lemma kept_id seen patents :
  Forall (λ p, normalized_number p ∉ seen) patents →
  NoDup (normalized_number <$> patents) →
  kept seen patents = patents.
Proof.
  revert seen. induction patents as [|p rest IH]; intros seen Hf Hnd; [done|].
  apply Forall_cons_1 in Hf as [Hp Hf].
  rewrite fmap_cons in Hnd. apply NoDup_cons in Hnd as [Hnotin Hnd].
  simpl. rewrite decide_False by done. f_equal. apply IH; [|done].
  apply Forall_forall. intros q Hq Hin.
  apply elem_of_union in Hin as [Hin|Hin].
  - apply elem_of_singleton in Hin. apply Hnotin.
    apply list_elem_of_fmap. by exists q.
  - eapply Forall_forall in Hf; [|exact Hq]. done.
Qed.



Lemma count_by_source_fold (br_patents : list (gmap string string))
    (counts : gmap string Z) :
  histogram_total
    (fold_left
       (λ counts patent,
          let source := default "unknown" (patent !! "source") in
          <[source := default 0 (counts !! source) + 1]> counts)
       br_patents counts)
  = histogram_total counts + Z.of_nat (length br_patents)
  ∧ (∀ s, is_Some
            (fold_left
               (λ counts patent,
                  let source := default "unknown" (patent !! "source") in
                  <[source := default 0 (counts !! source) + 1]> counts)
               br_patents counts !! s)
          ↔ is_Some (counts !! s)
            ∨ ∃ p, p ∈ br_patents ∧ default "unknown" (p !! "source") = s).
Proof.
  revert counts. induction br_patents as [|p rest IH]; intros counts.
  - simpl. split; [lia|]. intros s. split; [by left|].
    intros [H|(p & Hp & _)]; [done|]. by apply elem_of_nil in Hp.
  - cbn [fold_left]. destruct (IH (<[default "unknown" (p !! "source")
           := default 0 (counts !! default "unknown" (p !! "source")) + 1]>
           counts)) as [IH1 IH2].
    split.
    + etransitivity; [apply IH1|].
      rewrite histogram_total_bump. cbn [length]. lia.
    + intros s. etransitivity; [apply IH2|].
      rewrite lookup_insert_is_Some'. split.
      * intros [[<-|H]|(q & Hq & Hs)].
        -- right. exists p. split; [apply list_elem_of_here|done].
        -- by left.
        -- right. exists q. split; [by apply list_elem_of_further|done].
      * intros [H|(q & Hq & Hs)]; [left; by right|].
        apply elem_of_cons in Hq as [->|Hq]; [left; by left|].
        right. by exists q.
Qed.

Lemma count_by_source_sum (br_patents : list (gmap string string)) :
  histogram_total (_count_by_source br_patents) = Z.of_nat (length br_patents).
Proof.
  unfold _count_by_source.
  etransitivity; [apply (count_by_source_fold br_patents ∅)|].
  unfold histogram_total. rewrite map_fold_empty. lia.
Qed.

(** X18.  The counts by source add up to the number of records, and a
    source is a key of the result exactly when some record carries it. *)
Theorem _count_by_source_total (br_patents : list (gmap string string)) :
  histogram_total (_count_by_source br_patents)
  = Z.of_nat (length br_patents)
  ∧ (∀ s, is_Some (_count_by_source br_patents !! s)
          ↔ ∃ p, p ∈ br_patents ∧ default "unknown" (p !! "source") = s).
Proof.
  split; [apply count_by_source_sum|].
  unfold _count_by_source. intros s.
  etransitivity; [apply (count_by_source_fold br_patents ∅)|].
  rewrite lookup_empty. split; [|by right]. intros [[? ?]|?]; done.
Qed.

End merge_more.

(** * More on the phases of the pipeline *)

Section phases.
Import base_crawler crawler_manager v6_layered_orchestrator.
Context {Env : Type} `{!Runtime Env} `{!Backends Env} `{!Collaborators Env}.

Lemma replace_space_twice s :
  replace " " "-" (replace " " "-" s) = replace " " "-" s.
Proof.
  induction s as [|c s IH]; [done|].
  cbn [replace]. destruct (decide (c = " "%char)) as [->|E].
  - change ("-" +:+ replace " " "-" s) with (String "-" (replace " " "-" s)).
    cbn [replace]. rewrite decide_False by done. by rewrite IH.
  - cbn [replace]. rewrite decide_False by done. by rewrite IH.
Qed.

Lemma startswith_BR_replace title :
  startswith "BR" title = true →
  startswith "BR" (replace " " "-" title) = true.
Proof.
  unfold startswith. intros H.
  destruct title as [|c1 [|c2 rest]]; cbn [String.prefix] in H; try done.
  - by destruct (Ascii.ascii_dec "B" c1).
  - destruct (Ascii.ascii_dec "B" c1) as [<-|]; [|done].
    destruct (Ascii.ascii_dec "R" c2) as [<-|]; [|done].
    cbn [replace]. rewrite decide_False by done.
    cbn [replace]. rewrite decide_False by done.
    cbn [String.prefix].
    destruct (Ascii.ascii_dec "B" "B") as [_|?]; [|done].
    destruct (Ascii.ascii_dec "R" "R") as [_|?]; [|done].
    by destruct (replace " " "-" rest).
Qed.

Lemma inpi_record_shape (title source : string) :
  startswith "BR" title = true →
  let p : gmap string string :=
    <["number" := replace " " "-" title]>
    (<["source" := source]> (<["layer" := "inpi_api"]> ∅)) in
  ∃ n, p !! "number" = Some n ∧ startswith "BR" n = true
       ∧ replace " " "-" n = n ∧ p !! "layer" = Some "inpi_api"
       ∧ p !! "source_wo" = None.
Proof.
  intros Hbr p. exists (replace " " "-" title). split_and!.
  - apply lookup_insert_eq.
  - by apply startswith_BR_replace.
  - apply replace_space_twice.
  - by simplify_map_eq.
  - by simplify_map_eq.
Qed.

Lemma inpi_brand_patents_added titles br_patents :
  ∃ added,
    inpi_brand_patents titles br_patents = br_patents ++ added
    ∧ Forall (λ p, p !! "source" = Some "inpi_brand"
                   ∧ ∃ n, p !! "number" = Some n ∧ startswith "BR" n = true
                          ∧ replace " " "-" n = n
                          ∧ p !! "layer" = Some "inpi_api"
                          ∧ p !! "source_wo" = None) added
    ∧ NoDup ((λ p, p !! "number") <$> added)
    ∧ (∀ p q, p ∈ added → q ∈ br_patents → p !! "number" ≠ q !! "number").
Proof.
  revert br_patents. induction titles as [|title rest IH]; intros br_patents.
  { exists []. rewrite app_nil_r. split_and!; try done; try constructor.
    intros p q Hp. by apply elem_of_nil in Hp. }
  cbn [inpi_brand_patents].
  destruct (startswith "BR" title) eqn:Hbr; [|apply IH].
  case_bool_decide as Hex; [apply IH|].
  set (r := <["number" := replace " " "-" title]>
            (<["source" := "inpi_brand"]>
            (<["layer" := "inpi_api"]> (∅ : gmap string string)))).
  destruct (IH (br_patents ++ [r])) as (added & Heq & Hshape & Hnd & Hdiff).
  exists (r :: added). split_and!.
  - by rewrite Heq, <- app_assoc.
  - constructor; [|done]. split; [by simplify_map_eq|].
    by apply (inpi_record_shape title "inpi_brand").
  - rewrite fmap_cons. constructor; [|done].
    intros Hin. apply list_elem_of_fmap in Hin as (p & Hp & Hin).
    apply (Hdiff p r Hin); [|done]. apply elem_of_app. right.
    apply list_elem_of_here.
  - intros p q Hp Hq Heqn. apply elem_of_cons in Hp as [->|Hp].
    + apply Hex. apply Exists_exists. exists q. split; [done|].
      rewrite <- Heqn. apply lookup_insert_eq.
    + apply (Hdiff p q Hp); [|done]. apply elem_of_app. by left.
Qed.

(** X19.  The records of the direct search.  The phase never raises
    and reports as many records as it returns.  The records found for
    the molecule come first, then those added for the brand; every
    number starts with [BR] and has no space; a brand record is added
    only for a number no earlier record has, so the brand records have
    pairwise distinct numbers, none of them the number of a molecule
    record; and without a brand name there are no brand records. *)
Theorem _search_inpi_direct_shape (molecule_name : string)
    (brand_name : option string) (env : Env) :
  let found := (_search_inpi_direct molecule_name brand_name env).1 in
  ∃ molecule_records brand_records,
    inpi_br_patents found = molecule_records ++ brand_records
    ∧ inpi_total_found found = Z.of_nat (length (inpi_br_patents found))
    ∧ Forall (λ p, p !! "source" = Some "inpi_molecule") molecule_records
    ∧ Forall (λ p, p !! "source" = Some "inpi_brand") brand_records
    ∧ Forall (λ p, ∃ n, p !! "number" = Some n ∧ startswith "BR" n = true
                        ∧ replace " " "-" n = n
                        ∧ p !! "layer" = Some "inpi_api"
                        ∧ p !! "source_wo" = None)
        (inpi_br_patents found)
    ∧ NoDup ((λ p, p !! "number") <$> brand_records)
    ∧ (∀ p q, p ∈ brand_records → q ∈ molecule_records →
              p !! "number" ≠ q !! "number")
    ∧ (str_truthy brand_name = false → brand_records = []).
Proof.
  intros found. subst found. unfold _search_inpi_direct.
  assert (Hnil : ∀ mol : list (gmap string string),
     Forall (λ p, p !! "source" = Some "inpi_molecule"
                  ∧ ∃ n, p !! "number" = Some n ∧ startswith "BR" n = true
                         ∧ replace " " "-" n = n
                         ∧ p !! "layer" = Some "inpi_api"
                         ∧ p !! "source_wo" = None) mol →
     ∃ molecule_records brand_records,
       mol = molecule_records ++ brand_records
       ∧ Z.of_nat (length mol) = Z.of_nat (length mol)
       ∧ Forall (λ p, p !! "source" = Some "inpi_molecule") molecule_records
       ∧ Forall (λ p, p !! "source" = Some "inpi_brand") brand_records
       ∧ Forall (λ p, ∃ n, p !! "number" = Some n ∧ startswith "BR" n = true
                           ∧ replace " " "-" n = n
                           ∧ p !! "layer" = Some "inpi_api"
                           ∧ p !! "source_wo" = None) mol
       ∧ NoDup ((λ p, p !! "number") <$> brand_records)
       ∧ (∀ p q, p ∈ brand_records → q ∈ molecule_records →
                 p !! "number" ≠ q !! "number")
       ∧ (str_truthy brand_name = false → brand_records = [])).
  { intros mol Hmol. exists mol, []. rewrite app_nil_r.
    split_and!; try done; try constructor.
    - eapply Forall_impl; [exact Hmol|]. by intros p [? _].
    - eapply Forall_impl; [exact Hmol|]. by intros p [_ ?].
    - intros p q Hp. by apply elem_of_nil in Hp. }
  destruct (client_get _ env) as [[response|e] env1];
    [|cbn [fst inpi_br_patents inpi_total_found]; apply Hnil; constructor].
  set (mol := if status_code response =? 200 then _ else _).
  assert (Hmol : Forall (λ p, p !! "source" = Some "inpi_molecule"
                  ∧ ∃ n, p !! "number" = Some n ∧ startswith "BR" n = true
                         ∧ replace " " "-" n = n
                         ∧ p !! "layer" = Some "inpi_api"
                         ∧ p !! "source_wo" = None) mol).
  { unfold mol. destruct (_ =? _); [|constructor].
    unfold inpi_molecule_patents. apply Forall_fmap, Forall_forall.
    intros title Ht. apply list_elem_of_filter in Ht as [Hbr _].
    split; [by simplify_map_eq|].
    by apply (inpi_record_shape title "inpi_molecule"). }
  destruct (str_truthy brand_name) eqn:Hb;
    [|cbn [fst inpi_br_patents inpi_total_found]; by apply Hnil].
  destruct (client_get _ _) as [[response2|e] env2];
    [|cbn [fst inpi_br_patents inpi_total_found]; by apply Hnil].
  destruct (status_code response2 =? 200);
    [|cbn [fst inpi_br_patents inpi_total_found]; by apply Hnil].
  cbn [fst inpi_br_patents inpi_total_found].
  destruct (inpi_brand_patents_added (default [] (data response2)) mol)
    as (added & -> & Hshape & Hnd & Hdiff).
  exists mol, added. split_and!; try done.
  - eapply Forall_impl; [exact Hmol|]. by intros p [? _].
  - eapply Forall_impl; [exact Hshape|]. by intros p [? _].
  - apply Forall_app. split.
    + eapply Forall_impl; [exact Hmol|]. by intros p [_ ?].
    + eapply Forall_impl; [exact Hshape|]. by intros p [_ ?].
Qed.

End phases.

(** * The accounts of a run *)

Section run_accounts.
Import base_crawler crawler_manager v6_layered_orchestrator.
Context {Env : Type} `{!Runtime Env} `{!Backends Env} `{!Collaborators Env}.

Lemma get_br_patents_from_wo_totals wo_number target self env :
  let self' := (get_br_patents_from_wo wo_number target self env).1.1.2 in
  crawler_manager.total_requests self' = crawler_manager.total_requests self
  ∧ total_successes self' = total_successes self
  ∧ total_failures self' = total_failures self.
Proof.
  unfold get_br_patents_from_wo.
  destruct (strategies self !! target) as [strategy|]; [|done].
  rewrite get_br_patents_from_wo_loop_walk.
  destruct (walk _ _ _ _ _ _ _) as [[[[res nm] self'] env'] evs] eqn:Hw.
  destruct (walk_counters _ _ _ _ _ _ _ _ _ _ _ _ Hw)
    as (_ & _ & H3 & H4 & H5 & _).
  simpl in *. split_and!; lia.
Qed.

Lemma _convert_wo_to_br_loop_totals wo_numbers acc successful failed
    manager env :
  let manager' :=
    (_convert_wo_to_br_loop wo_numbers acc successful failed manager env).1.2 in
  crawler_manager.total_requests manager'
  = crawler_manager.total_requests manager
  ∧ total_successes manager' = total_successes manager
  ∧ total_failures manager' = total_failures manager.
Proof.
  revert acc successful failed manager env.
  induction wo_numbers as [|wo rest IH];
    intros acc successful failed manager env; [done|].
  cbn [_convert_wo_to_br_loop].
  pose proof (get_br_patents_from_wo_totals wo GOOGLE_PATENTS manager env)
    as (T1 & T2 & T3).
  destruct (get_br_patents_from_wo wo GOOGLE_PATENTS manager env)
    as [[[r manager1] env1] evs].
  cbn [fst snd] in T1, T2, T3. destruct r as [[brs used]|e]; [|done].
  destruct (list_truthy brs).
  - match goal with
    | |- context [_convert_wo_to_br_loop rest ?a ?s ?f ?m ?e] =>
        destruct (IH a s f m e) as (I1 & I2 & I3)
    end.
    cbn zeta. rewrite I1, I2, I3. done.
  - destruct (IH acc successful (failed + 1) manager1 (sleep (3 # 10) env1))
      as (I1 & I2 & I3).
    cbn zeta. rewrite I1, I2, I3. done.
Qed.

Lemma _convert_wo_to_br_totals wo_numbers manager env :
  let manager' := (_convert_wo_to_br wo_numbers manager env).1.2 in
  crawler_manager.total_requests manager'
  = crawler_manager.total_requests manager
  ∧ total_successes manager' = total_successes manager
  ∧ total_failures manager' = total_failures manager.
Proof.
  unfold _convert_wo_to_br. destruct (negb (list_truthy wo_numbers)); [done|].
  apply _convert_wo_to_br_loop_totals.
Qed.

Lemma _convert_wo_to_br_returns wo_numbers strategy manager env :
  strategies manager !! GOOGLE_PATENTS = Some strategy →
  ∃ conv manager' env',
    _convert_wo_to_br wo_numbers manager env = (Return conv, manager', env')
    ∧ Forall pipeline_record (wo_br_patents conv)
    ∧ strategies manager' = strategies manager.
Proof.
  intros Hs. unfold _convert_wo_to_br.
  destruct wo_numbers as [|wo rest].
  - exists (mkWoToBr [] 0 0), manager, env. simpl. by split_and!.
  - cbn [list_truthy negb].
    assert (H0 : Forall pipeline_record []) by constructor.
    destruct (_convert_wo_to_br_loop_returns (wo :: rest) strategy [] 0 0
                manager env Hs H0)
      as (conv & manager2 & env2 & Hc & Hrec & _ & _ & _ & Hst).
    by exists conv, manager2, env2.
Qed.

Lemma search_try_accounts molecule_name brand_name start_time manager env
    strategy :
  strategies manager !! GOOGLE_PATENTS = Some strategy →
  ∃ results manager' env' wo_data sm,
    search_try molecule_name brand_name start_time results_init manager env
    = (results, None, manager', env')
    ∧ wo_discovery results = Some wo_data
    ∧ summary results = Some sm
    ∧ statistics results = Some (manager', time env')
    ∧ execution_time results = time env' - start_time
    ∧ 10 ≤ queries_used wo_data ≤ 16
    ∧ histogram_total (v6_layered_orchestrator.layer_usage wo_data)
      = queries_used wo_data
    ∧ total_found wo_data = Z.of_nat (length (wo_numbers wo_data))
    ∧ total_successes manager' + total_failures manager'
      = total_successes manager + total_failures manager
        + queries_used wo_data
    ∧ histogram_total (by_source sm) = total_br_found sm
    ∧ strategies manager' = strategies manager.
Proof.
  intros Hs. unfold search_try.
  destruct (_get_pubchem_data molecule_name env) as [pubchem env0].
  unfold _discover_wo_numbers, search_wo_numbers_multi_query.
  set (queries := _build_wo_queries molecule_name (dev_codes pubchem)
                    (cas pubchem)).
  assert (Hq : (10 ≤ length queries ≤ 16)%nat).
  { unfold queries. rewrite build_wo_queries_count.
    destruct (str_truthy (cas pubchem)); lia. }
  destruct (multi_query_loop_strategies queries GOOGLE_PATENTS strategy 10 ∅ ∅
              manager env0 Hs)
    as (all' & usage' & manager1 & env1 & Hl & Hst).
  destruct (multi_query_loop_counts queries GOOGLE_PATENTS strategy 10 ∅ ∅
              manager env0 Hs)
    as (all2 & usage2 & manager2 & env2 & Hl2 & Hh & _ & _ & Hc); [done|].
  rewrite Hl in Hl2. injection Hl2 as <- <- <- <-.
  rewrite Hl. cbn beta iota zeta.
  set (wo_data := mkWoDiscovery _ _ _ _).
  assert (Hs1 : strategies manager1 !! GOOGLE_PATENTS = Some strategy)
    by by rewrite Hst.
  destruct (_convert_wo_to_br_returns (wo_numbers wo_data) strategy manager1
              env1 Hs1) as (conv & manager3 & env3 & Hcv & Hrec & Hst3).
  pose proof (_convert_wo_to_br_totals (wo_numbers wo_data) manager1 env1)
    as (T1 & T2 & T3).
  rewrite Hcv in T1, T2, T3. cbn [fst snd] in T1, T2, T3.
  rewrite Hcv. cbn beta iota zeta.
  pose proof (_search_inpi_direct_records molecule_name brand_name env3)
    as [Hin _].
  destruct (_search_inpi_direct molecule_name brand_name env3)
    as [inpi env4]. cbn [fst] in Hin.
  assert (Hall : Forall pipeline_record
                   (wo_br_patents conv ++ inpi_br_patents inpi))
    by (apply Forall_app; by split).
  rewrite (pipeline_records_merge _ _ Hall).
  eexists _, _, _, wo_data, _.
  split; [reflexivity|]. cbn.
  split_and!; try done; try lia.
  - apply count_by_source_sum.
  - by rewrite Hst3.
Qed.

(** X20.  The accounts of a completed run.  On a manager whose table
    has the discovery target, the run executes between 10 and 16
    queries; the discovery histogram adds up to that number; the
    manager in the reported statistics (taken before the clean-up) has
    counted exactly one success or failure per query, because the
    family expansion of phase 3 never touches the totals; the counts by
    source add up to the number of merged patents; and the strategy
    table is unchanged. *)
Theorem run_statistics (molecule_name : string) (brand_name : option string)
    (target_countries : list string) (manager : CrawlerManager) (env : Env)
    (strategy : list CrawlerLayer) :
  strategies manager !! GOOGLE_PATENTS = Some strategy →
  let results :=
    (search molecule_name brand_name target_countries manager env).1.1.1 in
  ∃ wo_data sm reported now,
    wo_discovery results = Some wo_data
    ∧ summary results = Some sm
    ∧ statistics results = Some (reported, now)
    ∧ execution_time results = now - time env
    ∧ 10 ≤ queries_used wo_data ≤ 16
    ∧ histogram_total (v6_layered_orchestrator.layer_usage wo_data)
      = queries_used wo_data
    ∧ total_found wo_data = Z.of_nat (length (wo_numbers wo_data))
    ∧ total_successes reported + total_failures reported
      = total_successes manager + total_failures manager
        + queries_used wo_data
    ∧ histogram_total (by_source sm) = total_br_found sm
    ∧ strategies reported = strategies manager.
Proof.
  intros Hs results. subst results. unfold search.
  destruct (search_try_accounts molecule_name brand_name (time env) manager
              env strategy Hs)
    as (results & manager' & env' & wo_data & sm & Ht & H1 & H2 & H3 & H4
        & H5 & H6 & H7 & H8 & H9 & H10).
  rewrite Ht.
  destruct (cleanup_all manager' env') as [[manager2 env2] cleaned].
  cbn [fst]. exists wo_data, sm, manager', (time env'). split_and!; first [done|lia].
Qed.

End run_accounts.

Section run_accounts_instances.
Import base_crawler crawler_manager v6_layered_orchestrator scenario.

Lemma run_statistics_witness :
  strategies crawler_manager.__init__ !! GOOGLE_PATENTS
  = Some [PLAYWRIGHT; SELENIUM; HTTPX]
  ∧ ∃ wo_data reported now,
      wo_discovery
        (search (Runtime0 := clock) (Backends0 := primary)
           (Collaborators0 := index) "Darolutamide" (Some "Nubeqa") ["BR"]
           crawler_manager.__init__ 1000).1.1.1
      = Some wo_data
      ∧ statistics
          (search (Runtime0 := clock) (Backends0 := primary)
             (Collaborators0 := index) "Darolutamide" (Some "Nubeqa") ["BR"]
             crawler_manager.__init__ 1000).1.1.1
        = Some (reported, now)
      ∧ queries_used wo_data = 10
      ∧ total_successes reported + total_failures reported = 10.
Proof.
  assert (Hs : strategies crawler_manager.__init__ !! GOOGLE_PATENTS
               = Some [PLAYWRIGHT; SELENIUM; HTTPX])
    by (vm_compute; reflexivity).
  split; [exact Hs|].
  destruct (run_statistics (Runtime0 := clock) (Backends0 := primary)
              (Collaborators0 := index) "Darolutamide" (Some "Nubeqa") ["BR"]
              crawler_manager.__init__ 1000 [PLAYWRIGHT; SELENIUM; HTTPX] Hs)
    as (wo_data & sm & reported & now & H1 & _ & H3 & _ & _ & _ & _ & H8 & _).
  exists wo_data, reported, now. split; [exact H1|]. split; [exact H3|].
  assert (Hq : queries_used wo_data = 10).
  { pose proof (f_equal (λ o, queries_used <$> o) H1) as Hq.
    vm_compute in Hq. injection Hq as Hq. symmetry. exact Hq. }
  split; [exact Hq|]. rewrite H8, Hq. reflexivity.
Defined.

End run_accounts_instances.

(** * The delays *)

Section delay_ranges.
Import delays.

Lemma max_spec a b :
  (a <= max a b)%Q ∧ (b <= max a b)%Q ∧ (max a b = a ∨ max a b = b).
Proof.
  unfold max. destruct (Qle_bool b a) eqn:E.
  - apply Qle_bool_iff in E. split_and!; [apply Qle_refl|done|by left].
  - assert (¬ (b <= a)%Q) by (rewrite <- Qle_bool_iff; congruence).
    split_and!; [|apply Qle_refl|by right].
    by apply Qlt_le_weak, Qnot_le_lt.
Qed.

Lemma min_spec a b :
  (min a b <= a)%Q ∧ (min a b <= b)%Q ∧ (min a b = a ∨ min a b = b).
Proof.
  unfold min. destruct (Qle_bool a b) eqn:E.
  - apply Qle_bool_iff in E. split_and!; [apply Qle_refl|done|by left].
  - assert (¬ (a <= b)%Q) by (rewrite <- Qle_bool_iff; congruence).
    split_and!; [|apply Qle_refl|by right].
    by apply Qlt_le_weak, Qnot_le_lt.
Qed.

Lemma random_delay_clamps (min_sec max_sec delay : Q) :
  (min_sec <= max_sec)%Q →
  (min_sec <= random_delay min_sec max_sec delay)%Q
  ∧ (random_delay min_sec max_sec delay <= max_sec)%Q.
Proof.
  intros Hle. unfold random_delay.
  destruct (max_spec min_sec (min max_sec delay)) as (M1 & M2 & M3).
  destruct (min_spec max_sec delay) as (N1 & N2 & N3).
  split; [done|]. by destruct M3 as [->| ->].
Qed.

(** X21.  The clamp of [random_delay].  When [min_sec ≤ max_sec], the
    delay lies between the two whatever the random sample is, a sample
    inside the range is the delay, and a sample outside it gives the
    nearer bound. *)
Theorem random_delay_in_range (min_sec max_sec delay : Q) :
  (min_sec <= max_sec)%Q →
  (min_sec <= random_delay min_sec max_sec delay)%Q
  ∧ (random_delay min_sec max_sec delay <= max_sec)%Q
  ∧ ((min_sec <= delay)%Q → (delay <= max_sec)%Q →
     (random_delay min_sec max_sec delay == delay)%Q)
  ∧ ((delay <= min_sec)%Q →
     (random_delay min_sec max_sec delay == min_sec)%Q)
  ∧ ((max_sec <= delay)%Q →
     (random_delay min_sec max_sec delay == max_sec)%Q).
Proof.
  intros Hle.
  destruct (random_delay_clamps min_sec max_sec delay Hle) as [H1 H2].
  split; [done|]. split; [done|]. unfold random_delay in *.
  destruct (max_spec min_sec (min max_sec delay)) as (M1 & M2 & M3).
  destruct (min_spec max_sec delay) as (N1 & N2 & N3).
  split_and!.
  - intros Hlo Hhi. apply Qle_antisym.
    + destruct M3 as [->| ->]; [done|done].
    + eapply Qle_trans; [|exact M2].
      destruct N3 as [->| ->]; [done|apply Qle_refl].
  - intros Hlo. apply Qle_antisym; [|done].
    destruct M3 as [->| ->]; [apply Qle_refl|].
    by eapply Qle_trans.
  - intros Hhi. apply Qle_antisym; [done|].
    eapply Qle_trans; [|exact M2].
    destruct N3 as [->| ->]; [apply Qle_refl|done].
Qed.

Lemma SITE_DELAYS_ranges site range :
  SITE_DELAYS !! site = Some range →
  (1 # 2 <= range.1)%Q ∧ (range.1 <= range.2)%Q ∧ (range.2 <= 30)%Q.
Proof.
  unfold SITE_DELAYS. intros H.
  repeat (apply lookup_insert_Some in H as [[_ <-]|[_ H]];
          [by vm_compute|]).
  by rewrite lookup_empty in H.
Qed.

(** X22.  The delay for a site.  [get_delay] returns for every site
    name and every random sample, never the [KeyError] of a missing
    default; every range of the table has its minimum below its
    maximum, so the delay lies in the range of the site, or in the
    default range of 2 to 5 seconds when the site is not in the table:
    always between half a second and 30 seconds, and at least 15
    seconds for Google Patents. *)
Theorem get_delay_in_site_range (site : string) (delay : Q) :
  ∃ d min_delay max_delay,
    get_delay site delay = Return d
    ∧ default (2, 5)%Q (SITE_DELAYS !! site) = (min_delay, max_delay)
    ∧ (min_delay <= d)%Q ∧ (d <= max_delay)%Q
    ∧ (1 # 2 <= d)%Q ∧ (d <= 30)%Q
    ∧ (site = "google_patents" → (15 <= d)%Q).
Proof.
  unfold get_delay.
  assert (Hd : SITE_DELAYS !! "default" = Some (2, 5)%Q)
    by (vm_compute; reflexivity).
  rewrite Hd.
  assert (Hr : ∃ range,
             default (2, 5)%Q (SITE_DELAYS !! site) = range
             ∧ (1 # 2 <= range.1)%Q ∧ (range.1 <= range.2)%Q
             ∧ (range.2 <= 30)%Q).
  { destruct (SITE_DELAYS !! site) as [range|] eqn:E.
    - exists range. split; [done|]. by apply (SITE_DELAYS_ranges site).
    - exists (2, 5)%Q. split; [done|]. by vm_compute. }
  destruct Hr as ([min_delay max_delay] & Heq & R1 & R2 & R3).
  rewrite Heq. cbn [fst snd] in R1, R2, R3.
  destruct (random_delay_clamps min_delay max_delay delay R2) as [H1 H2].
  exists (random_delay min_delay max_delay delay), min_delay, max_delay.
  split_and!; try done.
  - by eapply Qle_trans.
  - by eapply Qle_trans.
  - intros ->. assert (E : SITE_DELAYS !! "google_patents" = Some (15, 30)%Q)
      by (vm_compute; reflexivity).
    rewrite E in Heq. simpl in Heq. by injection Heq as <- <-.
Qed.

End delay_ranges.

Section delay_ranges_instances.
Import delays.

Lemma random_delay_in_range_witness :
  (15 <= 30)%Q
  ∧ (random_delay 15 30 (45 # 2) == 45 # 2)%Q
  ∧ (random_delay 15 30 9 == 15)%Q
  ∧ (random_delay 15 30 41 == 30)%Q.
Proof.
  assert (Hle : (15 <= 30)%Q) by (by vm_compute).
  split; [exact Hle|].
  split; [|split].
  - destruct (random_delay_in_range 15 30 (45 # 2) Hle) as (_ & _ & H & _).
    apply H; by vm_compute.
  - destruct (random_delay_in_range 15 30 9 Hle) as (_ & _ & _ & H & _).
    apply H; by vm_compute.
  - destruct (random_delay_in_range 15 30 41 Hle) as (_ & _ & _ & _ & H).
    apply H; by vm_compute.
Defined.

End delay_ranges_instances.

(** * The family expansion of a run *)

Section conversion.
Import base_crawler crawler_manager v6_layered_orchestrator.
Context {Env : Type} `{!Runtime Env} `{!Backends Env} `{!Collaborators Env}.

Lemma _convert_wo_to_br_loop_records wo_numbers (all : list string) strategy
    acc successful failed manager env :
  strategies manager !! GOOGLE_PATENTS = Some strategy →
  wo_numbers ⊆ all →
  Forall (λ p : gmap string string,
            p !! "source" = Some "wo_family"
            ∧ (∃ wo, wo ∈ all ∧ p !! "source_wo" = Some wo)
            ∧ is_Some (p !! "number") ∧ is_Some (p !! "layer")) acc →
  0 ≤ successful ≤ Z.of_nat (length acc) →
  (successful = 0 → acc = []) →
  ∃ conv manager' env',
    _convert_wo_to_br_loop wo_numbers acc successful failed manager env
    = (Return conv, manager', env')
    ∧ Forall (λ p : gmap string string,
                p !! "source" = Some "wo_family"
                ∧ (∃ wo, wo ∈ all ∧ p !! "source_wo" = Some wo)
                ∧ is_Some (p !! "number") ∧ is_Some (p !! "layer"))
        (wo_br_patents conv)
    ∧ 0 ≤ successful_conversions conv ≤ Z.of_nat (length (wo_br_patents conv))
    ∧ (successful_conversions conv = 0 → wo_br_patents conv = []).
Proof.
  revert acc successful failed manager env.
  induction wo_numbers as [|wo rest IH];
    intros acc successful failed manager env Hs Hsub Hacc Hle Hz.
  { exists (mkWoToBr acc successful failed), manager, env. by simpl. }
  cbn [_convert_wo_to_br_loop].
  destruct (get_br_patents_from_wo_run wo GOOGLE_PATENTS manager env _ Hs)
    as (brs & used & manager1 & env1 & evs & Hr & Hw).
  rewrite Hr.
  pose proof (walk_strategies _ _ _ _ _ _ _ _ _ _ _ _ Hw) as Hst.
  assert (Hs1 : strategies manager1 !! GOOGLE_PATENTS = Some strategy)
    by by rewrite Hst.
  assert (Hwo : wo ∈ all) by (apply Hsub, list_elem_of_here).
  assert (Hrest : rest ⊆ all).
  { intros x Hx. by apply Hsub, list_elem_of_further. }
  destruct brs as [|br brs]; cbn [list_truthy].
  - by apply IH.
  - apply IH; try done.
    + apply Forall_app. split; [done|].
      apply Forall_fmap, Forall_forall. intros b _. split_and!.
      * by simplify_map_eq.
      * exists wo. split; [done|]. by simplify_map_eq.
      * eexists. apply lookup_insert_eq.
      * eexists. by simplify_map_eq.
    + rewrite length_app, length_fmap. cbn [length]. lia.
    + lia.
Qed.

(** X23.  The records of the family expansion.  On a manager whose
    table has the expansion target the phase returns; every record it
    builds is tagged ['wo_family'], names as ['source_wo'] one of the
    identifiers it was given, and has a ['number'] and a ['layer'];
    there are at least as many records as successful conversions, and
    none exactly when no conversion succeeded; the manager's totals are
    untouched; and with no identifier at all nothing is called. *)
Theorem _convert_wo_to_br_records (wo_numbers : list string)
    (strategy : list CrawlerLayer) (manager : CrawlerManager) (env : Env) :
  strategies manager !! GOOGLE_PATENTS = Some strategy →
  ∃ conv manager' env',
    _convert_wo_to_br wo_numbers manager env = (Return conv, manager', env')
    ∧ Forall (λ p : gmap string string,
                p !! "source" = Some "wo_family"
                ∧ (∃ wo, wo ∈ wo_numbers ∧ p !! "source_wo" = Some wo)
                ∧ is_Some (p !! "number") ∧ is_Some (p !! "layer"))
        (wo_br_patents conv)
    ∧ 0 ≤ successful_conversions conv ≤ Z.of_nat (length (wo_br_patents conv))
    ∧ (successful_conversions conv = 0 ↔ wo_br_patents conv = [])
    ∧ crawler_manager.total_requests manager'
      = crawler_manager.total_requests manager
    ∧ total_successes manager' = total_successes manager
    ∧ total_failures manager' = total_failures manager
    ∧ (wo_numbers = [] → manager' = manager ∧ env' = env).
Proof.
  intros Hs.
  pose proof (_convert_wo_to_br_totals wo_numbers manager env) as (T1 & T2 & T3).
  unfold _convert_wo_to_br in *.
  destruct wo_numbers as [|wo rest].
  - exists (mkWoToBr [] 0 0), manager, env. simpl. by split_and!.
  - cbn [list_truthy negb] in *.
    assert (Hsub : wo :: rest ⊆ wo :: rest) by (by intros x Hx).
    assert (H0 : Forall (λ p : gmap string string,
                p !! "source" = Some "wo_family"
                ∧ (∃ wo0, wo0 ∈ wo :: rest ∧ p !! "source_wo" = Some wo0)
                ∧ is_Some (p !! "number") ∧ is_Some (p !! "layer")) [])
      by constructor.
    assert (Hle0 : 0 ≤ 0 ≤ Z.of_nat (length (@nil (gmap string string))))
      by (simpl; lia).
    destruct (_convert_wo_to_br_loop_records (wo :: rest) (wo :: rest) strategy
                [] 0 0 manager env Hs Hsub H0 Hle0 (λ _, eq_refl))
      as (conv & manager' & env' & Hc & Hrec & Hle & Hz).
    rewrite Hc in T1, T2, T3. cbn [fst snd] in T1, T2, T3.
    exists conv, manager', env'. split_and!; try done; try lia.
    split; [exact Hz|]. intros Hnil. rewrite Hnil in Hle. simpl in Hle. lia.
Qed.

(** X24.  A failed molecule lookup does not stop the run.  When the
    lookup raises, the discovery phase runs exactly the ten queries
    built from the molecule name alone, and the run completes without
    an error. *)
Theorem lookup_failure_runs_base_queries (molecule_name : string)
    (brand_name : option string) (target_countries : list string)
    (manager : CrawlerManager) (env : Env) (strategy : list CrawlerLayer)
    (e : string) :
  strategies manager !! GOOGLE_PATENTS = Some strategy →
  (get_molecule_data molecule_name env).1 = Raise e →
  let results :=
    (search molecule_name brand_name target_countries manager env).1.1.1 in
  error results = None
  ∧ molecule_info results = Some (mkPubchemData None None [] [])
  ∧ ∃ wo_data,
      wo_discovery results = Some wo_data ∧ queries_used wo_data = 10.
Proof.
  intros Hs He results. subst results. unfold search.
  destruct (search_try_configured molecule_name brand_name (time env) manager
              env strategy Hs)
    as (results & manager' & env' & wo_data & conv & inpi & sm & Ht & Herr
        & H1 & _).
  assert (Hq : molecule_info results = Some (mkPubchemData None None [] [])
               ∧ queries_used wo_data = 10).
  { revert Ht. unfold search_try, _get_pubchem_data.
    destruct (get_molecule_data molecule_name env) as [r env0].
    simpl in He. subst r.
    unfold _discover_wo_numbers.
    destruct (search_wo_numbers_multi_query _ _ _ _ _) as [[r1 m1] e1].
    destruct r1 as [[wo usage]|e1']; [|discriminate].
    destruct (_convert_wo_to_br _ _ _) as [[r2 m2] e2].
    destruct r2 as [conv2|e2']; [|discriminate].
    destruct (_search_inpi_direct _ _ _) as [inpi2 e3].
    destruct (_deduplicate_br_patents _ _) as [all|e4]; [|discriminate].
    intros [= <- _ _]. simpl in H1. injection H1 as <-. by split. }
  rewrite Ht.
  destruct (cleanup_all manager' env') as [[manager2 env2] cleaned].
  cbn [fst]. destruct Hq as [Hm Hq]. split; [done|]. split; [done|].
  by exists wo_data.
Qed.

End conversion.

Section conversion_instances.
Import base_crawler crawler_manager v6_layered_orchestrator scenario.

Lemma _convert_wo_to_br_records_witness :
  strategies crawler_manager.__init__ !! GOOGLE_PATENTS
  = Some [PLAYWRIGHT; SELENIUM; HTTPX]
  ∧ ∃ conv manager' env',
      _convert_wo_to_br (Runtime0 := clock) (Backends0 := primary)
        ["WO2016140201"; "WO2011140324"] crawler_manager.__init__ 1000
      = (Return conv, manager', env')
      ∧ wo_br_patents conv = [family_record]
      ∧ successful_conversions conv = 1
      ∧ failed_conversions conv = 1
      ∧ crawler_manager.total_requests manager' = 0.
Proof.
  assert (Hs : strategies crawler_manager.__init__ !! GOOGLE_PATENTS
               = Some [PLAYWRIGHT; SELENIUM; HTTPX])
    by (vm_compute; reflexivity).
  split; [exact Hs|].
  destruct (_convert_wo_to_br_records (Runtime0 := clock) (Backends0 := primary)
              ["WO2016140201"; "WO2011140324"] [PLAYWRIGHT; SELENIUM; HTTPX]
              crawler_manager.__init__ 1000 Hs)
    as (conv & manager' & env' & Hc & _ & _ & _ & T1 & _).
  exists conv, manager', env'. split; [exact Hc|].
  pose proof (f_equal (λ x, x.1.1) Hc) as Hconv. vm_compute in Hconv.
  injection Hconv as <-. split_and!; try (vm_compute; reflexivity).
  rewrite T1. reflexivity.
Defined.

Lemma lookup_failure_runs_base_queries_witness :
  strategies crawler_manager.__init__ !! GOOGLE_PATENTS
  = Some [PLAYWRIGHT; SELENIUM; HTTPX]
  ∧ (get_molecule_data (Collaborators := index) "Darolutamide" 1000).1
    = Raise "ConnectionError"
  ∧ error
      (search (Runtime0 := clock) (Backends0 := primary)
         (Collaborators0 := index) "Darolutamide" (Some "Nubeqa") ["BR"]
         crawler_manager.__init__ 1000).1.1.1
    = None.
Proof.
  assert (Hs : strategies crawler_manager.__init__ !! GOOGLE_PATENTS
               = Some [PLAYWRIGHT; SELENIUM; HTTPX])
    by (vm_compute; reflexivity).
  assert (He : (get_molecule_data (Collaborators := index) "Darolutamide"
                  1000).1 = Raise "ConnectionError")
    by (vm_compute; reflexivity).
  split; [exact Hs|]. split; [exact He|].
  destruct (lookup_failure_runs_base_queries (Runtime0 := clock)
              (Backends0 := primary) (Collaborators0 := index)
              "Darolutamide" (Some "Nubeqa") ["BR"] crawler_manager.__init__
              1000 [PLAYWRIGHT; SELENIUM; HTTPX] "ConnectionError" Hs He)
    as (H & _).
  exact H.
Defined.

End conversion_instances.
